(** * tutor-contrib-newrelic: the NerdGraph provisioning client

    A shallow embedding of [tutornewrelic/newrelic/client.py] (the
    [NewRelicClient] class) and of the [create_alert_workflow] command of
    [tutornewrelic/commands.py], followed by the properties of the
    transport layer, of the lookups and creations, and of the orchestration.

    Conventions of the embedding:
    - JSON documents (the decoded response bodies and the [variables] of a
      request) are values of [json]; the Python operations the client applies
      to them ([d.get(k)], [d[k]], truthiness, iteration, [==] against a
      [str]) are written out with the exceptions they raise;
    - a method of the client is a computation in the monad [M]: it threads
      the state of the remote platform and either returns or raises;
    - the remote platform is a parameter: a function from its state and a
      request to its next state and an HTTP response;
    - [str.title], which the command applies to the instance name, is a
      parameter of the command as well: the properties hold for every title
      function, Python's among them. *)

From Stdlib Require Import String Ascii List ZArith Bool Lia.
From Stdlib Require Import DecimalString.
Import ListNotations.
Set Warnings "-register-all".
Local Open Scope list_scope.
Local Open Scope string_scope.

(** ** Python strings *)

Module PyStr.

Definition is_upper (c : ascii) : bool :=
  let n := nat_of_ascii c in Nat.leb 65 n && Nat.leb n 90.

Definition is_lower (c : ascii) : bool :=
  let n := nat_of_ascii c in Nat.leb 97 n && Nat.leb n 122.

Definition to_lower (c : ascii) : ascii :=
  if is_upper c then ascii_of_nat (nat_of_ascii c + 32) else c.

Definition to_upper (c : ascii) : ascii :=
  if is_lower c then ascii_of_nat (nat_of_ascii c - 32) else c.

(** [str.lower()], on the ASCII letters. No character outside ASCII has
    [e] or [u] as its lower case, so the comparison of [lower region]
    with ["eu"] is the one Python makes. *)
Fixpoint lower (s : string) : string :=
  match s with
  | EmptyString => EmptyString
  | String c rest => String (to_lower c) (lower rest)
  end.

(** [str.title()] on strings of ASCII characters: a letter that follows a
    letter is lowered, any other letter is raised. On other strings it is
    not Python's function, which knows the case of every Unicode letter:
    the command below takes its title function as given, and this one
    stands for it in the examples only, whose names are ASCII. *)
Fixpoint title_from (previous_is_cased : bool) (s : string) : string :=
  match s with
  | EmptyString => EmptyString
  | String c rest =>
      if is_upper c || is_lower c
      then String (if previous_is_cased then to_lower c else to_upper c)
                  (title_from true rest)
      else String c (title_from false rest)
  end.

Definition title (s : string) : string := title_from false s.

(** The characters of a string, each as a string of length one. *)
Fixpoint chars (s : string) : list string :=
  match s with
  | EmptyString => []
  | String c rest => String c EmptyString :: chars rest
  end.

End PyStr.

(** ** JSON values and the Python operations on them *)

(** A decoded JSON document. A dict is an association list, read by its
    first binding of a key. Numbers are integers: the client computes with
    none, it only tests their truth and hands them to the response types. *)
Inductive json : Type :=
| JNull
| JBool (b : bool)
| JNum (n : Z)
| JStr (s : string)
| JList (items : list json)
| JObj (fields : list (string * json)).

(** What [NerdGraphAPIError] is raised with: the raw body
    ([response.text]), the decoded response, the message
    [f"Unexpected NerdGraph error: {response}"] (kept as the value it
    formats), or a fixed message. *)
Inductive payload : Type :=
| RawBody (body : string)
| Decoded (response : json)
| Unexpected (response : json)
| Message (msg : string).

(** The exceptions the client can end with. [NerdGraphAPIError] is the
    client's own; the others are Python's and pydantic's. *)
Inductive error : Type :=
| NerdGraphAPIError (p : payload)
| KeyError (key : string)
| TypeError
| AttributeError
| JSONDecodeError
| ValidationError.

Inductive result (A : Type) : Type :=
| Ok (a : A)
| Err (e : error).
Arguments Ok {A} a.
Arguments Err {A} e.

Module Py.

Fixpoint lookup (key : string) (fields : list (string * json)) : option json :=
  match fields with
  | [] => None
  | (k, v) :: rest => if String.eqb k key then Some v else lookup key rest
  end.

(** [d.get(key)]: [None] when the key is absent; only a dict has [get]. *)
Definition get (d : json) (key : string) : result json :=
  match d with
  | JObj fields =>
      match lookup key fields with Some v => Ok v | None => Ok JNull end
  | _ => Err AttributeError
  end.

(** [d[key]] with a [str] key. *)
Definition getitem (d : json) (key : string) : result json :=
  match d with
  | JObj fields =>
      match lookup key fields with Some v => Ok v | None => Err (KeyError key) end
  | _ => Err TypeError
  end.

(** [d[k1][k2]...[kn]], subscripted from left to right. *)
Fixpoint getpath (d : json) (keys : list string) : result json :=
  match keys with
  | [] => Ok d
  | k :: rest =>
      match getitem d k with
      | Ok v => getpath v rest
      | Err e => Err e
      end
  end.

(** [bool(v)]. *)
Definition truthy (v : json) : bool :=
  match v with
  | JNull => false
  | JBool b => b
  | JNum n => negb (Z.eqb n 0)
  | JStr s => negb (String.eqb s "")
  | JList items => match items with [] => false | _ => true end
  | JObj fields => match fields with [] => false | _ => true end
  end.

(** [for x in v]: a list gives its items, a dict its keys, a string its
    characters; nothing else is iterable. *)
Definition iter (v : json) : result (list json) :=
  match v with
  | JList items => Ok items
  | JObj fields => Ok (map (fun kv => JStr (fst kv)) fields)
  | JStr s => Ok (map JStr (PyStr.chars s))
  | _ => Err TypeError
  end.

(** [v == s] for a [str] [s]. *)
Definition eq_str (v : json) (s : string) : bool :=
  match v with JStr s' => String.eqb s' s | _ => false end.

(** [v is None]. *)
Definition is_none (v : json) : bool :=
  match v with JNull => true | _ => false end.

End Py.

(** ** Response types (pydantic models) *)

Record Response : Type := { id : string; name : string }.

Record SyntheticsMonitorResponse : Type :=
  { monitor_id : string; monitor_name : string; uri : string }.

(** A [SyntheticsMonitorResponse] is a [Response]. *)
Definition as_Response (m : SyntheticsMonitorResponse) : Response :=
  {| id := monitor_id m; name := monitor_name m |}.

(** [Response(id=.., name=..)]: both fields are declared [str]; the model
    validates its input and refuses what is not a string (pydantic 2, which
    the unpinned requirement installs). *)
Definition new_Response (id_value name_value : json) : result Response :=
  match id_value, name_value with
  | JStr i, JStr n => Ok {| id := i; name := n |}
  | _, _ => Err ValidationError
  end.

Definition new_SyntheticsMonitorResponse (id_value name_value : json) (u : string)
  : result SyntheticsMonitorResponse :=
  match id_value, name_value with
  | JStr i, JStr n => Ok {| monitor_id := i; monitor_name := n; uri := u |}
  | _, _ => Err ValidationError
  end.

(** ** Requests and responses on the wire *)

(** The twelve GraphQL documents of the client, one per method. Each is a
    literal text in the source; only its identity matters here. *)
Inductive document : Type :=
| PoliciesSearch
| AlertsPolicyCreate
| EntitySearch
| SyntheticsCreateSimpleMonitor
| NrqlConditionsSearch
| AlertsNrqlConditionStaticCreate
| DestinationsSearch
| AiNotificationsCreateDestination
| ChannelsSearch
| AiNotificationsCreateChannel
| WorkflowsSearch
| AiWorkflowsCreateWorkflow.

(** The arguments of [requests.post]: the URL, the headers and the two
    fields of the JSON body. *)
Record request : Type :=
  { req_url : string;
    req_headers : list (string * string);
    req_query : document;
    req_variables : json }.

(** What the client reads of the HTTP response: [status_code], [text], and
    [json.loads(content)], which is [None] when the body is not JSON. *)
Record http_response : Type :=
  { status_code : Z;
    text : string;
    content : option json }.

(** ** The client *)

Record NewRelicClient : Type :=
  { account_id : Z;
    api_base_url : string;
    api_key : string }.

(** [NewRelicClient.__init__]. *)
Definition NewRelicClient_init (key : string) (account : Z) (region : string)
  : NewRelicClient :=
  let api_region := if String.eqb (PyStr.lower region) "eu" then ".eu" else "" in
  {| account_id := account;
     api_base_url := "https://api" ++ api_region ++ ".newrelic.com/graphql";
     api_key := key |}.

(** The calls of the client, as the trace records them. *)
Inductive call : Type :=
| GetAlertPolicy (name : string)
| CreateAlertPolicy (name : string)
| GetSyntheticsMonitor (name : string)
| CreateSyntheticsMonitor (name uri period : string) (locations : list string)
| GetAlertCondition (monitor_name : string)
| CreateAlertCondition (monitor_name uri policy_id : string)
| GetNotificationDestination (name : string)
| CreateNotificationDestination (name recipient : string)
| GetNotificationChannel (name : string)
| CreateNotificationChannel (name destination_id : string)
| GetAiWorkflow (instance_name : string)
| CreateAiWorkflow (instance_name policy_id channel_id : string).

Definition is_create (c : call) : bool :=
  match c with
  | CreateAlertPolicy _ | CreateSyntheticsMonitor _ _ _ _
  | CreateAlertCondition _ _ _ | CreateNotificationDestination _ _
  | CreateNotificationChannel _ _ | CreateAiWorkflow _ _ _ => true
  | _ => false
  end.

Definition is_get (c : call) : bool := negb (is_create c).

Section Client.

(** The remote platform. *)
Variable remote_state : Type.
Variable post : remote_state -> request -> remote_state * http_response.

(** One finished call of the client: what was called, how it ended, and
    the state of the platform when it ended. The trace is ghost state:
    the source keeps none, it is what an observer of the run would
    write down. *)
Record event : Type :=
  { ev_call : call;
    ev_outcome : result (option Response);
    ev_remote : remote_state }.

Record world : Type :=
  { remote : remote_state;
    trace : list event }.

Definition M (A : Type) : Type := world -> result A * world.

Definition ret {A} (a : A) : M A := fun w => (Ok a, w).

Definition raise {A} (e : error) : M A := fun w => (Err e, w).

Definition bind {A B} (m : M A) (k : A -> M B) : M B :=
  fun w =>
    match m w with
    | (Ok a, w') => k a w'
    | (Err e, w') => (Err e, w')
    end.

Definition lift {A} (r : result A) : M A := fun w => (r, w).

Notation "x <- m ;; k" := (bind m (fun x => k))
  (at level 61, m at next level, right associativity).

(** [for x in xs: body(x)]. *)
Fixpoint for_each {A} (xs : list A) (body : A -> M unit) : M unit :=
  match xs with
  | [] => ret tt
  | x :: rest => _ <- body x ;; for_each rest body
  end.

(** Records the call that [body] implements, once it has ended. *)
Definition traced {A} (view : A -> option Response) (c : call) (body : M A) : M A :=
  fun w =>
    let (r, w') := body w in
    let outcome := match r with Ok a => Ok (view a) | Err e => Err e end in
    (r, {| remote := remote w';
           trace := app (trace w') [{| ev_call := c; ev_outcome := outcome;
                                       ev_remote := remote w' |}] |}).

(** The request [__send_request] posts. *)
Definition post_request (c : NewRelicClient) (query : document) (variables : json)
  : request :=
  {| req_url := api_base_url c;
     req_headers := [("API-Key", api_key c)];
     req_query := query;
     req_variables := variables |}.

(** [NewRelicClient.__send_request]. *)
Definition send_request (c : NewRelicClient) (query : document)
    (variables : option json) : M json :=
  fun w =>
    let variables := match variables with Some v => v | None => JObj [] end in
    let (s, response) := post (remote w) (post_request c query variables) in
    let w' := {| remote := s; trace := trace w |} in
    if negb (Z.eqb (status_code response) 200)
    then (Err (NerdGraphAPIError (RawBody (text response))), w')
    else
      match content response with
      | None => (Err JSONDecodeError, w')
      | Some response =>
          match Py.get response "errors" with
          | Err e => (Err e, w')
          | Ok errors =>
              if Py.truthy errors
              then (Err (NerdGraphAPIError (Decoded response)), w')
              else (Py.getitem response "data", w')
          end
      end.

(** The loop every [get_*] method ends with:
    [for entity in entities: if entity["name"] == name: return
    Response(id=entity[id_key], name=entity["name"])], then [return None]. *)
Fixpoint first_named (id_key name : string) (entities : list json)
  : result (option Response) :=
  match entities with
  | [] => Ok None
  | entity :: rest =>
      match Py.getitem entity "name" with
      | Err e => Err e
      | Ok n =>
          if Py.eq_str n name
          then
            match Py.getitem entity id_key with
            | Err e => Err e
            | Ok i =>
                match new_Response i n with
                | Ok r => Ok (Some r)
                | Err e => Err e
                end
            end
          else first_named id_key name rest
      end
  end.

Definition search (id_key name : string) (entities : json) : M (option Response) :=
  match Py.iter entities with
  | Err e => raise e
  | Ok items => lift (first_named id_key name items)
  end.

(** The [variables] of [get_alert_policy]. *)
Definition get_alert_policy_variables (c : NewRelicClient) (name : string) : json :=
  JObj [("accountId", JNum (account_id c)); ("name", JStr name)].

Definition get_alert_policy (c : NewRelicClient) (name : string)
  : M (option Response) :=
  traced (fun r => r) (GetAlertPolicy name)
    (let variables := get_alert_policy_variables c name in
     response <- send_request c PoliciesSearch (Some variables) ;;
     alerts <- lift (Py.getpath response ["actor"; "account"; "alerts"]) ;;
     policies <- lift (Py.getpath alerts ["policiesSearch"; "policies"]) ;;
     search "id" name policies).

(** The [variables] of [create_alert_policy]. *)
Definition create_alert_policy_variables (c : NewRelicClient) (name : string) : json :=
  JObj [("accountId", JNum (account_id c)); ("name", JStr name)].

Definition create_alert_policy (c : NewRelicClient) (name : string) : M Response :=
  traced Some (CreateAlertPolicy name)
    (let variables := create_alert_policy_variables c name in
     response <- send_request c AlertsPolicyCreate (Some variables) ;;
     response <- lift (Py.getitem response "alertsPolicyCreate") ;;
     i <- lift (Py.getitem response "id") ;;
     n <- lift (Py.getitem response "name") ;;
     lift (new_Response i n)).

(** The [variables] of [get_synthetics_monitor]. *)
Definition get_synthetics_monitor_variables (c : NewRelicClient) (name : string) : json :=
  JObj [("query",
         JStr ("domain = 'SYNTH' AND type = 'MONITOR' AND name = '" ++ name ++ "'"))].

Definition get_synthetics_monitor (c : NewRelicClient) (name : string)
  : M (option Response) :=
  traced (fun r => r) (GetSyntheticsMonitor name)
    (let variables := get_synthetics_monitor_variables c name in
     response <- send_request c EntitySearch (Some variables) ;;
     entities <- lift (Py.getpath response ["actor"; "entitySearch"; "results"; "entities"]) ;;
     search "guid" name entities).

(** The [variables] of [create_synthetics_monitor]. *)
Definition create_synthetics_monitor_variables (c : NewRelicClient)
    (name uri period : string) (locations : list string) : json :=
  JObj [("accountId", JNum (account_id c));
        ("monitor",
         JObj [("name", JStr name);
               ("period", JStr period);
               ("uri", JStr uri);
               ("status", JStr "ENABLED");
               ("locations", JObj [("public", JList (map JStr locations))])])].

Definition create_synthetics_monitor (c : NewRelicClient)
    (name uri period : string) (locations : list string)
  : M SyntheticsMonitorResponse :=
  traced (fun m => Some (as_Response m))
    (CreateSyntheticsMonitor name uri period locations)
    (let variables := create_synthetics_monitor_variables c name uri period locations in
     response <- send_request c SyntheticsCreateSimpleMonitor (Some variables) ;;
     errors <- lift (Py.get response "errors") ;;
     if Py.truthy errors
     then raise (NerdGraphAPIError (Unexpected response))
     else
       response <- lift (Py.getitem response "syntheticsCreateSimpleMonitor") ;;
       i <- lift (Py.getpath response ["monitor"; "id"]) ;;
       n <- lift (Py.getpath response ["monitor"; "name"]) ;;
       lift (new_SyntheticsMonitorResponse i n uri)).

(** The [variables] of [get_alert_condition]. *)
Definition get_alert_condition_variables (c : NewRelicClient) (monitor_name : string) : json :=
  let condition_name := "Lost signal for " ++ monitor_name in
  JObj [("accountId", JNum (account_id c)); ("name", JStr condition_name)].

Definition get_alert_condition (c : NewRelicClient) (monitor_name : string)
  : M (option Response) :=
  traced (fun r => r) (GetAlertCondition monitor_name)
    (let condition_name := "Lost signal for " ++ monitor_name in
     let variables := get_alert_condition_variables c monitor_name in
     response <- send_request c NrqlConditionsSearch (Some variables) ;;
     alerts <- lift (Py.getpath response ["actor"; "account"; "alerts"]) ;;
     conditions <- lift (Py.getpath alerts ["nrqlConditionsSearch"; "nrqlConditions"]) ;;
     search "id" condition_name conditions).

(** The [variables] of [create_alert_condition]. *)
Definition create_alert_condition_variables (c : NewRelicClient)
    (monitor_name uri policy_id : string) : json :=
  JObj [("accountId", JNum (account_id c));
        ("policyId", JStr policy_id);
        ("condition",
         JObj [("name", JStr ("Lost signal for " ++ monitor_name));
               ("enabled", JBool true);
               ("description",
                JStr ("Alert when " ++ monitor_name ++ " is not responding"));
               ("valueFunction", JStr "SUM");
               ("violationTimeLimitSeconds", JNum 86400);
               ("nrql",
                JObj [("query",
                       JStr ("SELECT count(*) FROM SyntheticCheck WHERE monitorName = '"
                             ++ monitor_name ++ "' AND result = 'FAILED'"))]);
               ("signal",
                JObj [("aggregationWindow", JNum 60);
                      ("aggregationMethod", JStr "EVENT_FLOW");
                      ("aggregationDelay", JNum 120);
                      ("fillOption", JStr "STATIC");
                      ("fillValue", JNum 0)]);
               ("terms",
                JList [JObj [("threshold", JNum 1);
                             ("thresholdOccurrences", JStr "AT_LEAST_ONCE");
                             ("thresholdDuration", JNum 360);
                             ("operator", JStr "ABOVE");
                             ("priority", JStr "WARNING")];
                       JObj [("threshold", JNum 2);
                             ("thresholdOccurrences", JStr "AT_LEAST_ONCE");
                             ("thresholdDuration", JNum 660);
                             ("operator", JStr "ABOVE");
                             ("priority", JStr "CRITICAL")]]);
               ("expiration",
                JObj [("expirationDuration", JNum 660);
                      ("openViolationOnExpiration", JBool false);
                      ("closeViolationsOnExpiration", JBool true)])])].

Definition create_alert_condition (c : NewRelicClient)
    (monitor_name uri policy_id : string) : M Response :=
  traced Some (CreateAlertCondition monitor_name uri policy_id)
    (let variables := create_alert_condition_variables c monitor_name uri policy_id in
     response <- send_request c AlertsNrqlConditionStaticCreate (Some variables) ;;
     response <- lift (Py.getitem response "alertsNrqlConditionStaticCreate") ;;
     i <- lift (Py.getitem response "id") ;;
     n <- lift (Py.getitem response "name") ;;
     lift (new_Response i n)).

(** The [variables] of [get_notification_destination]. *)
Definition get_notification_destination_variables (c : NewRelicClient) (name : string) : json :=
  JObj [("accountId", JNum (account_id c)); ("name", JStr name)].

Definition get_notification_destination (c : NewRelicClient) (name : string)
  : M (option Response) :=
  traced (fun r => r) (GetNotificationDestination name)
    (let variables := get_notification_destination_variables c name in
     response <- send_request c DestinationsSearch (Some variables) ;;
     destinations <-
       lift (Py.getpath response ["actor"; "account"; "aiNotifications"; "destinations"]) ;;
     entities <- lift (Py.getitem destinations "entities") ;;
     search "id" name entities).

(** The [variables] of [create_notification_destination]. *)
Definition create_notification_destination_variables (c : NewRelicClient)
    (name recipient : string) : json :=
  JObj [("accountId", JNum (account_id c));
        ("name", JStr name);
        ("recipient", JStr recipient)].

Definition create_notification_destination (c : NewRelicClient)
    (name recipient : string) : M Response :=
  traced Some (CreateNotificationDestination name recipient)
    (let variables := create_notification_destination_variables c name recipient in
     response <- send_request c AiNotificationsCreateDestination (Some variables) ;;
     err <- lift (Py.get response "error") ;;
     if Py.truthy err
     then raise (NerdGraphAPIError (Unexpected response))
     else
       response <- lift (Py.getitem response "aiNotificationsCreateDestination") ;;
       i <- lift (Py.getpath response ["destination"; "id"]) ;;
       n <- lift (Py.getpath response ["destination"; "name"]) ;;
       lift (new_Response i n)).

(** The [variables] of [get_notification_channel]. *)
Definition get_notification_channel_variables (c : NewRelicClient) (name : string) : json :=
  JObj [("accountId", JNum (account_id c)); ("name", JStr name)].

Definition get_notification_channel (c : NewRelicClient) (name : string)
  : M (option Response) :=
  traced (fun r => r) (GetNotificationChannel name)
    (let variables := get_notification_channel_variables c name in
     response <- send_request c ChannelsSearch (Some variables) ;;
     channels <-
       lift (Py.getpath response ["actor"; "account"; "aiNotifications"; "channels"]) ;;
     entities <- lift (Py.getitem channels "entities") ;;
     search "id" name entities).

(** The method's name is spelled this way in the source. *)
(** The [variables] of [create_notificaiton_channel]. *)
Definition create_notificaiton_channel_variables (c : NewRelicClient)
    (name destination_id : string) : json :=
  JObj [("accountId", JNum (account_id c));
        ("name", JStr name);
        ("destinationId", JStr destination_id)].

Definition create_notificaiton_channel (c : NewRelicClient)
    (name destination_id : string) : M Response :=
  traced Some (CreateNotificationChannel name destination_id)
    (let variables := create_notificaiton_channel_variables c name destination_id in
     response <- send_request c AiNotificationsCreateChannel (Some variables) ;;
     err <- lift (Py.get response "error") ;;
     if Py.truthy err
     then raise (NerdGraphAPIError (Unexpected response))
     else
       response <- lift (Py.getitem response "aiNotificationsCreateChannel") ;;
       i <- lift (Py.getpath response ["channel"; "id"]) ;;
       n <- lift (Py.getpath response ["channel"; "name"]) ;;
       lift (new_Response i n)).

(** The [variables] of [get_ai_workflow]. *)
Definition get_ai_workflow_variables (c : NewRelicClient) (instance_name : string) : json :=
  let workflow_name :=
    "Alert intelligence workflow of " ++ instance_name ++ " instance" in
  JObj [("accountId", JNum (account_id c)); ("name", JStr workflow_name)].

Definition get_ai_workflow (c : NewRelicClient) (instance_name : string)
  : M (option Response) :=
  traced (fun r => r) (GetAiWorkflow instance_name)
    (let workflow_name :=
       "Alert intelligence workflow of " ++ instance_name ++ " instance" in
     let variables := get_ai_workflow_variables c instance_name in
     response <- send_request c WorkflowsSearch (Some variables) ;;
     workflows <-
       lift (Py.getpath response ["actor"; "account"; "aiWorkflows"; "workflows"]) ;;
     entities <- lift (Py.getitem workflows "entities") ;;
     search "id" workflow_name entities).

(** The [variables] of [create_ai_workflow]. *)
Definition create_ai_workflow_variables (c : NewRelicClient)
    (instance_name policy_id channel_id : string) : json :=
  JObj [("accountId", JNum (account_id c));
        ("name",
         JStr ("Alert intelligence workflow of " ++ instance_name ++ " instance"));
        ("filterName",
         JStr ("matching issues of " ++ instance_name ++ " instance"));
        ("policyIds", JList [JStr policy_id]);
        ("channelId", JStr channel_id)].

Definition create_ai_workflow (c : NewRelicClient)
    (instance_name policy_id channel_id : string) : M Response :=
  traced Some (CreateAiWorkflow instance_name policy_id channel_id)
    (let variables := create_ai_workflow_variables c instance_name policy_id channel_id in
     response <- send_request c AiWorkflowsCreateWorkflow (Some variables) ;;
     errors <- lift (Py.get response "errors") ;;
     if Py.truthy errors
     then raise (NerdGraphAPIError (Unexpected response))
     else
       response <- lift (Py.getitem response "aiWorkflowsCreateWorkflow") ;;
       workflow <- lift (Py.getitem response "workflow") ;;
       if Py.is_none workflow
       then raise (NerdGraphAPIError (Message "A workflow with the given name already exists"))
       else
         i <- lift (Py.getitem workflow "id") ;;
         n <- lift (Py.getitem workflow "name") ;;
         lift (new_Response i n)).

(** ** The command ([commands.py]) *)

(** One entry of [NEWRELIC_SYNTHETICS_MONITORS]. *)
Record monitor_config : Type :=
  { recipient : string;
    urls : list string }.

(** The loaded configuration, with the values converted as the command
    converts them ([str], [int]). *)
Record config : Type :=
  { NEWRELIC_NAME : string;
    NEWRELIC_API_KEY : string;
    NEWRELIC_ACCOUNT_ID : Z;
    NEWRELIC_REGION_CODE : string;
    NEWRELIC_SYNTHETICS_MONITORS : list monitor_config;
    NEWRELIC_MONITORING_PERIOD : string;
    NEWRELIC_MONITORING_LOCATION : string }.

(** [str.title], Python's title-casing of a string, taken as given: it
    works on Unicode characters, which the strings here, sequences of
    bytes, do not show. *)
Variable title : string -> string.

(** [create_alert_workflow], from the construction of the client to the
    end of the loops. The two [click.echo] lines around them are process
    output and are left out. *)
Definition create_alert_workflow (loaded_config : config) : M unit :=
  let instance_name := NEWRELIC_NAME loaded_config in
  let client :=
    NewRelicClient_init (NEWRELIC_API_KEY loaded_config)
                        (NEWRELIC_ACCOUNT_ID loaded_config)
                        (NEWRELIC_REGION_CODE loaded_config) in
  let policy_name := title instance_name ++ " - Open edX Instance" in
  found <- get_alert_policy client policy_name ;;
  policy <- match found with
            | Some policy => ret policy
            | None => create_alert_policy client policy_name
            end ;;
  for_each (NEWRELIC_SYNTHETICS_MONITORS loaded_config) (fun monitor_config =>
    let dst_name := "Default notification channel for " ++ instance_name in
    found <- get_notification_destination client dst_name ;;
    destination <- match found with
                   | Some destination => ret destination
                   | None =>
                       create_notification_destination client
                         ("Default notification channel for " ++ instance_name)
                         (recipient monitor_config)
                   end ;;
    let channel_name := "Default notification channel for " ++ instance_name in
    found <- get_notification_channel client channel_name ;;
    channel <- match found with
               | Some channel => ret channel
               | None =>
                   create_notificaiton_channel client
                     ("Default notification channel for " ++ instance_name)
                     (id destination)
               end ;;
    found <- get_ai_workflow client instance_name ;;
    workflow <- match found with
                | Some workflow => ret workflow
                | None =>
                    create_ai_workflow client instance_name (id policy) (id channel)
                end ;;
    for_each (urls monitor_config) (fun url =>
      found <- get_synthetics_monitor client url ;;
      monitor <- match found with
                 | Some monitor => ret monitor
                 | None =>
                     created <- create_synthetics_monitor client url url
                                  (NEWRELIC_MONITORING_PERIOD loaded_config)
                                  [NEWRELIC_MONITORING_LOCATION loaded_config] ;;
                     ret (as_Response created)
                 end ;;
      found <- get_alert_condition client (name monitor) ;;
      match found with
      | Some _ => ret tt
      | None =>
          _ <- create_alert_condition client (name monitor) url (id policy) ;;
          ret tt
      end)).

End Client.

Arguments ev_call {remote_state} e.
Arguments ev_outcome {remote_state} e.
Arguments ev_remote {remote_state} e.
Arguments remote {remote_state} w.
Arguments trace {remote_state} w.
Arguments ret {remote_state A} a w.
Arguments raise {remote_state A} e w.
Arguments bind {remote_state A B} m k w.
Arguments lift {remote_state A} r w.
Arguments for_each {remote_state A} xs body w.
Arguments traced {remote_state A} view c body w.
Arguments search {remote_state} id_key name entities w.

(** ** The six kinds of resource *)

Inductive kind : Type :=
| Policy | Monitor | Condition | Destination | Channel | Workflow.

Definition kind_eqb (a b : kind) : bool :=
  match a, b with
  | Policy, Policy | Monitor, Monitor | Condition, Condition
  | Destination, Destination | Channel, Channel | Workflow, Workflow => true
  | _, _ => false
  end.

(** The name a lookup of kind [k] searches for, given the argument of the
    [get_*] method. *)
Definition searched_name (k : kind) (arg : string) : string :=
  match k with
  | Condition => "Lost signal for " ++ arg
  | Workflow => "Alert intelligence workflow of " ++ arg ++ " instance"
  | _ => arg
  end.

(** Where the candidates of a lookup are in the data of the response, and
    the key that holds a candidate's identifier. *)
Definition candidates_path (k : kind) : list string :=
  match k with
  | Policy => ["actor"; "account"; "alerts"; "policiesSearch"; "policies"]
  | Monitor => ["actor"; "entitySearch"; "results"; "entities"]
  | Condition => ["actor"; "account"; "alerts"; "nrqlConditionsSearch"; "nrqlConditions"]
  | Destination => ["actor"; "account"; "aiNotifications"; "destinations"; "entities"]
  | Channel => ["actor"; "account"; "aiNotifications"; "channels"; "entities"]
  | Workflow => ["actor"; "account"; "aiWorkflows"; "workflows"; "entities"]
  end.

Definition id_key (k : kind) : string :=
  match k with Monitor => "guid" | _ => "id" end.

Definition search_document (k : kind) : document :=
  match k with
  | Policy => PoliciesSearch
  | Monitor => EntitySearch
  | Condition => NrqlConditionsSearch
  | Destination => DestinationsSearch
  | Channel => ChannelsSearch
  | Workflow => WorkflowsSearch
  end.

Definition search_variables (k : kind) (c : NewRelicClient) (arg : string) : json :=
  match k with
  | Policy => get_alert_policy_variables c arg
  | Monitor => get_synthetics_monitor_variables c arg
  | Condition => get_alert_condition_variables c arg
  | Destination => get_notification_destination_variables c arg
  | Channel => get_notification_channel_variables c arg
  | Workflow => get_ai_workflow_variables c arg
  end.

(** [get_<kind>], by kind. *)
Definition get_resource {S : Type} (post : S -> request -> S * http_response)
    (k : kind) (c : NewRelicClient) (arg : string) : M S (option Response) :=
  match k with
  | Policy => get_alert_policy S post c arg
  | Monitor => get_synthetics_monitor S post c arg
  | Condition => get_alert_condition S post c arg
  | Destination => get_notification_destination S post c arg
  | Channel => get_notification_channel S post c arg
  | Workflow => get_ai_workflow S post c arg
  end.

(** A candidate of a search result, as the platform sends it: an object
    with the identifier and the name, both strings. *)
Definition candidate (idk : string) (i n : string) : json :=
  JObj [(idk, JStr i); ("name", JStr n)].

(** The first exact match among candidates given as (identifier, name)
    pairs: what the specification asks of a lookup. *)
Definition first_exact_match (name : string) (cands : list (string * string))
  : option Response :=
  match find (fun c => String.eqb (snd c) name) cands with
  | Some (i, n) => Some {| id := i; name := n |}
  | None => None
  end.

(** ** A platform that remembers what was created

    The repository has no platform of its own to run against: this one is
    the remote state the idempotence of the orchestration is stated for, a
    double of the platform that keeps every created resource by kind and
    name and never fails. *)

Record resource : Type :=
  { res_kind : kind;
    res_name : string;
    res_id : string }.

Module Remembering.

(** The resources created so far, oldest first. *)
Definition state : Type := list resource.

Definition fresh_id (st : state) : string :=
  NilEmpty.string_of_uint (Nat.to_uint (length st)).

Definition of_kind (k : kind) (st : state) : list resource :=
  filter (fun r => kind_eqb (res_kind r) k) st.

Definition entity (idk : string) (r : resource) : json :=
  candidate idk (res_id r) (res_name r).

(** [wrap [k1; ..; kn] v] is the object [{k1: {.. {kn: v}}}]. *)
Definition wrap (path : list string) (v : json) : json :=
  fold_right (fun k acc => JObj [(k, acc)]) v path.

(** HTTP 200 with the body [{"data": data}]. The client reads [text] only
    when the status is not 200; it is left empty here. *)
Definition ok (data : json) : http_response :=
  {| status_code := 200; text := ""; content := Some (JObj [("data", data)]) |}.

Definition bad_request : http_response :=
  {| status_code := 400; text := "bad request"; content := None |}.

Inductive role : Type :=
| Search (k : kind)
| Create (k : kind).

Definition role_of (q : document) : role :=
  match q with
  | PoliciesSearch => Search Policy
  | AlertsPolicyCreate => Create Policy
  | EntitySearch => Search Monitor
  | SyntheticsCreateSimpleMonitor => Create Monitor
  | NrqlConditionsSearch => Search Condition
  | AlertsNrqlConditionStaticCreate => Create Condition
  | DestinationsSearch => Search Destination
  | AiNotificationsCreateDestination => Create Destination
  | ChannelsSearch => Search Channel
  | AiNotificationsCreateChannel => Create Channel
  | WorkflowsSearch => Search Workflow
  | AiWorkflowsCreateWorkflow => Create Workflow
  end.

(** The name of the resource a mutation creates, read from its variables. *)
Definition requested_name (k : kind) (variables : json) : option string :=
  let path :=
    match k with
    | Monitor => ["monitor"; "name"]
    | Condition => ["condition"; "name"]
    | _ => ["name"]
    end in
  match Py.getpath variables path with
  | Ok (JStr n) => Some n
  | _ => None
  end.

(** The data of the answer to a mutation that created [r]. *)
Definition created (k : kind) (r : resource) : json :=
  let e := entity "id" r in
  match k with
  | Policy => JObj [("alertsPolicyCreate", e)]
  | Monitor =>
      JObj [("syntheticsCreateSimpleMonitor",
             JObj [("monitor", e); ("errors", JList [])])]
  | Condition => JObj [("alertsNrqlConditionStaticCreate", e)]
  | Destination =>
      JObj [("aiNotificationsCreateDestination",
             JObj [("destination", e); ("error", JNull)])]
  | Channel =>
      JObj [("aiNotificationsCreateChannel",
             JObj [("channel", e); ("error", JNull)])]
  | Workflow =>
      JObj [("aiWorkflowsCreateWorkflow",
             JObj [("workflow", e); ("errors", JList [])])]
  end.

(** The platform: a search answers with every remembered resource of the
    kind (the coarsest search there is: the client has to pick the exact
    name itself); a mutation remembers the new resource under a new
    identifier and answers with it. *)
Definition respond (st : state) (r : request) : state * http_response :=
  match role_of (req_query r) with
  | Search k =>
      (st, ok (wrap (candidates_path k) (JList (map (entity (id_key k)) (of_kind k st)))))
  | Create k =>
      match requested_name k (req_variables r) with
      | Some n =>
          let res := {| res_kind := k; res_name := n; res_id := fresh_id st |} in
          (app st [res], ok (created k res))
      | None => (st, bad_request)
      end
  end.

(** The first remembered resource of kind [k] named [n]. *)
Definition find_resource (k : kind) (n : string) (st : state) : option Response :=
  match find (fun r => kind_eqb (res_kind r) k && String.eqb (res_name r) n) st with
  | Some r => Some {| id := res_id r; name := res_name r |}
  | None => None
  end.

Definition has (k : kind) (n : string) (st : state) : bool :=
  match find_resource k n st with Some _ => true | None => false end.

(** How many remembered resources have kind [k] and name [n]. *)
Definition count (k : kind) (n : string) (st : state) : nat :=
  length (filter (fun r => kind_eqb (res_kind r) k && String.eqb (res_name r) n) st).

End Remembering.

(** The (kind, name) pairs a configuration asks for, [title] being the
    title function of the command. *)
Definition required_of_url (url : string) : list (kind * string) :=
  [(Monitor, url); (Condition, "Lost signal for " ++ url)].

Definition required_of_monitor_config (instance_name : string) (m : monitor_config)
  : list (kind * string) :=
  app [(Destination, "Default notification channel for " ++ instance_name);
       (Channel, "Default notification channel for " ++ instance_name);
       (Workflow, "Alert intelligence workflow of " ++ instance_name ++ " instance")]
      (flat_map required_of_url (urls m)).

Definition required (title : string -> string) (cfg : config)
  : list (kind * string) :=
  (Policy, title (NEWRELIC_NAME cfg) ++ " - Open edX Instance")
  :: flat_map (required_of_monitor_config (NEWRELIC_NAME cfg))
              (NEWRELIC_SYNTHETICS_MONITORS cfg).

(** The events of a trace that are creations, and those that are lookups. *)
Definition creations {S : Type} (evs : list (event S)) : list (event S) :=
  filter (fun ev => is_create (ev_call ev)) evs.

Definition lookups {S : Type} (evs : list (event S)) : list (event S) :=
  filter (fun ev => is_get (ev_call ev)) evs.

Definition found_one {S : Type} (ev : event S) : bool :=
  match ev_outcome ev with Ok (Some _) => true | _ => false end.

Definition raised {S : Type} (ev : event S) : bool :=
  match ev_outcome ev with Err _ => true | Ok _ => false end.

(** ** Notions the properties are stated with *)

Definition eu_host : string := "https://api.eu.newrelic.com/graphql".
Definition default_host : string := "https://api.newrelic.com/graphql".

(** The four spellings of the EU region code. *)
Definition eu_spelling (region : string) : bool :=
  existsb (String.eqb region) ["eu"; "EU"; "Eu"; "eU"].

Definition default_variables (variables : option json) : json :=
  match variables with Some v => v | None => JObj [] end.

(** A platform that gives the same answer to every request. *)
Definition always (response : http_response) (s : unit) (r : request)
  : unit * http_response := (s, response).

Definition nothing_yet {S : Type} (s : S) : world S := {| remote := s; trace := [] |}.

Definition a_client : NewRelicClient := NewRelicClient_init "key" 1 "eu".

Definition empty_errors_response : http_response :=
  {| status_code := 200;
     text := "";
     content := Some (JObj [("errors", JList []); ("data", JObj [("ok", JBool true)])]) |}.

Definition one_error_response : http_response :=
  {| status_code := 200;
     text := "";
     content := Some (JObj [("errors", JList [JObj [("message", JStr "no")]])]) |}.

(** [describes idk item c]: the candidate [item] of a search result is an
    object whose identifier (under the key [idk]) and name are the strings
    of the pair [c]. *)
Definition describes (idk : string) (item : json) (c : string * string) : Prop :=
  exists fields,
    item = JObj fields
    /\ Py.lookup idk fields = Some (JStr (fst c))
    /\ Py.lookup "name" fields = Some (JStr (snd c)).

(** HTTP 200 with the body [{"data": data}]. *)
Definition http_ok (data : json) : http_response :=
  {| status_code := 200; text := ""; content := Some (JObj [("data", data)]) |}.

Definition an_entity : json := JObj [("id", JStr "42"); ("name", JStr "n")].

Definition some_errors : json :=
  JList [JObj [("description", JStr "refused"); ("type", JStr "BAD_REQUEST")]].

Definition an_error : json := JObj [("__typename", JStr "AiNotificationsDataValidationError")].

(** Answers to the four mutations that select an error field, each with a
    non-empty error payload inside the result object of the mutation. *)
Definition monitor_with_errors : http_response :=
  http_ok (JObj [("syntheticsCreateSimpleMonitor",
                  JObj [("monitor", an_entity); ("errors", some_errors)])]).

Definition monitor_refused : http_response :=
  http_ok (JObj [("syntheticsCreateSimpleMonitor",
                  JObj [("monitor", JNull); ("errors", some_errors)])]).

Definition destination_with_error : http_response :=
  http_ok (JObj [("aiNotificationsCreateDestination",
                  JObj [("destination", an_entity); ("error", an_error)])]).

Definition channel_with_error : http_response :=
  http_ok (JObj [("aiNotificationsCreateChannel",
                  JObj [("channel", an_entity); ("error", an_error)])]).

Definition workflow_with_errors : http_response :=
  http_ok (JObj [("aiWorkflowsCreateWorkflow",
                  JObj [("workflow", an_entity); ("errors", some_errors)])]).

(** The answer to a workflow creation that collides with an existing name. *)
Definition workflow_collision : http_response :=
  http_ok (JObj [("aiWorkflowsCreateWorkflow",
                  JObj [("workflow", JNull); ("errors", JList [])])]).

Definition monitor_created : http_response :=
  http_ok (JObj [("syntheticsCreateSimpleMonitor",
                  JObj [("monitor", JObj [("id", JStr "42"); ("name", JStr "renamed")]);
                        ("errors", JList [])])]).

Definition two_policies : http_response :=
  http_ok (Remembering.wrap (candidates_path Policy)
             (JList [candidate "id" "1" "demo staging"; candidate "id" "2" "demo";
                     candidate "id" "3" "demo"])).

(** The state of the platform after the calls [evs], from the state [s]. *)
Definition remote_after {S : Type} (s : S) (evs : list (event S)) : S :=
  fold_left (fun _ ev => ev_remote ev) evs s.

(** [silent m]: [m] records no call (it is a part of a method, or pure). *)
Definition silent {S A : Type} (m : M S A) : Prop :=
  forall w, trace (snd (m w)) = trace w.

(** [orderly m]: a run of [m] records calls that all returned, except that
    a run that raises records, last, the call that raised what the run
    raises; and the platform is left as the last call left it. *)
Definition orderly_run {S A : Type} (w : world S) (r : result A) (w' : world S) : Prop :=
  exists evs,
    trace w' = (trace w ++ evs)%list
    /\ remote w' = remote_after (remote w) evs
    /\ match r with
       | Ok _ => forallb (fun ev => negb (raised ev)) evs = true
       | Err e =>
           exists before x,
             evs = (before ++ [x])%list
             /\ forallb (fun ev => negb (raised ev)) before = true
             /\ ev_outcome x = Err e
       end.

Definition orderly {S A : Type} (m : M S A) : Prop :=
  forall w, orderly_run w (fst (m w)) (snd (m w)).

(** A platform that behaves as the remembering one for a number of
    requests and answers HTTP 500 from then on. *)
Module Failing.

Definition state : Type := (nat * Remembering.state)%type.

Definition server_error : http_response :=
  {| status_code := 500; text := "Internal Server Error"; content := None |}.

Definition respond (st : state) (r : request) : state * http_response :=
  match st with
  | (O, remembered) => ((O, remembered), server_error)
  | (Datatypes.S n, remembered) =>
      let (remembered', response) := Remembering.respond remembered r in
      ((n, remembered'), response)
  end.

End Failing.

Definition demo_config : config :=
  {| NEWRELIC_NAME := "demo";
     NEWRELIC_API_KEY := "key";
     NEWRELIC_ACCOUNT_ID := 1;
     NEWRELIC_REGION_CODE := "US";
     NEWRELIC_SYNTHETICS_MONITORS :=
       [{| recipient := "a@b.com"; urls := ["https://demo.example/health"] |};
        {| recipient := "c@d.com"; urls := ["https://demo.example/health"] |}];
     NEWRELIC_MONITORING_PERIOD := "EVERY_MINUTE";
     NEWRELIC_MONITORING_LOCATION := "AWS_US_EAST_1" |}.

(** A run of the orchestration for [demo_config] against the platform that
    fails from its fourth request on. *)
Definition failing_run : result unit * world Failing.state :=
  create_alert_workflow Failing.state Failing.respond PyStr.title demo_config
    (nothing_yet (3, [])).

(** The (kind, name) pair a call is about. *)
Definition target (c : call) : kind * string :=
  match c with
  | GetAlertPolicy n | CreateAlertPolicy n => (Policy, n)
  | GetSyntheticsMonitor n | CreateSyntheticsMonitor n _ _ _ => (Monitor, n)
  | GetAlertCondition m | CreateAlertCondition m _ _ => (Condition, searched_name Condition m)
  | GetNotificationDestination n | CreateNotificationDestination n _ => (Destination, n)
  | GetNotificationChannel n | CreateNotificationChannel n _ => (Channel, n)
  | GetAiWorkflow i | CreateAiWorkflow i _ _ => (Workflow, searched_name Workflow i)
  end.

Definition get_call (k : kind) (arg : string) : call :=
  match k with
  | Policy => GetAlertPolicy arg
  | Monitor => GetSyntheticsMonitor arg
  | Condition => GetAlertCondition arg
  | Destination => GetNotificationDestination arg
  | Channel => GetNotificationChannel arg
  | Workflow => GetAiWorkflow arg
  end.

Definition key_of (r : resource) : kind * string := (res_kind r, res_name r).

(** What a sequence of get-or-create steps adds to the remembering
    platform: a step for a pair that is remembered adds nothing, a step for
    a pair that is not adds one resource. *)
Module Provision.

Import Remembering.

Definition present (st : state) (key : kind * string) : bool :=
  has (fst key) (snd key) st.

Definition remember (st : state) (key : kind * string) : resource :=
  {| res_kind := fst key; res_name := snd key; res_id := fresh_id st |}.

Definition step (st : state) (key : kind * string) : list resource :=
  if present st key then [] else [remember st key].

Fixpoint added (keys : list (kind * string)) (st : state) : list resource :=
  match keys with
  | [] => []
  | key :: rest => app (step st key) (added rest (app st (step st key)))
  end.

End Provision.

(** [provisioned keys w evs w']: from the world [w], the calls [evs] were
    made and left the world [w']; they are one lookup per pair of [keys],
    and one creation per resource that was missing. *)
Definition provisioned (keys : list (kind * string))
    (w : world Remembering.state) (evs : list (event Remembering.state))
    (w' : world Remembering.state) : Prop :=
  trace w' = app (trace w) evs
  /\ remote w' = app (remote w) (Provision.added keys (remote w))
  /\ length (lookups evs) = length keys
  /\ map (fun ev => target (ev_call ev)) (creations evs)
     = map key_of (Provision.added keys (remote w))
  /\ (Provision.added keys (remote w) = [] -> forallb found_one evs = true).

(** The parts of [create_alert_workflow]: the body of the loop over the
    URLs, the body of the loop over the monitor configurations from the
    workflow on, and the whole body. *)
Section Parts.

Context {S : Type} (post : S -> request -> S * http_response).

Definition or_create {A : Type} (found : option A) (create : M S A) : M S A :=
  match found with Some a => ret a | None => create end.

Definition url_part (cfg : config) (client : NewRelicClient) (policy : Response)
    (url : string) : M S unit :=
  bind (get_synthetics_monitor S post client url) (fun found =>
  bind (or_create found
          (bind (create_synthetics_monitor S post client url url
                   (NEWRELIC_MONITORING_PERIOD cfg) [NEWRELIC_MONITORING_LOCATION cfg])
                (fun created => ret (as_Response created)))) (fun monitor =>
  bind (get_alert_condition S post client (name monitor)) (fun found =>
  match found with
  | Some _ => ret tt
  | None =>
      bind (create_alert_condition S post client (name monitor) url (id policy))
           (fun _ => ret tt)
  end))).

Definition workflow_part (cfg : config) (client : NewRelicClient)
    (policy channel : Response) (m : monitor_config) : M S unit :=
  bind (get_ai_workflow S post client (NEWRELIC_NAME cfg)) (fun found =>
  bind (or_create found
          (create_ai_workflow S post client (NEWRELIC_NAME cfg) (id policy) (id channel)))
       (fun workflow =>
  for_each (urls m) (url_part cfg client policy))).

Definition monitor_config_part (cfg : config) (client : NewRelicClient)
    (policy : Response) (m : monitor_config) : M S unit :=
  let dst_name := "Default notification channel for " ++ NEWRELIC_NAME cfg in
  bind (get_notification_destination S post client dst_name) (fun found =>
  bind (or_create found
          (create_notification_destination S post client dst_name (recipient m)))
       (fun destination =>
  bind (get_notification_channel S post client dst_name) (fun found =>
  bind (or_create found
          (create_notificaiton_channel S post client dst_name (id destination)))
       (fun channel =>
  workflow_part cfg client policy channel m)))).

Definition client_of (cfg : config) : NewRelicClient :=
  NewRelicClient_init (NEWRELIC_API_KEY cfg) (NEWRELIC_ACCOUNT_ID cfg)
                      (NEWRELIC_REGION_CODE cfg).

Definition policy_name_of (title : string -> string) (cfg : config) : string :=
  title (NEWRELIC_NAME cfg) ++ " - Open edX Instance".

End Parts.

(** The world after a creation of the pair [key] by the call [c] on the
    remembering platform. *)
Definition created_world (w : world Remembering.state) (key : kind * string) (c : call)
  : world Remembering.state :=
  let st := app (remote w) [Provision.remember (remote w) key] in
  {| remote := st;
     trace := app (trace w)
                [{| ev_call := c;
                    ev_outcome := Ok (Some {| id := Remembering.fresh_id (remote w);
                                              name := snd key |});
                    ev_remote := st |}] |}.

(** [provisions m keys P]: on the remembering platform, [m] returns a value
    that satisfies [P], after one get-or-create step per pair of [keys]. *)
Definition provisions {A : Type} (m : M Remembering.state A)
    (keys : list (kind * string)) (P : A -> Prop) : Prop :=
  forall w, exists a evs w',
    m w = (Ok a, w') /\ P a /\ provisioned keys w evs w'.

Definition creates_destination {S : Type} (ev : event S) : bool :=
  match ev_call ev with CreateNotificationDestination _ _ => true | _ => false end.

Definition creates_channel {S : Type} (ev : event S) : bool :=
  match ev_call ev with CreateNotificationChannel _ _ => true | _ => false end.

(** Two runs of the orchestration with the same configuration: the first
    against a remembering platform that holds nothing, the second against
    the platform as the first run left it. *)
Definition first_run (title : string -> string) (cfg : config)
  : result unit * world Remembering.state :=
  create_alert_workflow Remembering.state Remembering.respond title cfg (nothing_yet []).

Definition second_run (title : string -> string) (cfg : config)
  : result unit * world Remembering.state :=
  create_alert_workflow Remembering.state Remembering.respond title cfg
    (nothing_yet (remote (snd (first_run title cfg)))).

(** A run against a remembering platform that holds [st]. *)
Definition run_from (title : string -> string) (st : Remembering.state)
    (cfg : config) : result unit * world Remembering.state :=
  create_alert_workflow Remembering.state Remembering.respond title cfg (nothing_yet st).

(** ** The methods of the client, by call *)

(** The GraphQL document a call posts. *)
Definition document_of (cl : call) : document :=
  match cl with
  | GetAlertPolicy _ => PoliciesSearch
  | CreateAlertPolicy _ => AlertsPolicyCreate
  | GetSyntheticsMonitor _ => EntitySearch
  | CreateSyntheticsMonitor _ _ _ _ => SyntheticsCreateSimpleMonitor
  | GetAlertCondition _ => NrqlConditionsSearch
  | CreateAlertCondition _ _ _ => AlertsNrqlConditionStaticCreate
  | GetNotificationDestination _ => DestinationsSearch
  | CreateNotificationDestination _ _ => AiNotificationsCreateDestination
  | GetNotificationChannel _ => ChannelsSearch
  | CreateNotificationChannel _ _ => AiNotificationsCreateChannel
  | GetAiWorkflow _ => WorkflowsSearch
  | CreateAiWorkflow _ _ _ => AiWorkflowsCreateWorkflow
  end.

(** The variables a call posts. *)
Definition variables_of (c : NewRelicClient) (cl : call) : json :=
  match cl with
  | GetAlertPolicy n => get_alert_policy_variables c n
  | CreateAlertPolicy n => create_alert_policy_variables c n
  | GetSyntheticsMonitor n => get_synthetics_monitor_variables c n
  | CreateSyntheticsMonitor n u p l => create_synthetics_monitor_variables c n u p l
  | GetAlertCondition m => get_alert_condition_variables c m
  | CreateAlertCondition m u p => create_alert_condition_variables c m u p
  | GetNotificationDestination n => get_notification_destination_variables c n
  | CreateNotificationDestination n r => create_notification_destination_variables c n r
  | GetNotificationChannel n => get_notification_channel_variables c n
  | CreateNotificationChannel n d => create_notificaiton_channel_variables c n d
  | GetAiWorkflow i => get_ai_workflow_variables c i
  | CreateAiWorkflow i p ch => create_ai_workflow_variables c i p ch
  end.

Definition request_of (c : NewRelicClient) (cl : call) : request :=
  post_request c (document_of cl) (variables_of c cl).

(** The method a call stands for, with its result seen as the trace records
    it: what a lookup found, or the resource a creation returned. *)
Definition perform {S : Type} (post : S -> request -> S * http_response)
    (c : NewRelicClient) (cl : call) : M S (option Response) :=
  match cl with
  | GetAlertPolicy n => get_alert_policy S post c n
  | CreateAlertPolicy n =>
      bind (create_alert_policy S post c n) (fun r => ret (Some r))
  | GetSyntheticsMonitor n => get_synthetics_monitor S post c n
  | CreateSyntheticsMonitor n u p l =>
      bind (create_synthetics_monitor S post c n u p l)
           (fun r => ret (Some (as_Response r)))
  | GetAlertCondition m => get_alert_condition S post c m
  | CreateAlertCondition m u p =>
      bind (create_alert_condition S post c m u p) (fun r => ret (Some r))
  | GetNotificationDestination n => get_notification_destination S post c n
  | CreateNotificationDestination n r =>
      bind (create_notification_destination S post c n r) (fun r => ret (Some r))
  | GetNotificationChannel n => get_notification_channel S post c n
  | CreateNotificationChannel n d =>
      bind (create_notificaiton_channel S post c n d) (fun r => ret (Some r))
  | GetAiWorkflow i => get_ai_workflow S post c i
  | CreateAiWorkflow i p ch =>
      bind (create_ai_workflow S post c i p ch) (fun r => ret (Some r))
  end.

(** [recording post]: the platform [post], keeping beside its state the
    requests it received, oldest first. *)
Definition recording {S : Type} (post : S -> request -> S * http_response)
    (st : S * list request) (r : request) : (S * list request) * http_response :=
  let (s, response) := post (fst st) r in
  ((s, app (snd st) [r]), response).

(** [untouched m]: [m] neither posts nor records anything. *)
Definition untouched {S A : Type} (m : M S A) : Prop :=
  forall w, snd (m w) = w.

(** The error of a Python operation, as opposed to the client's own. *)
Definition python_error (e : error) : Prop :=
  match e with NerdGraphAPIError _ => False | _ => True end.

(** [python_only m]: when [m] raises, it is not the client's error. *)
Definition python_only {S A : Type} (m : M S A) : Prop :=
  forall w e, fst (m w) = Err e -> python_error e.

(** The key under which a creation looks for an error payload in the data
    of the answer, when it looks for one. *)
Definition error_key (cl : call) : option string :=
  match cl with
  | CreateSyntheticsMonitor _ _ _ _ | CreateAiWorkflow _ _ _ => Some "errors"
  | CreateNotificationDestination _ _ | CreateNotificationChannel _ _ => Some "error"
  | _ => None
  end.

(** Where a creation reads the created object in the data of the answer. *)
Definition created_path (cl : call) : list string :=
  match cl with
  | CreateAlertPolicy _ => ["alertsPolicyCreate"]
  | CreateSyntheticsMonitor _ _ _ _ => ["syntheticsCreateSimpleMonitor"; "monitor"]
  | CreateAlertCondition _ _ _ => ["alertsNrqlConditionStaticCreate"]
  | CreateNotificationDestination _ _ => ["aiNotificationsCreateDestination"; "destination"]
  | CreateNotificationChannel _ _ => ["aiNotificationsCreateChannel"; "channel"]
  | CreateAiWorkflow _ _ _ => ["aiWorkflowsCreateWorkflow"; "workflow"]
  | _ => []
  end.

(** [passed_over name item]: the candidate [item] is an object with a name
    field that is not the string [name]. *)
Definition passed_over (name : string) (item : json) : Prop :=
  exists fields v,
    item = JObj fields
    /\ Py.lookup "name" fields = Some v
    /\ Py.eq_str v name = false.

Definition not_json_response : http_response :=
  {| status_code := 200; text := "<html>"; content := None |}.

Definition list_response : http_response :=
  {| status_code := 200; text := "[]"; content := Some (JList []) |}.

Definition no_data_response : http_response :=
  {| status_code := 200; text := "{}"; content := Some (JObj []) |}.

(** The answer to a policy search with the candidates [items]. *)
Definition policy_search (items : list json) : http_response :=
  http_ok (Remembering.wrap (candidates_path Policy) (JList items)).

Definition nameless_candidate : json := JObj [("id", JStr "1")].

Definition unnamed_candidate : json := JObj [("id", JStr "1"); ("name", JNull)].

Definition unidentified_candidate : json := JObj [("name", JStr "demo")].

Definition numbered_candidate : json := JObj [("id", JNum 7); ("name", JStr "demo")].

Definition a_workflow_call : call := CreateAiWorkflow "demo" "1" "2".

Definition a_policy_call : call := CreateAlertPolicy "demo".

(** An answer to a policy creation under a name the platform chose. *)
Definition policy_renamed : http_response :=
  http_ok (JObj [("alertsPolicyCreate",
                  JObj [("id", JStr "42"); ("name", JStr "Demo (2)")])]).

(** An answer to a destination creation with an error payload in the data
    object itself, where the creation looks for it. *)
Definition destination_data_error : http_response :=
  http_ok (JObj [("error", an_error)]).

(** The kind of resource an event is about. *)
Definition kind_of {S : Type} (ev : event S) : kind := fst (target (ev_call ev)).

(** [paired evs]: the calls [evs] are lookups, each followed by at most
    one creation, and a creation follows only a lookup of the same pair
    that found nothing. *)
Inductive paired {S : Type} : list (event S) -> Prop :=
| paired_nil : paired []
| paired_get (g : event S) (evs : list (event S)) :
    is_get (ev_call g) = true ->
    paired evs ->
    paired (g :: evs)
| paired_create (g cr : event S) (evs : list (event S)) :
    is_get (ev_call g) = true ->
    ev_outcome g = Ok None ->
    is_create (ev_call cr) = true ->
    target (ev_call cr) = target (ev_call g) ->
    paired evs ->
    paired (g :: cr :: evs).

(** [shaped m Q]: on any platform, the calls a run of [m] records and its
    result satisfy [Q]. *)
Definition shaped {S A : Type} (m : M S A)
    (Q : result A -> list (event S) -> Prop) : Prop :=
  forall w, exists evs,
    trace (snd (m w)) = app (trace w) evs /\ Q (fst (m w)) evs.

(** [follows ks r evs]: the calls [evs] are paired, and their lookups are,
    in order, of the kinds [ks], all of them when the result [r] is a
    return and the first ones when it is an error. *)
Definition follows {S A : Type} (ks : list kind) (r : result A)
    (evs : list (event S)) : Prop :=
  paired evs
  /\ exists rest,
       ks = app (map kind_of (lookups evs)) rest
       /\ (forall a, r = Ok a -> rest = []).

(** The one call of a method, with its result. *)
Definition one_call {S A : Type} (view : A -> option Response) (cl : call)
    (r : result A) (evs : list (event S)) : Prop :=
  exists ev,
    evs = [ev]
    /\ ev_call ev = cl
    /\ ev_outcome ev = match r with Ok a => Ok (view a) | Err e => Err e end.

(** The one call of a method, whatever its result. *)
Definition calls_once {S A : Type} (cl : call) (r : result A)
    (evs : list (event S)) : Prop :=
  exists ev, evs = [ev] /\ ev_call ev = cl.

(** The kinds of the lookups of a run, in order: the policy, then for each
    monitor configuration the destination, the channel and the workflow,
    then for each of its URLs the monitor and the condition. *)
Definition kinds_of_urls (us : list string) : list kind :=
  flat_map (fun _ => [Monitor; Condition]) us.

Definition kinds_of_monitor_config (m : monitor_config) : list kind :=
  app [Destination; Channel; Workflow] (kinds_of_urls (urls m)).

Definition kinds_of_config (cfg : config) : list kind :=
  Policy :: flat_map kinds_of_monitor_config (NEWRELIC_SYNTHETICS_MONITORS cfg).

Definition no_monitors_config : config :=
  {| NEWRELIC_NAME := "demo";
     NEWRELIC_API_KEY := "key";
     NEWRELIC_ACCOUNT_ID := 1;
     NEWRELIC_REGION_CODE := "US";
     NEWRELIC_SYNTHETICS_MONITORS := [];
     NEWRELIC_MONITORING_PERIOD := "EVERY_MINUTE";
     NEWRELIC_MONITORING_LOCATION := "AWS_US_EAST_1" |}.

(** The calls of the first run for [demo_config], by position. *)
Definition demo_trace : list (event Remembering.state) :=
  trace (snd (first_run PyStr.title demo_config)).

Definition demo_event (n : nat) : event Remembering.state :=
  nth n demo_trace
    {| ev_call := GetAlertPolicy ""; ev_outcome := Ok None; ev_remote := [] |}.

(** [wired title cfg st cl]: the identifiers the creation [cl] was given are
    those of the resources the platform [st] holds: a channel is bound to
    the destination of its name, a workflow to the policy and the channel of
    the instance, a condition to the policy and to a monitor that exists,
    named as the condition's URL. Other calls take no identifier. *)
Definition wired (title : string -> string) (cfg : config)
    (st : Remembering.state) (cl : call) : Prop :=
  match cl with
  | CreateNotificationChannel n d =>
      exists r, Remembering.find_resource Destination n st = Some r /\ id r = d
  | CreateAiWorkflow i p ch =>
      (exists r, Remembering.find_resource Policy (policy_name_of title cfg) st = Some r
                 /\ id r = p)
      /\ (exists r, Remembering.find_resource Channel
                      ("Default notification channel for " ++ i) st = Some r
                    /\ id r = ch)
  | CreateAlertCondition m u p =>
      (exists r, Remembering.find_resource Policy (policy_name_of title cfg) st = Some r
                 /\ id r = p)
      /\ (exists r, Remembering.find_resource Monitor m st = Some r)
      /\ m = u
  | _ => True
  end.

(** [keeps title cfg Pre m Post]: from a remembering platform that satisfies
    [Pre], [m] returns, only adds to the platform, makes wired calls, and
    leaves a platform that satisfies [Post]. *)
Definition keeps {A : Type} (title : string -> string) (cfg : config)
    (Pre : Remembering.state -> Prop)
    (m : M Remembering.state A) (Post : A -> Remembering.state -> Prop) : Prop :=
  forall w, Pre (remote w) ->
    exists a evs w' more,
      m w = (Ok a, w')
      /\ trace w' = app (trace w) evs
      /\ remote w' = app (remote w) more
      /\ Forall (fun ev => wired title cfg (remote w') (ev_call ev)) evs
      /\ Post a (remote w').

(** * Properties *)

(** ** Region selection *)

Lemma to_lower_is_e (c : ascii) :
  Ascii.eqb (PyStr.to_lower c) "e" = Ascii.eqb c "e" || Ascii.eqb c "E".
Proof. destruct c as [[] [] [] [] [] [] [] []]; reflexivity. Qed.

Lemma to_lower_is_u (c : ascii) :
  Ascii.eqb (PyStr.to_lower c) "u" = Ascii.eqb c "u" || Ascii.eqb c "U".
Proof. destruct c as [[] [] [] [] [] [] [] []]; reflexivity. Qed.

Lemma lower_is_eu (region : string) :
  String.eqb (PyStr.lower region) "eu" = eu_spelling region.
Proof.
  unfold eu_spelling.
  destruct region as [|c1 [|c2 [|c3 rest]]]; try reflexivity.
  - cbn. rewrite to_lower_is_e.
    destruct (Ascii.eqb c1 "e"), (Ascii.eqb c1 "E"); reflexivity.
  - cbn. rewrite to_lower_is_e, to_lower_is_u.
    destruct (Ascii.eqb c1 "e") eqn:E1, (Ascii.eqb c1 "E") eqn:E2,
             (Ascii.eqb c2 "u") eqn:U1, (Ascii.eqb c2 "U") eqn:U2;
      try reflexivity;
      repeat match goal with
             | H : Ascii.eqb _ _ = true |- _ => apply Ascii.eqb_eq in H; subst
             end; try discriminate.
  - cbn. rewrite to_lower_is_e, to_lower_is_u.
    destruct (Ascii.eqb c1 "e"), (Ascii.eqb c1 "E"),
             (Ascii.eqb c2 "u"), (Ascii.eqb c2 "U"); reflexivity.
Qed.

(** C7. Every request of a client built with region "eu" in any letter case
    goes to the EU host, and every request of a client built with any other
    region, the empty one included, goes to the default host. *)
Theorem region_selects_host :
  forall (key : string) (account : Z) (region : string)
         (query : document) (variables : json),
    req_url (post_request (NewRelicClient_init key account region) query variables)
    = (if eu_spelling region then eu_host else default_host)
    /\ eu_spelling "EU" = true
    /\ eu_spelling "eu" = true
    /\ eu_spelling "" = false
    /\ (PyStr.lower region = "eu" <-> eu_spelling region = true).
Proof.
  intros key account region query variables.
  repeat split; try reflexivity.
  - unfold post_request, NewRelicClient_init; cbn [req_url api_base_url].
    rewrite lower_is_eu. destruct (eu_spelling region); reflexivity.
  - intro H. rewrite <- lower_is_eu. apply String.eqb_eq. exact H.
  - intro H. rewrite <- lower_is_eu in H. apply String.eqb_eq. exact H.
Qed.

(** ** The transport layer *)

Section Transport.

Context {S : Type} (post : S -> request -> S * http_response).

(** C5. When the status of the HTTP response is not 200, the send
    operation raises the client's error with the raw body of the response;
    when it is 200 and the decoded body is an object whose "errors" field
    is absent or falsy, it returns the "data" field of that object. *)
Theorem send_request_status :
  forall (c : NewRelicClient) (query : document) (variables : option json)
         (w : world S) (s : S) (response : http_response),
    post (remote w) (post_request c query (default_variables variables))
    = (s, response) ->
    (status_code response <> 200%Z ->
     fst (send_request S post c query variables w)
     = Err (NerdGraphAPIError (RawBody (text response))))
    /\ (forall fields data,
           status_code response = 200%Z ->
           content response = Some (JObj fields) ->
           (forall errors, Py.lookup "errors" fields = Some errors ->
                           Py.truthy errors = false) ->
           Py.lookup "data" fields = Some data ->
           fst (send_request S post c query variables w) = Ok data).
Proof.
  intros c query variables w s response Hpost.
  unfold send_request. fold (default_variables variables). rewrite Hpost.
  split.
  - intro Hstatus. apply Z.eqb_neq in Hstatus. rewrite Hstatus. reflexivity.
  - intros fields data Hstatus Hcontent Herrors Hdata.
    rewrite Hstatus, Hcontent. cbn.
    destruct (Py.lookup "errors" fields) as [errors|] eqn:E.
    + rewrite (Herrors errors eq_refl). cbn. rewrite Hdata. reflexivity.
    + cbn. rewrite Hdata. reflexivity.
Qed.

(** C6, as the code has it. When the status is 200 and the decoded body
    is an object whose "errors" field is truthy (a list with at least one
    item, for instance), the send operation raises the client's error with
    the whole decoded body. *)
Theorem send_request_errors :
  forall (c : NewRelicClient) (query : document) (variables : option json)
         (w : world S) (s : S) (response : http_response)
         (fields : list (string * json)) (errors : json),
    post (remote w) (post_request c query (default_variables variables))
    = (s, response) ->
    status_code response = 200%Z ->
    content response = Some (JObj fields) ->
    Py.lookup "errors" fields = Some errors ->
    Py.truthy errors = true ->
    fst (send_request S post c query variables w)
    = Err (NerdGraphAPIError (Decoded (JObj fields))).
Proof.
  intros c query variables w s response fields errors Hpost Hstatus Hcontent He Ht.
  unfold send_request. fold (default_variables variables).
  rewrite Hpost, Hstatus, Hcontent. cbn. rewrite He, Ht. reflexivity.
Qed.

End Transport.

Lemma send_request_status_witness :
  fst (send_request unit (always empty_errors_response) a_client PoliciesSearch None
         (nothing_yet tt))
  = Ok (JObj [("ok", JBool true)]).
Proof.
  refine (proj2 (send_request_status (always empty_errors_response) a_client
                   PoliciesSearch None (nothing_yet tt) tt empty_errors_response eq_refl)
                _ _ eq_refl eq_refl _ eq_refl).
  intros errors H. cbn in H. injection H as <-. reflexivity.
Defined.

(** C6, as stated, fails: a body whose "errors" field is the empty list
    raises nothing, and its "data" field is returned. *)
Lemma send_request_empty_errors :
  Py.lookup "errors" [("errors", JList []); ("data", JObj [("ok", JBool true)])]
  = Some (JList [])
  /\ fst (send_request unit (always empty_errors_response) a_client PoliciesSearch None
            (nothing_yet tt))
     = Ok (JObj [("ok", JBool true)]).
Proof. split; reflexivity. Qed.

Lemma send_request_errors_witness :
  fst (send_request unit (always one_error_response) a_client PoliciesSearch None
         (nothing_yet tt))
  = Err (NerdGraphAPIError
           (Decoded (JObj [("errors", JList [JObj [("message", JStr "no")]])]))).
Proof.
  exact (send_request_errors (always one_error_response) a_client PoliciesSearch None
           (nothing_yet tt) tt one_error_response _ _ eq_refl eq_refl eq_refl
           eq_refl eq_refl).
Defined.

(** ** Creations *)

(** C1, at four answers of the platform. Each carries a non-empty error
    payload inside the result object of its mutation, under HTTP 200 and
    with no top-level "errors". The four creations look for the payload in
    the data object, one level above where the mutation puts it, find none,
    and return a resource; when the created object is null as well, the
    monitor creation ends with a [TypeError], which is not the client's
    error. *)
Theorem create_ignores_embedded_errors :
  fst (create_synthetics_monitor unit (always monitor_with_errors) a_client
         "n" "https://n" "EVERY_MINUTE" ["AWS_US_EAST_1"] (nothing_yet tt))
  = Ok {| monitor_id := "42"; monitor_name := "n"; uri := "https://n" |}
  /\ fst (create_notification_destination unit (always destination_with_error) a_client
            "n" "a@b.com" (nothing_yet tt))
     = Ok {| id := "42"; name := "n" |}
  /\ fst (create_notificaiton_channel unit (always channel_with_error) a_client
            "n" "7" (nothing_yet tt))
     = Ok {| id := "42"; name := "n" |}
  /\ fst (create_ai_workflow unit (always workflow_with_errors) a_client
            "demo" "1" "2" (nothing_yet tt))
     = Ok {| id := "42"; name := "n" |}
  /\ fst (create_synthetics_monitor unit (always monitor_refused) a_client
            "n" "https://n" "EVERY_MINUTE" ["AWS_US_EAST_1"] (nothing_yet tt))
     = Err TypeError.
Proof. repeat split; reflexivity. Qed.

Section Creations.

Context {S : Type} (post : S -> request -> S * http_response).

(** C4. When the send operation of a workflow creation returns data with
    no truthy "errors" and the workflow object of the mutation result is
    null, [create_ai_workflow] raises the client's error (a workflow of
    that name exists already); it returns no resource. *)
Theorem create_ai_workflow_null_workflow :
  forall (c : NewRelicClient) (instance_name policy_id channel_id : string)
         (w w1 : world S) (data mutation : json),
    send_request S post c AiWorkflowsCreateWorkflow
      (Some (create_ai_workflow_variables c instance_name policy_id channel_id)) w
    = (Ok data, w1) ->
    (forall errors, Py.get data "errors" = Ok errors -> Py.truthy errors = false) ->
    Py.getitem data "aiWorkflowsCreateWorkflow" = Ok mutation ->
    Py.getitem mutation "workflow" = Ok JNull ->
    fst (create_ai_workflow S post c instance_name policy_id channel_id w)
    = Err (NerdGraphAPIError (Message "A workflow with the given name already exists")).
Proof.
  intros c instance_name policy_id channel_id w w1 data mutation Hsend Herrors Hm Hw.
  unfold create_ai_workflow, traced, bind. rewrite Hsend.
  unfold lift at 1.
  destruct (Py.get data "errors") as [errors|e] eqn:E.
  - rewrite (Herrors errors eq_refl).
    unfold lift. rewrite Hm, Hw. reflexivity.
  - destruct data; cbn in E, Hm; try discriminate.
    destruct (Py.lookup "errors" fields); discriminate.
Qed.

(** C10. Whatever the platform answers, a monitor creation that returns
    does so with the uri it was called with. *)
Theorem create_synthetics_monitor_echoes_uri :
  forall (c : NewRelicClient) (name u period : string) (locations : list string)
         (w w' : world S) (r : SyntheticsMonitorResponse),
    create_synthetics_monitor S post c name u period locations w = (Ok r, w') ->
    uri r = u.
Proof.
  intros c name u period locations w w' r H.
  unfold create_synthetics_monitor, traced, bind, lift, raise in H.
  repeat match goal with
         | H : context [match ?x with _ => _ end] |- _ =>
             lazymatch x with
             | new_SyntheticsMonitorResponse _ _ _ => fail
             | _ => destruct x eqn:?; try discriminate
             end
         | H : context [if ?x then _ else _] |- _ =>
             destruct x eqn:?; try discriminate
         | H : (_, _) = (_, _) |- _ => injection H as ? ?; subst
         end.
  match goal with
  | H : new_SyntheticsMonitorResponse ?i ?n _ = Ok _ |- _ =>
      destruct i, n; cbn in H; try discriminate; injection H as <-; reflexivity
  end.
Qed.

End Creations.

Lemma create_ai_workflow_null_workflow_witness :
  fst (create_ai_workflow unit (always workflow_collision) a_client "demo" "1" "2"
         (nothing_yet tt))
  = Err (NerdGraphAPIError (Message "A workflow with the given name already exists")).
Proof.
  refine (create_ai_workflow_null_workflow (always workflow_collision) a_client
            "demo" "1" "2" (nothing_yet tt) _ _ _ eq_refl _ eq_refl eq_refl).
  intros errors H. cbn in H. injection H as <-. reflexivity.
Defined.

Lemma create_synthetics_monitor_echoes_uri_witness :
  uri {| monitor_id := "42"; monitor_name := "renamed"; uri := "https://n" |}
  = "https://n".
Proof.
  exact (create_synthetics_monitor_echoes_uri (always monitor_created) a_client
           "n" "https://n" "EVERY_MINUTE" ["AWS_US_EAST_1"] (nothing_yet tt) _ _ eq_refl).
Defined.

(** ** Lookups *)

Lemma first_exact_match_none (name : string) (cands : list (string * string)) :
  (forall c, In c cands -> snd c <> name) ->
  first_exact_match name cands = None.
Proof.
  intro Hall. unfold first_exact_match.
  destruct (find _ cands) as [[i n]|] eqn:E; [|reflexivity].
  apply find_some in E. destruct E as [Hin Heq].
  apply String.eqb_eq in Heq. exfalso. exact (Hall _ Hin Heq).
Qed.

Lemma first_exact_match_first (name : string) (pre post : list (string * string))
    (i : string) :
  (forall c, In c pre -> snd c <> name) ->
  first_exact_match name (pre ++ (i, name) :: post)%list = Some {| id := i; name := name |}.
Proof.
  intro Hpre. unfold first_exact_match.
  induction pre as [|[i' n'] pre IH]; cbn.
  - rewrite String.eqb_refl. reflexivity.
  - destruct (String.eqb n' name) eqn:E.
    + apply String.eqb_eq in E. exfalso. exact (Hpre (i', n') (or_introl eq_refl) E).
    + apply IH. intros c Hin. apply Hpre. right. exact Hin.
Qed.

Lemma first_named_described (idk name : string) (items : list json)
    (cands : list (string * string)) :
  Forall2 (describes idk) items cands ->
  first_named idk name items = Ok (first_exact_match name cands).
Proof.
  unfold first_exact_match.
  induction 1 as [|item [i n] items cands Hd _ IH]; [reflexivity|].
  destruct Hd as (fields & -> & Hid & Hname). cbn in Hid, Hname.
  cbn. rewrite Hname. cbn.
  destruct (String.eqb n name) eqn:E.
  - rewrite Hid. reflexivity.
  - exact IH.
Qed.

Section Lookups.

Context {S : Type} (post : S -> request -> S * http_response).

(** C3. For each of the six kinds: when the search returns a list of
    candidates (objects with a string identifier and a string name),
    [get_<kind>] returns the first candidate, in the order of the list,
    whose name is exactly the searched one, and returns nothing when the
    list is empty or no candidate has exactly that name. *)
Theorem get_returns_first_exact_match :
  forall (k : kind) (c : NewRelicClient) (arg : string) (w w1 : world S)
         (data : json) (items : list json) (cands : list (string * string)),
    send_request S post c (search_document k) (Some (search_variables k c arg)) w
    = (Ok data, w1) ->
    Py.getpath data (candidates_path k) = Ok (JList items) ->
    Forall2 (describes (id_key k)) items cands ->
    fst (get_resource post k c arg w)
    = Ok (first_exact_match (searched_name k arg) cands)
    /\ ((forall c, In c cands -> snd c <> searched_name k arg) ->
        fst (get_resource post k c arg w) = Ok None)
    /\ (forall pre i rest,
           cands = (pre ++ (i, searched_name k arg) :: rest)%list ->
           (forall c, In c pre -> snd c <> searched_name k arg) ->
           fst (get_resource post k c arg w)
           = Ok (Some {| id := i; name := searched_name k arg |})).
Proof.
  intros k c arg w w1 data items cands Hsend Hpath Hitems.
  assert (Hget : fst (get_resource post k c arg w)
                 = Ok (first_exact_match (searched_name k arg) cands)).
  { pose proof (first_named_described (id_key k) (searched_name k arg) items cands Hitems)
      as Hfirst.
    destruct k; cbn in Hsend, Hpath, Hfirst |- *;
      unfold get_alert_policy, get_synthetics_monitor, get_alert_condition,
        get_notification_destination, get_notification_channel, get_ai_workflow,
        traced, bind;
      rewrite Hsend; unfold lift; cbn;
      repeat match type of Hpath with
             | context [match Py.getitem ?d ?key with _ => _ end] =>
                 destruct (Py.getitem d key) eqn:?; try discriminate
             end;
      injection Hpath as ->; cbn; rewrite Hfirst; reflexivity. }
  split; [exact Hget|]. split.
  - intro Hall. rewrite Hget. f_equal. apply first_exact_match_none. exact Hall.
  - intros pre i rest -> Hpre. rewrite Hget. f_equal.
    apply first_exact_match_first. exact Hpre.
Qed.

End Lookups.

Lemma get_returns_first_exact_match_witness :
  fst (get_resource (always two_policies) Policy a_client "demo" (nothing_yet tt))
  = Ok (Some {| id := "2"; name := "demo" |}).
Proof.
  refine (proj2 (proj2 (get_returns_first_exact_match (always two_policies) Policy
                          a_client "demo" (nothing_yet tt) _ _ _
                          [("1", "demo staging"); ("2", "demo"); ("3", "demo")]
                          eq_refl eq_refl _))
                [("1", "demo staging")] "2" [("3", "demo")] eq_refl _).
  - repeat constructor; eexists; repeat split; reflexivity.
  - intros c [<-|[]]. cbn. discriminate.
Defined.

(** ** Errors end the run *)

Section Orderly.

Context {S : Type} (post : S -> request -> S * http_response).

Variable title : string -> string.

Lemma silent_ret {A} (a : A) : silent (ret a : M S A).
Proof. intro w. reflexivity. Qed.

Lemma silent_raise {A} (e : error) : silent (raise e : M S A).
Proof. intro w. reflexivity. Qed.

Lemma silent_lift {A} (r : result A) : silent (lift r : M S A).
Proof. intro w. reflexivity. Qed.

Lemma silent_bind {A B} (m : M S A) (k : A -> M S B) :
  silent m -> (forall a, silent (k a)) -> silent (bind m k).
Proof.
  intros Hm Hk w. unfold bind. specialize (Hm w).
  destruct (m w) as [[a|e] w1]; cbn in *.
  - rewrite Hk. exact Hm.
  - exact Hm.
Qed.

Lemma silent_if {A} (b : bool) (m1 m2 : M S A) :
  silent m1 -> silent m2 -> silent (if b then m1 else m2).
Proof. destruct b; auto. Qed.

Lemma silent_send_request (c : NewRelicClient) (q : document) (v : option json) :
  silent (send_request S post c q v).
Proof.
  intro w. unfold send_request.
  destruct (post _ _) as [s response].
  destruct (negb _); [reflexivity|].
  destruct (content response) as [body|]; [|reflexivity].
  destruct (Py.get body "errors") as [errors|]; [|reflexivity].
  destruct (Py.truthy errors); reflexivity.
Qed.

Lemma silent_search (idk name : string) (entities : json) :
  silent (search idk name entities : M S (option Response)).
Proof. unfold search. destruct (Py.iter entities); intro w; reflexivity. Qed.

Create HintDb silent.
Hint Resolve silent_ret silent_raise silent_lift silent_send_request
  silent_search : silent.

Ltac silence :=
  repeat first
    [ apply silent_bind; [|intro]
    | apply silent_if
    | solve [auto with silent] ].

Lemma orderly_ret {A} (a : A) : orderly (ret a : M S A).
Proof.
  intro w. exists []. cbn. rewrite app_nil_r. repeat split.
Qed.

Lemma orderly_traced {A} (view : A -> option Response) (c : call) (body : M S A) :
  silent body -> orderly (traced view c body).
Proof.
  intros Hs w. unfold traced. specialize (Hs w).
  destruct (body w) as [r w1]. cbn in *.
  eexists [_]. cbn. rewrite Hs. split; [reflexivity|]. split; [reflexivity|].
  destruct r as [a|e]; [reflexivity|].
  eexists [], _. cbn. repeat split.
Qed.

Lemma orderly_bind {A B} (m : M S A) (k : A -> M S B) :
  orderly m -> (forall a, orderly (k a)) -> orderly (bind m k).
Proof.
  intros Hm Hk w. unfold bind. specialize (Hm w).
  destruct (m w) as [[a|e] w1]; cbn in Hm; [|exact Hm].
  destruct Hm as (evs1 & Ht1 & Hr1 & Hall1).
  destruct (Hk a w1) as (evs2 & Ht2 & Hr2 & Hout).
  exists (evs1 ++ evs2)%list.
  split; [rewrite Ht2, Ht1, app_assoc; reflexivity|].
  split; [unfold remote_after in *; rewrite fold_left_app, <- Hr1; exact Hr2|].
  destruct (fst (k a w1)) as [b|e].
  - rewrite forallb_app, Hall1, Hout. reflexivity.
  - destruct Hout as (before & x & -> & Hbefore & Hx).
    exists (evs1 ++ before)%list, x.
    split; [rewrite app_assoc; reflexivity|].
    split; [rewrite forallb_app, Hall1, Hbefore; reflexivity|exact Hx].
Qed.

Lemma orderly_for_each {A} (xs : list A) (body : A -> M S unit) :
  (forall x, orderly (body x)) -> orderly (for_each xs body).
Proof.
  intro Hbody. induction xs as [|x xs IH]; cbn [for_each].
  - apply orderly_ret.
  - apply orderly_bind; [apply Hbody|intros _; exact IH].
Qed.

Lemma orderly_or_else {A} (found : option A) (m : M S A) :
  orderly m -> orderly (match found with Some a => ret a | None => m end).
Proof. destruct found; [intros _; apply orderly_ret|auto]. Qed.

Ltac method := apply orderly_traced; silence.

Lemma orderly_create_alert_workflow (cfg : config) :
  orderly (create_alert_workflow S post title cfg).
Proof.
  unfold create_alert_workflow.
  apply orderly_bind; [method|intro found_policy].
  apply orderly_bind; [apply orderly_or_else; method|intro policy].
  apply orderly_for_each. intro monitor_config.
  apply orderly_bind; [method|intro found_destination].
  apply orderly_bind; [apply orderly_or_else; method|intro destination].
  apply orderly_bind; [method|intro found_channel].
  apply orderly_bind; [apply orderly_or_else; method|intro channel].
  apply orderly_bind; [method|intro found_workflow].
  apply orderly_bind; [apply orderly_or_else; method|intro workflow].
  apply orderly_for_each. intro url.
  apply orderly_bind; [method|intro found_monitor].
  apply orderly_bind.
  { apply orderly_or_else.
    apply orderly_bind; [method|intro created; apply orderly_ret]. }
  intro monitor.
  apply orderly_bind; [method|intro found_condition].
  destruct found_condition; [apply orderly_ret|].
  apply orderly_bind; [method|intros _; apply orderly_ret].
Qed.

Lemma raised_is_last (before pre rest : list (event S)) (x y : event S) :
  forallb (fun ev => negb (raised ev)) before = true ->
  raised x = true ->
  (pre ++ x :: rest)%list = (before ++ [y])%list ->
  rest = [] /\ x = y.
Proof.
  revert pre. induction before as [|b before IH]; intros pre Hall Hx Heq.
  - destruct pre as [|p pre]; cbn in Heq.
    + injection Heq as -> <-. split; reflexivity.
    + injection Heq as _ Heq. destruct pre; discriminate.
  - cbn in Hall. apply andb_prop in Hall. destruct Hall as [Hb Hall].
    destruct pre as [|p pre]; cbn in Heq; injection Heq as -> Heq.
    + rewrite Hx in Hb. discriminate.
    + exact (IH pre Hall Hx Heq).
Qed.

(** C8. In a run of the orchestration, a get or create call that raises
    (the client's error on HTTP 500 or on a top-level "errors", or any
    other) is the last call of the run: no call follows it, the run ends
    raising the same error, and the platform stays as that call left it. *)
Theorem failure_ends_the_run :
  forall (cfg : config) (w : world S) (pre rest : list (event S))
         (x : event S) (e : error),
    trace (snd (create_alert_workflow S post title cfg w))
    = (trace w ++ pre ++ x :: rest)%list ->
    ev_outcome x = Err e ->
    rest = []
    /\ fst (create_alert_workflow S post title cfg w) = Err e
    /\ remote (snd (create_alert_workflow S post title cfg w)) = ev_remote x.
Proof.
  intros cfg w pre rest x e Htrace Hx.
  destruct (orderly_create_alert_workflow cfg w) as (evs & Ht & Hr & Hout).
  rewrite Ht in Htrace. apply app_inv_head in Htrace. subst evs.
  assert (Hraised : raised x = true) by (unfold raised; rewrite Hx; reflexivity).
  destruct (fst (create_alert_workflow S post title cfg w)) as [[]|e'].
  - rewrite forallb_app in Hout. apply andb_prop in Hout. destruct Hout as [_ Hout].
    cbn in Hout. rewrite Hraised in Hout. discriminate.
  - destruct Hout as (before & y & Heq & Hbefore & Hy).
    destruct (raised_is_last before pre rest x y Hbefore Hraised Heq) as [-> <-].
    split; [reflexivity|]. split; [congruence|].
    rewrite Hr. unfold remote_after. rewrite fold_left_app. reflexivity.
Qed.

End Orderly.

Lemma failure_ends_the_run_witness :
  fst failing_run = Err (NerdGraphAPIError (RawBody "Internal Server Error"))
  /\ remote (snd failing_run)
     = (0, [{| res_kind := Policy; res_name := "Demo - Open edX Instance";
               res_id := "0" |}]).
Proof.
  destruct (failure_ends_the_run Failing.respond PyStr.title demo_config (nothing_yet (3, []))
              (firstn 3 (trace (snd failing_run))) []
              {| ev_call := CreateNotificationDestination
                              "Default notification channel for demo" "a@b.com";
                 ev_outcome := Err (NerdGraphAPIError (RawBody "Internal Server Error"));
                 ev_remote := (0, [{| res_kind := Policy;
                                      res_name := "Demo - Open edX Instance";
                                      res_id := "0" |}]) |}
              (NerdGraphAPIError (RawBody "Internal Server Error")))
    as (_ & Hresult & Hremote).
  - vm_compute. reflexivity.
  - reflexivity.
  - split; [exact Hresult|exact Hremote].
Defined.

(** ** The orchestration against a platform that remembers *)

Lemma create_alert_workflow_parts {S : Type} (post : S -> request -> S * http_response)
    (title : string -> string) (cfg : config) :
  create_alert_workflow S post title cfg
  = bind (get_alert_policy S post (client_of cfg) (policy_name_of title cfg)) (fun found =>
    bind (or_create found (create_alert_policy S post (client_of cfg) (policy_name_of title cfg)))
         (fun policy =>
    for_each (NEWRELIC_SYNTHETICS_MONITORS cfg)
             (monitor_config_part post cfg (client_of cfg) policy))).
Proof. reflexivity. Qed.

Section Remembered.

Import Remembering.

Lemma kind_eqb_eq (a b : kind) : kind_eqb a b = true <-> a = b.
Proof. destruct a, b; cbn; split; intro H; try reflexivity; discriminate. Qed.

Lemma first_named_remembered (k : kind) (n : string) (st : state) :
  first_named (id_key k) n (map (entity (id_key k)) (of_kind k st))
  = Ok (find_resource k n st).
Proof.
  unfold find_resource, of_kind.
  induction st as [|r st IH]; [reflexivity|].
  cbn [filter find].
  destruct (kind_eqb (res_kind r) k) eqn:Ek; cbn [andb]; [|exact IH].
  cbn [map first_named].
  replace (Py.getitem (entity (id_key k) r) "name") with (Ok (JStr (res_name r)))
    by (destruct k; reflexivity).
  cbn [Py.eq_str].
  destruct (String.eqb (res_name r) n); [|exact IH].
  replace (Py.getitem (entity (id_key k) r) (id_key k)) with (Ok (JStr (res_id r)))
    by (destruct k; reflexivity).
  reflexivity.
Qed.

(** A lookup on the remembering platform. *)
Lemma get_resource_remembered (k : kind) (c : NewRelicClient) (arg : string)
    (w : world state) :
  get_resource respond k c arg w
  = (Ok (find_resource k (searched_name k arg) (remote w)),
     {| remote := remote w;
        trace := app (trace w)
                   [{| ev_call := get_call k arg;
                       ev_outcome := Ok (find_resource k (searched_name k arg) (remote w));
                       ev_remote := remote w |}] |}).
Proof.
  pose proof (first_named_remembered k (searched_name k arg) (remote w)) as H.
  destruct k; cbn [id_key searched_name] in H |- *;
    unfold get_resource, get_alert_policy, get_synthetics_monitor, get_alert_condition,
      get_notification_destination, get_notification_channel, get_ai_workflow,
      traced, bind, send_request, lift, search;
    cbn -[first_named find_resource of_kind String.append];
    rewrite H; reflexivity.
Qed.


(** A creation on the remembering platform, method by method. *)
Lemma create_alert_policy_remembered (c : NewRelicClient) (n : string) (w : world state) :
  create_alert_policy state respond c n w
  = (Ok {| id := fresh_id (remote w); name := n |},
     created_world w (Policy, n) (CreateAlertPolicy n)).
Proof. reflexivity. Qed.

Lemma create_synthetics_monitor_remembered (c : NewRelicClient)
    (n u period : string) (locations : list string) (w : world state) :
  create_synthetics_monitor state respond c n u period locations w
  = (Ok {| monitor_id := fresh_id (remote w); monitor_name := n; uri := u |},
     created_world w (Monitor, n) (CreateSyntheticsMonitor n u period locations)).
Proof. reflexivity. Qed.

Lemma create_alert_condition_remembered (c : NewRelicClient)
    (m u policy_id : string) (w : world state) :
  create_alert_condition state respond c m u policy_id w
  = (Ok {| id := fresh_id (remote w); name := searched_name Condition m |},
     created_world w (Condition, searched_name Condition m)
       (CreateAlertCondition m u policy_id)).
Proof. reflexivity. Qed.

Lemma create_notification_destination_remembered (c : NewRelicClient)
    (n r : string) (w : world state) :
  create_notification_destination state respond c n r w
  = (Ok {| id := fresh_id (remote w); name := n |},
     created_world w (Destination, n) (CreateNotificationDestination n r)).
Proof. reflexivity. Qed.

Lemma create_notificaiton_channel_remembered (c : NewRelicClient)
    (n d : string) (w : world state) :
  create_notificaiton_channel state respond c n d w
  = (Ok {| id := fresh_id (remote w); name := n |},
     created_world w (Channel, n) (CreateNotificationChannel n d)).
Proof. reflexivity. Qed.

Lemma create_ai_workflow_remembered (c : NewRelicClient)
    (i policy_id channel_id : string) (w : world state) :
  create_ai_workflow state respond c i policy_id channel_id w
  = (Ok {| id := fresh_id (remote w); name := searched_name Workflow i |},
     created_world w (Workflow, searched_name Workflow i)
       (CreateAiWorkflow i policy_id channel_id)).
Proof. reflexivity. Qed.

End Remembered.

Section Provisioning.

Import Remembering Provision.

Lemma find_resource_name (k : kind) (n : string) (st : state) (r : Response) :
  find_resource k n st = Some r -> name r = n.
Proof.
  unfold find_resource.
  destruct (find _ st) as [x|] eqn:E; [|discriminate].
  intro H. injection H as <-. apply find_some in E. destruct E as [_ E].
  apply andb_prop in E. destruct E as [_ E]. apply String.eqb_eq in E. exact E.
Qed.

Lemma present_iff (st : state) (key : kind * string) :
  present st key = true <-> exists r, In r st /\ key_of r = key.
Proof.
  destruct key as [k n]. unfold present, has, find_resource, key_of. cbn [fst snd].
  split.
  - destruct (find _ st) as [x|] eqn:E; [intros _|discriminate].
    apply find_some in E. destruct E as [Hin E].
    apply andb_prop in E. destruct E as [Ek En].
    apply kind_eqb_eq in Ek. apply String.eqb_eq in En.
    exists x. split; [exact Hin|congruence].
  - intros (r & Hin & Hkey). injection Hkey as Hk Hn.
    destruct (find _ st) as [x|] eqn:E; [reflexivity|].
    pose proof (find_none _ _ E r Hin) as Hr. cbn in Hr.
    rewrite Hk, Hn, String.eqb_refl in Hr.
    replace (kind_eqb k k) with true in Hr by (destruct k; reflexivity).
    discriminate.
Qed.

Lemma present_app (st more : state) (key : kind * string) :
  present st key = true -> present (st ++ more)%list key = true.
Proof.
  rewrite !present_iff. intros (r & Hin & Hkey).
  exists r. split; [apply in_or_app; left; exact Hin|exact Hkey].
Qed.

Lemma absent_app (st more : state) (key : kind * string) :
  present (st ++ more)%list key = false -> present st key = false.
Proof.
  intro H. destruct (present st key) eqn:E; [|reflexivity].
  rewrite (present_app st more key E) in H. discriminate.
Qed.

Lemma step_keys (st : state) (key : kind * string) (r : resource) :
  In r (step st key) -> key_of r = key /\ present st key = false.
Proof.
  unfold step. destruct (present st key); [intros []|].
  intros [<-|[]]. split; [destruct key; reflexivity|reflexivity].
Qed.

Lemma step_length (st : state) (key : kind * string) : length (step st key) <= 1.
Proof. unfold step. destruct (present st key); cbn; lia. Qed.

Lemma present_step (st : state) (key : kind * string) :
  present (st ++ step st key)%list key = true.
Proof.
  unfold step. destruct (present st key) eqn:E.
  - rewrite app_nil_r. exact E.
  - apply present_iff. exists (remember st key).
    split; [apply in_or_app; right; left; reflexivity|destruct key; reflexivity].
Qed.

Lemma added_keys (keys : list (kind * string)) (st : state) (r : resource) :
  In r (added keys st) -> In (key_of r) keys /\ present st (key_of r) = false.
Proof.
  revert st. induction keys as [|key keys IH]; intros st Hin; [destruct Hin|].
  cbn [added] in Hin. apply in_app_or in Hin. destruct Hin as [Hin|Hin].
  - apply step_keys in Hin. destruct Hin as [-> Habsent].
    split; [left; reflexivity|exact Habsent].
  - apply IH in Hin. destruct Hin as [Hin Habsent].
    split; [right; exact Hin|apply absent_app in Habsent; exact Habsent].
Qed.

Lemma added_nodup (keys : list (kind * string)) (st : state) :
  NoDup (map key_of (added keys st)).
Proof.
  revert st. induction keys as [|key keys IH]; intro st; [constructor|].
  cbn [added]. rewrite map_app.
  pose proof (present_step st key) as Hpresent.
  unfold step in *. destruct (present st key) eqn:E; cbn [map app].
  - apply IH.
  - constructor; [|apply IH].
    intro Hin. apply in_map_iff in Hin. destruct Hin as (r & Hkey & Hin).
    apply added_keys in Hin. destruct Hin as [_ Habsent].
    replace (key_of (remember st key)) with key in Hkey by (destruct key; reflexivity).
    rewrite Hkey, Hpresent in Habsent. discriminate.
Qed.

Lemma added_present (keys : list (kind * string)) (st : state) :
  forallb (present st) keys = true -> added keys st = [].
Proof.
  induction keys as [|key keys IH]; [reflexivity|].
  cbn [forallb added]. intro H. apply andb_prop in H. destruct H as [Hkey Hkeys].
  unfold step. rewrite Hkey. cbn [app]. rewrite app_nil_r. exact (IH Hkeys).
Qed.

Lemma present_added (keys : list (kind * string)) (st : state) (key : kind * string) :
  In key keys -> present (st ++ added keys st)%list key = true.
Proof.
  revert st. induction keys as [|key0 keys IH]; intros st Hin; [destruct Hin|].
  cbn [added]. rewrite app_assoc. destruct Hin as [->|Hin].
  - apply present_app. apply present_step.
  - apply IH. exact Hin.
Qed.

Lemma added_app (keys1 keys2 : list (kind * string)) (st : state) :
  added (keys1 ++ keys2) st
  = (added keys1 st ++ added keys2 (st ++ added keys1 st))%list.
Proof.
  revert st. induction keys1 as [|key keys1 IH]; intro st; cbn [added app].
  - rewrite app_nil_r. reflexivity.
  - rewrite IH, <- !app_assoc. reflexivity.
Qed.

Lemma has_count (k : kind) (n : string) (st : state) :
  has k n st = negb (Nat.eqb (count k n st) 0).
Proof.
  unfold has, find_resource, count.
  induction st as [|r st IH]; [reflexivity|].
  cbn [find filter]. destruct (kind_eqb (res_kind r) k && String.eqb (res_name r) n).
  - reflexivity.
  - exact IH.
Qed.

Lemma count_nodup (k : kind) (n : string) (st : state) :
  NoDup (map key_of st) -> count k n st <= 1.
Proof.
  unfold count. induction st as [|r st IH]; cbn [map filter]; intro H; [cbn; lia|].
  inversion H as [|? ? Hnotin Hnodup]; subst.
  destruct (kind_eqb (res_kind r) k && String.eqb (res_name r) n) eqn:E;
    [|exact (IH Hnodup)].
  apply andb_prop in E. destruct E as [Ek En].
  apply kind_eqb_eq in Ek. apply String.eqb_eq in En.
  cbn [length].
  destruct (filter _ st) as [|r' rest] eqn:F; [cbn; lia|].
  exfalso. apply Hnotin.
  assert (Hin : In r' (filter (fun r => kind_eqb (res_kind r) k
                                          && String.eqb (res_name r) n) st))
    by (rewrite F; left; reflexivity).
  apply filter_In in Hin. destruct Hin as [Hin Hr'].
  apply andb_prop in Hr'. destruct Hr' as [Hk' Hn'].
  apply kind_eqb_eq in Hk'. apply String.eqb_eq in Hn'.
  apply in_map_iff. exists r'. split; [|exact Hin].
  unfold key_of. congruence.
Qed.

(** Composition of runs on the remembering platform. *)

Lemma provisioned_nil (w : world state) : provisioned [] w [] w.
Proof.
  unfold provisioned. cbn. rewrite !app_nil_r. repeat split; reflexivity.
Qed.

Lemma provisioned_app (keys1 keys2 : list (kind * string))
    (w w1 w2 : world state) (evs1 evs2 : list (event state)) :
  provisioned keys1 w evs1 w1 ->
  provisioned keys2 w1 evs2 w2 ->
  provisioned (keys1 ++ keys2) w (evs1 ++ evs2) w2.
Proof.
  intros (Ht1 & Hr1 & Hl1 & Hc1 & Hf1) (Ht2 & Hr2 & Hl2 & Hc2 & Hf2).
  unfold provisioned. rewrite added_app, <- Hr1.
  split; [rewrite Ht2, Ht1, app_assoc; reflexivity|].
  split; [rewrite Hr2, Hr1 at 1; rewrite app_assoc; reflexivity|].
  split; [unfold lookups in *; rewrite filter_app, !length_app; lia|].
  split; [unfold creations in *; rewrite filter_app, !map_app; congruence|].
  intro Hnil. apply app_eq_nil in Hnil. destruct Hnil as [Hnil1 Hnil2].
  rewrite forallb_app, (Hf1 Hnil1), (Hf2 Hnil2). reflexivity.
Qed.

Lemma provisions_ret {A} (a : A) (P : A -> Prop) :
  P a -> provisions (ret a) [] P.
Proof.
  intros HP w. exists a, [], w. split; [reflexivity|].
  split; [exact HP|apply provisioned_nil].
Qed.

Lemma provisions_bind {A B} (m : M state A) (k : A -> M state B)
    (keys1 keys2 : list (kind * string)) (P : A -> Prop) (Q : B -> Prop) :
  provisions m keys1 P ->
  (forall a, P a -> provisions (k a) keys2 Q) ->
  provisions (bind m k) (keys1 ++ keys2) Q.
Proof.
  intros Hm Hk w.
  destruct (Hm w) as (a & evs1 & w1 & Hrun1 & HP & Hp1).
  destruct (Hk a HP w1) as (b & evs2 & w2 & Hrun2 & HQ & Hp2).
  exists b, (evs1 ++ evs2)%list, w2.
  split; [unfold bind; rewrite Hrun1; exact Hrun2|].
  split; [exact HQ|exact (provisioned_app _ _ _ _ _ _ _ Hp1 Hp2)].
Qed.

Lemma provisions_for_each {A} (xs : list A) (body : A -> M state unit)
    (keys : A -> list (kind * string)) :
  (forall x, provisions (body x) (keys x) (fun _ => True)) ->
  provisions (for_each xs body) (flat_map keys xs) (fun _ => True).
Proof.
  intro Hbody. induction xs as [|x xs IH]; cbn [for_each flat_map].
  - apply provisions_ret. exact I.
  - apply (provisions_bind _ _ _ _ (fun _ => True)); [apply Hbody|intros _ _; exact IH].
Qed.

Lemma provisions_assoc {A B C} (m : M state A) (f : A -> M state B)
    (g : B -> M state C) (keys : list (kind * string)) (P : C -> Prop) :
  provisions (bind (bind m f) g) keys P ->
  provisions (bind m (fun a => bind (f a) g)) keys P.
Proof.
  intros H w. destruct (H w) as (c & evs & w' & Hrun & HP).
  exists c, evs, w'. split; [|exact HP].
  rewrite <- Hrun. unfold bind.
  destruct (m w) as [[a|e] w1]; reflexivity.
Qed.

End Provisioning.

Section Steps.

Import Remembering Provision.

Variable title : string -> string.

Lemma is_get_get_call (k : kind) (arg : string) : is_get (get_call k arg) = true.
Proof. destruct k; reflexivity. Qed.

(** One get-or-create step on the remembering platform. *)
Lemma ensure_step {A} (k : kind) (c : NewRelicClient) (arg : string)
    (on_found : Response -> A) (create : M state A) (the_call : call)
    (P : A -> Prop) :
  target the_call = (k, searched_name k arg) ->
  is_create the_call = true ->
  (forall r, name r = searched_name k arg -> P (on_found r)) ->
  (forall w, exists a,
      create w = (Ok a, created_world w (k, searched_name k arg) the_call) /\ P a) ->
  forall w, exists a evs w',
    bind (get_resource respond k c arg)
         (fun found => match found with
                       | Some r => ret (on_found r)
                       | None => create
                       end) w
    = (Ok a, w')
    /\ P a
    /\ provisioned [(k, searched_name k arg)] w evs w'
    /\ (forall ev, In ev (creations evs) -> ev_call ev = the_call).
Proof.
  intros Htarget Hcreate Hfound Hcreated w.
  unfold bind. rewrite get_resource_remembered.
  assert (Hstep : added [(k, searched_name k arg)] (remote w)
                  = step (remote w) (k, searched_name k arg))
    by (cbn [added]; apply app_nil_r).
  unfold provisioned. rewrite Hstep. unfold step, present, has. cbn [fst snd].
  destruct (find_resource k (searched_name k arg) (remote w)) as [r|] eqn:F.
  - eexists _, [{| ev_call := get_call k arg; ev_outcome := Ok (Some r);
                   ev_remote := remote w |}], _.
    split; [reflexivity|].
    split; [apply Hfound; exact (find_resource_name _ _ _ _ F)|].
    unfold lookups, creations. cbn [filter ev_call].
    rewrite is_get_get_call.
    replace (is_create (get_call k arg)) with false by (destruct k; reflexivity).
    cbn. rewrite app_nil_r. repeat split. intros ev [].
  - match goal with
    | |- context [create ?w1] => destruct (Hcreated w1) as (a & Hrun & HP)
    end.
    rewrite Hrun.
    eexists a,
      [{| ev_call := get_call k arg; ev_outcome := Ok None; ev_remote := remote w |};
       {| ev_call := the_call;
          ev_outcome := Ok (Some {| id := fresh_id (remote w);
                                    name := searched_name k arg |});
          ev_remote := app (remote w)
                         [remember (remote w) (k, searched_name k arg)] |}], _.
    split; [reflexivity|].
    split; [exact HP|].
    unfold lookups, creations, is_get. cbn [filter ev_call].
    rewrite Hcreate.
    replace (is_create (get_call k arg)) with false by (destruct k; reflexivity).
    cbn. rewrite Htarget. repeat split.
    + rewrite <- app_assoc. reflexivity.
    + discriminate.
    + intros ev [<-|[]]. reflexivity.
Qed.

Lemma ensure_provisions {A} (k : kind) (c : NewRelicClient) (arg : string)
    (on_found : Response -> A) (create : M state A) (the_call : call)
    (P : A -> Prop) :
  target the_call = (k, searched_name k arg) ->
  is_create the_call = true ->
  (forall r, name r = searched_name k arg -> P (on_found r)) ->
  (forall w, exists a,
      create w = (Ok a, created_world w (k, searched_name k arg) the_call) /\ P a) ->
  provisions
    (bind (get_resource respond k c arg)
          (fun found => match found with
                        | Some r => ret (on_found r)
                        | None => create
                        end))
    [(k, searched_name k arg)] P.
Proof.
  intros Htarget Hcreate Hfound Hcreated w.
  destruct (ensure_step k c arg on_found create the_call P Htarget Hcreate Hfound
              Hcreated w) as (a & evs & w' & Hrun & HP & Hp & _).
  exists a, evs, w'. auto.
Qed.

Variable cfg : config.

Let client : NewRelicClient := client_of cfg.

Lemma provisions_url_part (policy : Response) (url : string) :
  provisions (url_part respond cfg client policy url) (required_of_url url)
             (fun _ => True).
Proof.
  unfold url_part. apply provisions_assoc.
  change (required_of_url url)
    with ([(Monitor, searched_name Monitor url)]
            ++ [(Condition, searched_name Condition url)])%list.
  apply (provisions_bind _ _ _ _ (fun monitor => name monitor = url)).
  - apply (ensure_provisions Monitor client url (fun r => r) _
             (CreateSyntheticsMonitor url url (NEWRELIC_MONITORING_PERIOD cfg)
                [NEWRELIC_MONITORING_LOCATION cfg])).
    + reflexivity.
    + reflexivity.
    + intros r Hr. exact Hr.
    + intro w. eexists. split; reflexivity.
  - intros monitor Hname. rewrite Hname.
    apply (ensure_provisions Condition client url (fun _ => tt) _
             (CreateAlertCondition url url (id policy))).
    + reflexivity.
    + reflexivity.
    + intros; exact I.
    + intro w. eexists. split; [reflexivity|exact I].
Qed.

Lemma provisions_workflow_part (policy channel : Response) (m : monitor_config) :
  provisions (workflow_part respond cfg client policy channel m)
    ((Workflow, searched_name Workflow (NEWRELIC_NAME cfg))
       :: flat_map required_of_url (urls m))
    (fun _ => True).
Proof.
  unfold workflow_part. apply provisions_assoc.
  apply (provisions_bind _ _ [_] _ (fun _ => True)).
  - apply (ensure_provisions Workflow client (NEWRELIC_NAME cfg) (fun r => r) _
             (CreateAiWorkflow (NEWRELIC_NAME cfg) (id policy) (id channel))).
    + reflexivity.
    + reflexivity.
    + intros; exact I.
    + intro w. eexists. split; [reflexivity|exact I].
  - intros _ _. apply provisions_for_each. intro url. apply provisions_url_part.
Qed.

Lemma provisions_monitor_config_part (policy : Response) (m : monitor_config) :
  provisions (monitor_config_part respond cfg client policy m)
    (required_of_monitor_config (NEWRELIC_NAME cfg) m) (fun _ => True).
Proof.
  unfold monitor_config_part. apply provisions_assoc.
  apply (provisions_bind _ _ [_] _ (fun _ => True)).
  - apply (ensure_provisions Destination client _ (fun r => r) _
             (CreateNotificationDestination
                ("Default notification channel for " ++ NEWRELIC_NAME cfg)
                (recipient m))).
    + reflexivity.
    + reflexivity.
    + intros; exact I.
    + intro w. eexists. split; [reflexivity|exact I].
  - intros destination _. apply provisions_assoc.
    apply (provisions_bind _ _ [_] _ (fun _ => True)).
    + apply (ensure_provisions Channel client _ (fun r => r) _
               (CreateNotificationChannel
                  ("Default notification channel for " ++ NEWRELIC_NAME cfg)
                  (id destination))).
      * reflexivity.
      * reflexivity.
      * intros; exact I.
      * intro w. eexists. split; [reflexivity|exact I].
    + intros channel _. apply provisions_workflow_part.
Qed.

Lemma provisions_create_alert_workflow :
  provisions (create_alert_workflow state respond title cfg) (required title cfg) (fun _ => True).
Proof.
  rewrite create_alert_workflow_parts. apply provisions_assoc.
  apply (provisions_bind _ _ [_] _ (fun _ => True)).
  - apply (ensure_provisions Policy (client_of cfg) (policy_name_of title cfg) (fun r => r) _
             (CreateAlertPolicy (policy_name_of title cfg))).
    + reflexivity.
    + reflexivity.
    + intros; exact I.
    + intro w. eexists. split; [reflexivity|exact I].
  - intros policy _. apply provisions_for_each. intro m.
    apply provisions_monitor_config_part.
Qed.

End Steps.

(** ** Idempotence *)

(** C2. Two runs of the orchestration with the same configuration against
    a platform that remembers what it created: both return; afterwards the
    platform holds exactly one resource for every (kind, name) pair of the
    configuration and nothing else; the first run makes one creation per
    resource and none twice; the second run makes no creation, each of its
    lookups finds its resource, and it makes as many lookups as the first. *)
Theorem second_run_creates_nothing :
  forall (title : string -> string) (cfg : config),
    fst (first_run title cfg) = Ok tt
    /\ fst (second_run title cfg) = Ok tt
    /\ (forall k n, In (k, n) (required title cfg) ->
                    Remembering.count k n (remote (snd (second_run title cfg))) = 1)
    /\ (forall r, In r (remote (snd (second_run title cfg))) -> In (key_of r) (required title cfg))
    /\ map (fun ev => target (ev_call ev)) (creations (trace (snd (first_run title cfg))))
       = map key_of (remote (snd (second_run title cfg)))
    /\ NoDup (map (fun ev => target (ev_call ev))
                  (creations (trace (snd (first_run title cfg)))))
    /\ creations (trace (snd (second_run title cfg))) = []
    /\ forallb found_one (trace (snd (second_run title cfg))) = true
    /\ length (lookups (trace (snd (second_run title cfg))))
       = length (lookups (trace (snd (first_run title cfg)))).
Proof.
  intros title cfg. unfold second_run, first_run.
  destruct (provisions_create_alert_workflow title cfg (nothing_yet []))
    as ([] & evs1 & w1 & -> & _ & Ht1 & Hr1 & Hl1 & Hc1 & _).
  cbn [fst snd].
  destruct (provisions_create_alert_workflow title cfg (nothing_yet (remote w1)))
    as ([] & evs2 & w2 & -> & _ & Ht2 & Hr2 & Hl2 & Hc2 & Hf2).
  cbn [fst snd nothing_yet remote trace app] in *.
  assert (Hnone : Provision.added (required title cfg) (remote w1) = []).
  { apply added_present. apply forallb_forall. intros key Hin.
    rewrite Hr1. exact (present_added (required title cfg) [] key Hin). }
  rewrite Hnone in *. rewrite app_nil_r in Hr2.
  rewrite Ht1, Ht2, Hr2.
  split; [reflexivity|]. split; [reflexivity|].
  split.
  { intros k n Hin.
    pose proof (count_nodup k n (remote w1)) as Hle.
    rewrite Hr1 in Hle at 1. specialize (Hle (added_nodup _ _)).
    pose proof (present_added (required title cfg) [] (k, n) Hin) as Hpresent.
    cbn [app] in Hpresent. rewrite <- Hr1 in Hpresent.
    unfold Provision.present in Hpresent. cbn [fst snd] in Hpresent.
    rewrite has_count in Hpresent.
    destruct (Remembering.count k n (remote w1)) as [|[|c]]; [discriminate|reflexivity|lia]. }
  split.
  { intros r Hin. rewrite Hr1 in Hin. apply added_keys in Hin. tauto. }
  split; [rewrite Hc1, Hr1; reflexivity|].
  split; [rewrite Hc1; apply added_nodup|].
  split.
  { cbn in Hc2. destruct (creations evs2); [reflexivity|discriminate]. }
  split; [exact (Hf2 eq_refl)|congruence].
Qed.

(** ** One destination and one channel for all monitor configurations *)

Section FirstRecipient.

Import Remembering Provision.

Variable title : string -> string.

Lemma bind_then {A B} (m : M state A) (k : A -> M state B) (w w1 : world state)
    (a : A) (res : result B * world state) :
  m w = (Ok a, w1) -> k a w1 = res -> bind m k w = res.
Proof. intros Hm Hk. unfold bind. rewrite Hm. exact Hk. Qed.

Lemma bind_assoc {A B C} (m : M state A) (f : A -> M state B) (g : B -> M state C)
    (w : world state) :
  bind (bind m f) g w = bind m (fun a => bind (f a) g) w.
Proof. unfold bind. destruct (m w) as [[a|e] w1]; reflexivity. Qed.

Lemma bind_ext {A B} (m : M state A) (k1 k2 : A -> M state B) (w : world state) :
  (forall a w1, k1 a w1 = k2 a w1) -> bind m k1 w = bind m k2 w.
Proof. intro H. unfold bind. destruct (m w) as [[a|e] w1]; [apply H|reflexivity]. Qed.

(** The run, with the first monitor configuration taken out of the loop
    and each get-or-create step grouped. *)
Lemma create_alert_workflow_first (cfg : config) (m : monitor_config)
    (ms : list monitor_config) (w : world state) :
  NEWRELIC_SYNTHETICS_MONITORS cfg = m :: ms ->
  let client := client_of cfg in
  let dst_name := "Default notification channel for " ++ NEWRELIC_NAME cfg in
  create_alert_workflow state respond title cfg w
  = bind (bind (get_alert_policy state respond client (policy_name_of title cfg))
               (fun found =>
                  or_create found
                    (create_alert_policy state respond client (policy_name_of title cfg))))
      (fun policy =>
       bind (bind (get_notification_destination state respond client dst_name)
                  (fun found =>
                     or_create found
                       (create_notification_destination state respond client dst_name
                          (recipient m))))
         (fun destination =>
          bind (bind (get_notification_channel state respond client dst_name)
                     (fun found =>
                        or_create found
                          (create_notificaiton_channel state respond client dst_name
                             (id destination))))
            (fun channel =>
             bind (workflow_part respond cfg client policy channel m)
                  (fun _ => for_each ms (monitor_config_part respond cfg client policy)))))
      w.
Proof.
  intros Hms client dst_name.
  rewrite create_alert_workflow_parts, Hms.
  fold client. rewrite bind_assoc.
  apply bind_ext. intros found_policy w1.
  apply bind_ext. intros policy w2.
  cbn [for_each]. unfold monitor_config_part at 1. fold dst_name.
  rewrite !bind_assoc.
  apply bind_ext. intros found_destination w3.
  rewrite bind_assoc.
  apply bind_ext. intros destination w4.
  rewrite !bind_assoc.
  apply bind_ext. intros found_channel w5.
  rewrite bind_assoc. reflexivity.
Qed.

Lemma created_in (keys : list (kind * string)) (w w' : world state)
    (evs : list (event state)) (ev : event state) :
  provisioned keys w evs w' ->
  In ev evs ->
  is_create (ev_call ev) = true ->
  In (target (ev_call ev)) keys /\ present (remote w) (target (ev_call ev)) = false.
Proof.
  intros (_ & _ & _ & Hc & _) Hin Hcreate.
  assert (Hin' : In (target (ev_call ev))
                    (map (fun ev => target (ev_call ev)) (creations evs))).
  { apply (in_map (fun ev => target (ev_call ev))).
    apply filter_In. split; assumption. }
  rewrite Hc in Hin'. apply in_map_iff in Hin'. destruct Hin' as (r & <- & Hr).
  exact (added_keys _ _ _ Hr).
Qed.

Lemma creations_at_most_one (key : kind * string) (w w' : world state)
    (evs : list (event state)) :
  provisioned [key] w evs w' -> length (creations evs) <= 1.
Proof.
  intros (_ & _ & _ & Hc & _).
  rewrite <- (length_map (fun ev => target (ev_call ev))), Hc, length_map.
  cbn [added]. rewrite app_nil_r. apply step_length.
Qed.

Lemma filter_none {A} (f : A -> bool) (l : list A) :
  (forall x, In x l -> f x = true -> False) -> filter f l = [].
Proof.
  induction l as [|x l IH]; intro H; [reflexivity|]. cbn [filter].
  destruct (f x) eqn:E; [destruct (H x (or_introl eq_refl) E)|].
  apply IH. intros y Hy. apply H. right. exact Hy.
Qed.

Lemma filter_fewer {A} (f g : A -> bool) (l : list A) :
  (forall x, f x = true -> g x = true) ->
  length (filter f l) <= length (filter g l).
Proof.
  intro H. induction l as [|x l IH]; [cbn; lia|]. cbn [filter].
  destruct (f x) eqn:E.
  - rewrite (H x E). cbn [length]. lia.
  - destruct (g x); cbn [length]; lia.
Qed.

Lemma required_of_url_kinds (urls : list string) (k : kind) (n : string) :
  In (k, n) (flat_map required_of_url urls) -> k = Monitor \/ k = Condition.
Proof.
  intro H. apply in_flat_map in H. destruct H as (url & _ & [H|[H|[]]]);
    injection H as <- _; auto.
Qed.

Lemma required_destination (cfg : config) (ms : list monitor_config) (n : string) :
  In (Destination, n)
     (flat_map (required_of_monitor_config (NEWRELIC_NAME cfg)) ms) ->
  n = "Default notification channel for " ++ NEWRELIC_NAME cfg.
Proof.
  intro H. apply in_flat_map in H. destruct H as (m & _ & [H|[H|[H|H]]]);
    try discriminate.
  - injection H as <-. reflexivity.
  - apply required_of_url_kinds in H. destruct H; discriminate.
Qed.

Lemma required_channel (cfg : config) (ms : list monitor_config) (n : string) :
  In (Channel, n)
     (flat_map (required_of_monitor_config (NEWRELIC_NAME cfg)) ms) ->
  n = "Default notification channel for " ++ NEWRELIC_NAME cfg.
Proof.
  intro H. apply in_flat_map in H. destruct H as (m & _ & [H|[H|[H|H]]]);
    try discriminate.
  - injection H as <-. reflexivity.
  - apply required_of_url_kinds in H. destruct H; discriminate.
Qed.

End FirstRecipient.

Section OneDestination.

Import Remembering Provision.

Variable title : string -> string.

Variable cfg : config.
Variable m : monitor_config.
Variable ms : list monitor_config.
Hypothesis first_is_m : NEWRELIC_SYNTHETICS_MONITORS cfg = m :: ms.

Let dst_name : string := "Default notification channel for " ++ NEWRELIC_NAME cfg.

Let rest_keys : list (kind * string) :=
  (((Workflow, searched_name Workflow (NEWRELIC_NAME cfg))
      :: flat_map required_of_url (urls m))
     ++ flat_map (required_of_monitor_config (NEWRELIC_NAME cfg)) ms)%list.

(** The run in four parts: the policy, the destination of the first
    monitor configuration, its channel, and all the rest. *)
Lemma first_config_run (w0 : world state) :
  exists (destination : Response) (w1 w2 w3 w4 : world state)
         (evs0 evsD evsC evsR : list (event state)),
    create_alert_workflow state respond title cfg w0 = (Ok tt, w4)
    /\ provisioned [(Policy, policy_name_of title cfg)] w0 evs0 w1
    /\ provisioned [(Destination, dst_name)] w1 evsD w2
    /\ (forall ev, In ev (creations evsD) ->
                   ev_call ev = CreateNotificationDestination dst_name (recipient m))
    /\ provisioned [(Channel, dst_name)] w2 evsC w3
    /\ (forall ev, In ev (creations evsC) ->
                   ev_call ev = CreateNotificationChannel dst_name (id destination))
    /\ provisioned rest_keys w3 evsR w4.
Proof.
  pose proof (create_alert_workflow_first title cfg m ms w0 first_is_m) as Hsplit.
  cbv zeta in Hsplit. fold dst_name in Hsplit. rewrite Hsplit. clear Hsplit.
  destruct (ensure_step Policy (client_of cfg) (policy_name_of title cfg) (fun r => r)
              (create_alert_policy state respond (client_of cfg) (policy_name_of title cfg))
              (CreateAlertPolicy (policy_name_of title cfg)) (fun _ => True)
              eq_refl eq_refl (fun _ _ => I)
              (fun w => ex_intro _ _ (conj eq_refl I)) w0)
    as (policy & evs0 & w1 & Hrun0 & _ & Hp0 & _).
  destruct (ensure_step Destination (client_of cfg) dst_name (fun r => r)
              (create_notification_destination state respond (client_of cfg) dst_name
                 (recipient m))
              (CreateNotificationDestination dst_name (recipient m)) (fun _ => True)
              eq_refl eq_refl (fun _ _ => I)
              (fun w => ex_intro _ _ (conj eq_refl I)) w1)
    as (destination & evsD & w2 & HrunD & _ & HpD & HcD).
  destruct (ensure_step Channel (client_of cfg) dst_name (fun r => r)
              (create_notificaiton_channel state respond (client_of cfg) dst_name
                 (id destination))
              (CreateNotificationChannel dst_name (id destination)) (fun _ => True)
              eq_refl eq_refl (fun _ _ => I)
              (fun w => ex_intro _ _ (conj eq_refl I)) w2)
    as (channel & evsC & w3 & HrunC & _ & HpC & HcC).
  destruct (provisions_bind _ _ _ _ (fun _ => True) (fun _ => True)
              (provisions_workflow_part cfg policy channel m)
              (fun _ _ => provisions_for_each ms
                            (monitor_config_part respond cfg (client_of cfg) policy)
                            (required_of_monitor_config (NEWRELIC_NAME cfg))
                            (provisions_monitor_config_part cfg policy)) w3)
    as ([] & evsR & w4 & HrunR & _ & HpR).
  exists destination, w1, w2, w3, w4, evs0, evsD, evsC, evsR.
  split.
  { apply (bind_then _ _ _ _ _ _ Hrun0).
    apply (bind_then _ _ _ _ _ _ HrunD).
    apply (bind_then _ _ _ _ _ _ HrunC).
    exact HrunR. }
  exact (conj Hp0 (conj HpD (conj HcD (conj HpC (conj HcC HpR))))).
Qed.

Lemma rest_keys_destination (n : string) :
  In (Destination, n) rest_keys -> n = dst_name.
Proof.
  unfold rest_keys. cbn [app]. intros [H|H]; [discriminate|].
  apply in_app_or in H. destruct H as [H|H].
  - apply required_of_url_kinds in H. destruct H; discriminate.
  - exact (required_destination cfg ms n H).
Qed.

Lemma rest_keys_channel (n : string) :
  In (Channel, n) rest_keys -> n = dst_name.
Proof.
  unfold rest_keys. cbn [app]. intros [H|H]; [discriminate|].
  apply in_app_or in H. destruct H as [H|H].
  - apply required_of_url_kinds in H. destruct H; discriminate.
  - exact (required_channel cfg ms n H).
Qed.

Lemma creates_destination_target (ev : event state) :
  creates_destination ev = true ->
  is_create (ev_call ev) = true
  /\ exists n, target (ev_call ev) = (Destination, n).
Proof.
  unfold creates_destination. destruct (ev_call ev); try discriminate.
  intros _. split; [reflexivity|eexists; reflexivity].
Qed.

Lemma creates_channel_target (ev : event state) :
  creates_channel ev = true ->
  is_create (ev_call ev) = true
  /\ exists n, target (ev_call ev) = (Channel, n).
Proof.
  unfold creates_channel. destruct (ev_call ev); try discriminate.
  intros _. split; [reflexivity|eexists; reflexivity].
Qed.

(** C9. Whatever the platform remembers at the start and however many
    monitor configurations follow the first, with whatever recipients, the
    run creates at most one destination and at most one channel, both
    named "Default notification channel for <instance>", and a destination
    it creates has the recipient of the first monitor configuration. *)
Theorem one_destination (st : state) :
  fst (run_from title st cfg) = Ok tt
  /\ length (filter creates_destination (trace (snd (run_from title st cfg)))) <= 1
  /\ length (filter creates_channel (trace (snd (run_from title st cfg)))) <= 1
  /\ (forall ev, In ev (trace (snd (run_from title st cfg))) ->
                 creates_destination ev = true ->
                 ev_call ev = CreateNotificationDestination dst_name (recipient m))
  /\ (forall ev, In ev (trace (snd (run_from title st cfg))) ->
                 creates_channel ev = true ->
                 exists d, ev_call ev = CreateNotificationChannel dst_name d).
Proof.
  unfold run_from.
  destruct (first_config_run (nothing_yet st))
    as (destination & w1 & w2 & w3 & w4 & evs0 & evsD & evsC & evsR
        & -> & Hp0 & HpD & HcD & HpC & HcC & HpR).
  cbn [fst snd].
  assert (Htrace : trace w4 = (evs0 ++ evsD ++ evsC ++ evsR)%list).
  { destruct Hp0 as (Ht0 & _), HpD as (HtD & _), HpC as (HtC & _), HpR as (HtR & _).
    rewrite HtR, HtC, HtD, Ht0. cbn [nothing_yet trace app].
    rewrite <- !app_assoc. reflexivity. }
  assert (HhasD : present (remote w3) (Destination, dst_name) = true).
  { destruct HpD as (_ & HrD & _), HpC as (_ & HrC & _).
    rewrite HrC, HrD. apply present_app. apply present_added. left. reflexivity. }
  assert (HhasC : present (remote w3) (Channel, dst_name) = true).
  { destruct HpC as (_ & HrC & _).
    rewrite HrC. apply present_added. left. reflexivity. }
  (* where a destination can be created *)
  assert (HD0 : forall ev, In ev evs0 -> creates_destination ev = true -> False).
  { intros ev Hin Hev. apply creates_destination_target in Hev.
    destruct Hev as (Hcreate & n & Ht).
    destruct (created_in _ _ _ _ _ Hp0 Hin Hcreate) as [[Hk|[]] _].
    rewrite Ht in Hk. discriminate. }
  assert (HDC : forall ev, In ev evsC -> creates_destination ev = true -> False).
  { intros ev Hin Hev. apply creates_destination_target in Hev.
    destruct Hev as (Hcreate & n & Ht).
    destruct (created_in _ _ _ _ _ HpC Hin Hcreate) as [[Hk|[]] _].
    rewrite Ht in Hk. discriminate. }
  assert (HDR : forall ev, In ev evsR -> creates_destination ev = true -> False).
  { intros ev Hin Hev. apply creates_destination_target in Hev.
    destruct Hev as (Hcreate & n & Ht).
    destruct (created_in _ _ _ _ _ HpR Hin Hcreate) as [Hk Habsent].
    rewrite Ht in Hk, Habsent. apply rest_keys_destination in Hk. subst n.
    rewrite HhasD in Habsent. discriminate. }
  (* where a channel can be created *)
  assert (HC0 : forall ev, In ev evs0 -> creates_channel ev = true -> False).
  { intros ev Hin Hev. apply creates_channel_target in Hev.
    destruct Hev as (Hcreate & n & Ht).
    destruct (created_in _ _ _ _ _ Hp0 Hin Hcreate) as [[Hk|[]] _].
    rewrite Ht in Hk. discriminate. }
  assert (HCD : forall ev, In ev evsD -> creates_channel ev = true -> False).
  { intros ev Hin Hev. apply creates_channel_target in Hev.
    destruct Hev as (Hcreate & n & Ht).
    destruct (created_in _ _ _ _ _ HpD Hin Hcreate) as [[Hk|[]] _].
    rewrite Ht in Hk. discriminate. }
  assert (HCR : forall ev, In ev evsR -> creates_channel ev = true -> False).
  { intros ev Hin Hev. apply creates_channel_target in Hev.
    destruct Hev as (Hcreate & n & Ht).
    destruct (created_in _ _ _ _ _ HpR Hin Hcreate) as [Hk Habsent].
    rewrite Ht in Hk, Habsent. apply rest_keys_channel in Hk. subst n.
    rewrite HhasC in Habsent. discriminate. }
  rewrite Htrace.
  split; [reflexivity|].
  split.
  { rewrite !filter_app, (filter_none _ _ HD0), (filter_none _ _ HDC),
      (filter_none _ _ HDR), app_nil_r. cbn [app].
    etransitivity; [|exact (creations_at_most_one _ _ _ _ HpD)].
    apply filter_fewer. intros ev Hev.
    apply creates_destination_target in Hev. tauto. }
  split.
  { rewrite !filter_app, (filter_none _ _ HC0), (filter_none _ _ HCD),
      (filter_none _ _ HCR), app_nil_r. cbn [app].
    etransitivity; [|exact (creations_at_most_one _ _ _ _ HpC)].
    apply filter_fewer. intros ev Hev.
    apply creates_channel_target in Hev. tauto. }
  split.
  - intros ev Hin Hev.
    apply in_app_or in Hin. destruct Hin as [Hin|Hin]; [destruct (HD0 ev Hin Hev)|].
    apply in_app_or in Hin. destruct Hin as [Hin|Hin].
    + apply HcD. apply filter_In. split; [exact Hin|].
      apply creates_destination_target in Hev. tauto.
    + apply in_app_or in Hin.
      destruct Hin as [Hin|Hin]; [destruct (HDC ev Hin Hev)|destruct (HDR ev Hin Hev)].
  - intros ev Hin Hev.
    apply in_app_or in Hin. destruct Hin as [Hin|Hin]; [destruct (HC0 ev Hin Hev)|].
    apply in_app_or in Hin. destruct Hin as [Hin|Hin]; [destruct (HCD ev Hin Hev)|].
    apply in_app_or in Hin. destruct Hin as [Hin|Hin]; [|destruct (HCR ev Hin Hev)].
    exists (id destination). apply HcC. apply filter_In. split; [exact Hin|].
    apply creates_channel_target in Hev. tauto.
Qed.

End OneDestination.

Lemma one_destination_witness :
  fst (run_from PyStr.title [] demo_config) = Ok tt
  /\ length (filter creates_destination (trace (snd (run_from PyStr.title [] demo_config)))) <= 1
  /\ length (filter creates_channel (trace (snd (run_from PyStr.title [] demo_config)))) <= 1
  /\ (forall ev, In ev (trace (snd (run_from PyStr.title [] demo_config))) ->
                 creates_destination ev = true ->
                 ev_call ev
                 = CreateNotificationDestination "Default notification channel for demo"
                     "a@b.com")
  /\ (forall ev, In ev (trace (snd (run_from PyStr.title [] demo_config))) ->
                 creates_channel ev = true ->
                 exists d,
                   ev_call ev
                   = CreateNotificationChannel "Default notification channel for demo" d).
Proof.
  exact (one_destination PyStr.title demo_config
           {| recipient := "a@b.com"; urls := ["https://demo.example/health"] |}
           [{| recipient := "c@d.com"; urls := ["https://demo.example/health"] |}]
           eq_refl []).
Defined.

(** * Further properties of the client *)

(** ** The send operation on malformed answers *)

(** X1. Under status 200: a body that is not JSON ends the send operation
    with the decoder's error; a JSON body that is not an object ends it with
    [AttributeError] (only a dict has [get]); an object with no truthy
    "errors" and no "data" ends it with [KeyError] on "data". None of them is
    the client's own error. *)
Theorem send_request_malformed_body :
  forall (S : Type) (post : S -> request -> S * http_response)
         (c : NewRelicClient) (query : document) (variables : option json)
         (w : world S) (s : S) (response : http_response),
    post (remote w) (post_request c query (default_variables variables))
    = (s, response) ->
    status_code response = 200%Z ->
    (content response = None ->
     fst (send_request S post c query variables w) = Err JSONDecodeError)
    /\ (forall body,
           content response = Some body ->
           (forall fields, body <> JObj fields) ->
           fst (send_request S post c query variables w) = Err AttributeError)
    /\ (forall fields,
           content response = Some (JObj fields) ->
           (forall errors, Py.lookup "errors" fields = Some errors ->
                           Py.truthy errors = false) ->
           Py.lookup "data" fields = None ->
           fst (send_request S post c query variables w) = Err (KeyError "data")).
Proof.
  intros S post c query variables w s response Hpost Hstatus.
  unfold send_request. fold (default_variables variables).
  rewrite Hpost, Hstatus. cbn [Z.eqb negb]. repeat split.
  - intros ->. reflexivity.
  - intros body -> Hbody.
    destruct body; try reflexivity. destruct (Hbody fields eq_refl).
  - intros fields -> Herrors Hdata. cbn.
    destruct (Py.lookup "errors" fields) as [errors|] eqn:E.
    + rewrite (Herrors errors eq_refl). cbn. rewrite Hdata. reflexivity.
    + cbn. rewrite Hdata. reflexivity.
Qed.

Lemma send_request_malformed_body_witness :
  fst (send_request unit (always not_json_response) a_client PoliciesSearch None
         (nothing_yet tt)) = Err JSONDecodeError
  /\ fst (send_request unit (always list_response) a_client PoliciesSearch None
            (nothing_yet tt)) = Err AttributeError
  /\ fst (send_request unit (always no_data_response) a_client PoliciesSearch None
            (nothing_yet tt)) = Err (KeyError "data").
Proof.
  split; [|split].
  - exact (proj1 (send_request_malformed_body unit (always not_json_response) a_client
                    PoliciesSearch None (nothing_yet tt) tt _ eq_refl eq_refl) eq_refl).
  - refine (proj1 (proj2 (send_request_malformed_body unit (always list_response)
                            a_client PoliciesSearch None (nothing_yet tt) tt _
                            eq_refl eq_refl)) _ eq_refl _).
    intros fields H. discriminate H.
  - refine (proj2 (proj2 (send_request_malformed_body unit (always no_data_response)
                            a_client PoliciesSearch None (nothing_yet tt) tt _
                            eq_refl eq_refl)) _ eq_refl _ eq_refl).
    intros errors H. discriminate H.
Defined.

(** ** One request per call *)

Section OneRequest.

Context {S : Type} (post : S -> request -> S * http_response).

Lemma untouched_ret {A} (a : A) : untouched (ret a : M S A).
Proof. intro w. reflexivity. Qed.

Lemma untouched_raise {A} (e : error) : untouched (raise e : M S A).
Proof. intro w. reflexivity. Qed.

Lemma untouched_lift {A} (r : result A) : untouched (lift r : M S A).
Proof. intro w. reflexivity. Qed.

Lemma untouched_bind {A B} (m : M S A) (k : A -> M S B) :
  untouched m -> (forall a, untouched (k a)) -> untouched (bind m k).
Proof.
  intros Hm Hk w. unfold bind. specialize (Hm w).
  destruct (m w) as [[a|e] w1]; cbn in *; subst w1; [apply Hk|reflexivity].
Qed.

Lemma untouched_if {A} (b : bool) (m1 m2 : M S A) :
  untouched m1 -> untouched m2 -> untouched (if b then m1 else m2).
Proof. destruct b; auto. Qed.

Lemma untouched_search (idk name : string) (entities : json) :
  untouched (search idk name entities : M S (option Response)).
Proof. unfold search. destruct (Py.iter entities); intro w; reflexivity. Qed.

Create HintDb untouched.
Hint Resolve untouched_ret untouched_raise untouched_lift untouched_search : untouched.

Ltac leave_untouched :=
  repeat first
    [ apply untouched_bind; [|intro]
    | apply untouched_if
    | solve [auto with untouched] ].

(** The world after the send operation, whatever its outcome. *)
Lemma send_request_world (c : NewRelicClient) (q : document) (v : json) (w : world S) :
  snd (send_request S post c q (Some v) w)
  = {| remote := fst (post (remote w) (post_request c q v)); trace := trace w |}.
Proof.
  unfold send_request.
  destruct (post _ _) as [s response]. cbn [fst].
  destruct (negb _); [reflexivity|].
  destruct (content response) as [body|]; [|reflexivity].
  destruct (Py.get body "errors") as [errors|]; [|reflexivity].
  destruct (Py.truthy errors); reflexivity.
Qed.

(** A method is one send operation followed by steps that touch nothing. *)
Lemma traced_send_world {A} (view : A -> option Response) (cl : call)
    (c : NewRelicClient) (q : document) (v : json) (k : json -> M S A) (w : world S) :
  (forall data, untouched (k data)) ->
  let run := traced view cl (bind (send_request S post c q (Some v)) k) w in
  let after := fst (post (remote w) (post_request c q v)) in
  snd run
  = {| remote := after;
       trace := app (trace w)
                  [{| ev_call := cl;
                      ev_outcome := match fst run with
                                    | Ok a => Ok (view a)
                                    | Err e => Err e
                                    end;
                      ev_remote := after |}] |}.
Proof.
  intros Hk. cbv zeta. unfold traced, bind.
  pose proof (send_request_world c q v w) as Hw.
  destruct (send_request S post c q (Some v) w) as [[data|e] w1]; cbn [snd] in Hw; subst w1.
  - specialize (Hk data {| remote := fst (post (remote w) (post_request c q v));
                           trace := trace w |}).
    destruct (k data _) as [r w2]. cbn [snd] in Hk. subst w2. reflexivity.
  - reflexivity.
Qed.

Lemma returning_world {A B} (m : M S A) (view : A -> B) (w : world S) :
  snd (bind m (fun a => ret (view a)) w) = snd (m w).
Proof. unfold bind. destruct (m w) as [[a|e] w1]; reflexivity. Qed.

Lemma returning_result {A B} (m : M S A) (view : A -> B) (w : world S) :
  fst (bind m (fun a => ret (view a)) w)
  = match fst (m w) with Ok a => Ok (view a) | Err e => Err e end.
Proof. unfold bind. destruct (m w) as [[a|e] w1]; reflexivity. Qed.

(** X2. Whatever the platform is and however the call ends, a method of the
    client posts exactly one request, the one of the call, and records
    exactly one event, with the outcome of the call: no request is repeated
    and none is sent besides. *)
Theorem one_request_per_call :
  forall (c : NewRelicClient) (cl : call) (w : world S),
    snd (perform post c cl w)
    = {| remote := fst (post (remote w) (request_of c cl));
         trace := app (trace w)
                    [{| ev_call := cl;
                        ev_outcome := fst (perform post c cl w);
                        ev_remote := fst (post (remote w) (request_of c cl)) |}] |}.
Proof.
  intros c cl w.
  destruct cl; unfold perform, request_of, document_of, variables_of.
  all: try (unfold get_alert_policy, get_synthetics_monitor, get_alert_condition,
              get_notification_destination, get_notification_channel, get_ai_workflow;
            cbv zeta;
            match goal with
            | |- context [traced ?view ?cl (bind (send_request S post ?c ?q (Some ?v)) ?k) ?w] =>
                rewrite (traced_send_world view cl c q v k w) by (intro; leave_untouched);
                cbv zeta;
                destruct (fst (traced view cl (bind (send_request S post c q (Some v)) k) w));
                reflexivity
            end).
  all: rewrite returning_world, returning_result;
    unfold create_alert_policy, create_synthetics_monitor, create_alert_condition,
      create_notification_destination, create_notificaiton_channel, create_ai_workflow;
    cbv zeta;
    match goal with
    | |- context [traced ?view ?cl (bind (send_request S post ?c ?q (Some ?v)) ?k) ?w] =>
        exact (traced_send_world view cl c q v k w
                 ltac:(intro; leave_untouched))
    end.
Qed.

End OneRequest.

(** ** What every request carries *)

Section Received.

Context {S : Type} (post : S -> request -> S * http_response).

Ltac settle :=
  repeat first
    [ apply untouched_bind; [|intro]
    | apply untouched_if
    | apply untouched_ret
    | apply untouched_raise
    | apply untouched_lift
    | apply untouched_search ].

(** The platform after a method, whatever the outcome. *)
Lemma perform_remote (c : NewRelicClient) (cl : call) (w : world S) :
  remote (snd (perform post c cl w)) = fst (post (remote w) (request_of c cl)).
Proof.
  destruct cl; unfold perform, request_of, document_of, variables_of;
    rewrite ?returning_world;
    unfold get_alert_policy, get_synthetics_monitor, get_alert_condition,
      get_notification_destination, get_notification_channel, get_ai_workflow,
      create_alert_policy, create_synthetics_monitor, create_alert_condition,
      create_notification_destination, create_notificaiton_channel, create_ai_workflow;
    cbv zeta;
    match goal with
    | |- context [traced ?view ?cl (bind (send_request S post ?c ?q (Some ?v)) ?k) ?w] =>
        rewrite (traced_send_world post view cl c q v k w) by (intro; settle)
    end; reflexivity.
Qed.

End Received.

(** X3. What the platform receives from a method of the client, on any
    platform and whatever the outcome, is one request more: to the URL of
    the client, with the API key as its only header, carrying the document
    of the method. Its variables bind the account of the client as
    "accountId", except for the monitor search, whose variables are the
    entity query alone, with no account. *)
Theorem requests_carry_key_and_account :
  forall (S : Type) (post : S -> request -> S * http_response)
         (c : NewRelicClient) (cl : call) (w : world (S * list request)),
    exists r,
      snd (remote (snd (perform (recording post) c cl w)))
      = app (snd (remote w)) [r]
      /\ req_url r = api_base_url c
      /\ req_headers r = [("API-Key", api_key c)]
      /\ req_query r = document_of cl
      /\ match cl with
         | GetSyntheticsMonitor n =>
             req_variables r
             = JObj [("query",
                      JStr ("domain = 'SYNTH' AND type = 'MONITOR' AND name = '"
                            ++ n ++ "'"))]
         | _ => Py.get (req_variables r) "accountId" = Ok (JNum (account_id c))
         end.
Proof.
  intros S post c cl w. exists (request_of c cl).
  rewrite perform_remote. unfold recording.
  destruct (post (fst (remote w)) (request_of c cl)) as [s response]. cbn [fst snd].
  repeat split. destruct cl; reflexivity.
Qed.

(** ** Lookups on candidates of any shape *)

Lemma first_named_passes_over (idk name : string) (pre rest : list json) :
  Forall (passed_over name) pre ->
  first_named idk name (pre ++ rest)%list = first_named idk name rest.
Proof.
  induction 1 as [|item pre (fields & v & -> & Hname & Hneq) _ IH]; [reflexivity|].
  cbn. rewrite Hname, Hneq. exact IH.
Qed.

Section Scans.

Context {S : Type} (post : S -> request -> S * http_response).

(** A lookup is the scan of the candidates found at the path of its kind. *)
Lemma get_resource_scans (k : kind) (c : NewRelicClient) (arg : string)
    (w w1 : world S) (data entities : json) :
  send_request S post c (search_document k) (Some (search_variables k c arg)) w
  = (Ok data, w1) ->
  Py.getpath data (candidates_path k) = Ok entities ->
  fst (get_resource post k c arg w)
  = match Py.iter entities with
    | Ok items => first_named (id_key k) (searched_name k arg) items
    | Err e => Err e
    end.
Proof.
  intros Hsend Hpath.
  destruct k; cbn in Hsend, Hpath |- *;
    unfold get_alert_policy, get_synthetics_monitor, get_alert_condition,
      get_notification_destination, get_notification_channel, get_ai_workflow,
      traced, bind;
    rewrite Hsend; unfold lift; cbn;
    repeat match type of Hpath with
           | context [match Py.getitem ?d ?key with _ => _ end] =>
               destruct (Py.getitem d key) eqn:?; try discriminate
           end;
    injection Hpath as ->; unfold search;
    destruct (Py.iter entities); reflexivity.
Qed.

(** X4. A lookup returns at the first candidate whose name is exactly the
    searched one: candidates before it with another name (or a name that is
    no string) are passed over, and what follows it in the list is not
    read, whatever it is. *)
Theorem get_stops_at_first_match :
  forall (k : kind) (c : NewRelicClient) (arg : string) (w w1 : world S)
         (data : json) (pre rest : list json) (item : json) (i : string),
    send_request S post c (search_document k) (Some (search_variables k c arg)) w
    = (Ok data, w1) ->
    Py.getpath data (candidates_path k) = Ok (JList (pre ++ item :: rest)) ->
    Forall (passed_over (searched_name k arg)) pre ->
    describes (id_key k) item (i, searched_name k arg) ->
    fst (get_resource post k c arg w)
    = Ok (Some {| id := i; name := searched_name k arg |}).
Proof.
  intros k c arg w w1 data pre rest item i Hsend Hpath Hpre (fields & -> & Hid & Hname).
  rewrite (get_resource_scans k c arg w w1 data _ Hsend Hpath).
  cbn [Py.iter]. rewrite (first_named_passes_over _ _ _ _ Hpre).
  cbn in Hid, Hname. cbn. rewrite Hname. cbn. rewrite String.eqb_refl, Hid. reflexivity.
Qed.

(** X5. A candidate that is no object, or an object without a name, ends
    the lookup with [TypeError] or [KeyError] when the scan reaches it, even
    when a candidate with the searched name follows. *)
Theorem get_raises_on_malformed_candidate :
  forall (k : kind) (c : NewRelicClient) (arg : string) (w w1 : world S)
         (data : json) (pre rest : list json) (bad : json),
    send_request S post c (search_document k) (Some (search_variables k c arg)) w
    = (Ok data, w1) ->
    Py.getpath data (candidates_path k) = Ok (JList (pre ++ bad :: rest)) ->
    Forall (passed_over (searched_name k arg)) pre ->
    ((forall fields, bad <> JObj fields) ->
     fst (get_resource post k c arg w) = Err TypeError)
    /\ (forall fields,
           bad = JObj fields ->
           Py.lookup "name" fields = None ->
           fst (get_resource post k c arg w) = Err (KeyError "name")).
Proof.
  intros k c arg w w1 data pre rest bad Hsend Hpath Hpre.
  rewrite (get_resource_scans k c arg w w1 data _ Hsend Hpath).
  cbn [Py.iter]. rewrite (first_named_passes_over _ _ _ _ Hpre).
  split.
  - intro Hbad. destruct bad; try reflexivity. destruct (Hbad fields eq_refl).
  - intros fields -> Hname. cbn. rewrite Hname. reflexivity.
Qed.

(** X6. When the first candidate with the searched name has no identifier,
    the lookup ends with [KeyError] on the identifier key of its kind; when
    its identifier is no string, the response model refuses it. Later
    candidates are not tried. *)
Theorem get_raises_on_bad_identifier :
  forall (k : kind) (c : NewRelicClient) (arg : string) (w w1 : world S)
         (data : json) (pre rest : list json) (fields : list (string * json)),
    send_request S post c (search_document k) (Some (search_variables k c arg)) w
    = (Ok data, w1) ->
    Py.getpath data (candidates_path k) = Ok (JList (pre ++ JObj fields :: rest)) ->
    Forall (passed_over (searched_name k arg)) pre ->
    Py.lookup "name" fields = Some (JStr (searched_name k arg)) ->
    (Py.lookup (id_key k) fields = None ->
     fst (get_resource post k c arg w) = Err (KeyError (id_key k)))
    /\ (forall v,
           Py.lookup (id_key k) fields = Some v ->
           (forall s, v <> JStr s) ->
           fst (get_resource post k c arg w) = Err ValidationError).
Proof.
  intros k c arg w w1 data pre rest fields Hsend Hpath Hpre Hname.
  rewrite (get_resource_scans k c arg w w1 data _ Hsend Hpath).
  cbn [Py.iter]. rewrite (first_named_passes_over _ _ _ _ Hpre).
  cbn. rewrite Hname. cbn. rewrite String.eqb_refl.
  split.
  - intros ->. reflexivity.
  - intros v -> Hv. destruct v; try reflexivity. destruct (Hv s eq_refl).
Qed.

End Scans.

Lemma get_stops_at_first_match_witness :
  fst (get_resource
         (always (policy_search [candidate "id" "1" "demo staging"; unnamed_candidate;
                                 candidate "id" "2" "demo"; JNull]))
         Policy a_client "demo" (nothing_yet tt))
  = Ok (Some {| id := "2"; name := "demo" |}).
Proof.
  refine (get_stops_at_first_match
            (always (policy_search [candidate "id" "1" "demo staging"; unnamed_candidate;
                                    candidate "id" "2" "demo"; JNull]))
            Policy a_client "demo" (nothing_yet tt) _ _
            [candidate "id" "1" "demo staging"; unnamed_candidate] [JNull]
            (candidate "id" "2" "demo") "2" eq_refl eq_refl _ _).
  - repeat constructor; eexists _, _; repeat split; reflexivity.
  - eexists. repeat split; reflexivity.
Defined.

Lemma get_raises_on_malformed_candidate_witness :
  fst (get_resource (always (policy_search [JNull; candidate "id" "2" "demo"]))
         Policy a_client "demo" (nothing_yet tt))
  = Err TypeError
  /\ fst (get_resource
            (always (policy_search [nameless_candidate; candidate "id" "2" "demo"]))
            Policy a_client "demo" (nothing_yet tt))
     = Err (KeyError "name").
Proof.
  split.
  - refine (proj1 (get_raises_on_malformed_candidate
                     (always (policy_search [JNull; candidate "id" "2" "demo"]))
                     Policy a_client "demo"
                     (nothing_yet tt) _ _ [] [candidate "id" "2" "demo"] JNull
                     eq_refl eq_refl (Forall_nil _)) _).
    intros fields H. discriminate H.
  - exact (proj2 (get_raises_on_malformed_candidate
                    (always (policy_search [nameless_candidate; candidate "id" "2" "demo"]))
                    Policy a_client "demo"
                    (nothing_yet tt) _ _ [] [candidate "id" "2" "demo"]
                    nameless_candidate eq_refl eq_refl (Forall_nil _))
                 _ eq_refl eq_refl).
Defined.

Lemma get_raises_on_bad_identifier_witness :
  fst (get_resource
         (always (policy_search [unidentified_candidate; candidate "id" "2" "demo"]))
         Policy a_client "demo" (nothing_yet tt))
  = Err (KeyError "id")
  /\ fst (get_resource
            (always (policy_search [numbered_candidate; candidate "id" "2" "demo"]))
            Policy a_client "demo" (nothing_yet tt))
     = Err ValidationError.
Proof.
  split.
  - exact (proj1 (get_raises_on_bad_identifier
                    (always (policy_search [unidentified_candidate;
                                            candidate "id" "2" "demo"]))
                    Policy a_client "demo"
                    (nothing_yet tt) _ _ [] [candidate "id" "2" "demo"] _
                    eq_refl eq_refl (Forall_nil _) eq_refl) eq_refl).
  - refine (proj2 (get_raises_on_bad_identifier
                     (always (policy_search [numbered_candidate;
                                             candidate "id" "2" "demo"]))
                     Policy a_client "demo"
                     (nothing_yet tt) _ _ [] [candidate "id" "2" "demo"] _
                     eq_refl eq_refl (Forall_nil _) eq_refl) (JNum 7) eq_refl _).
    intros s H. discriminate H.
Defined.

(** ** Where the client's own error comes from *)

Lemma getitem_python (d : json) (key : string) (e : error) :
  Py.getitem d key = Err e -> python_error e.
Proof.
  destruct d; cbn; try (intro H; injection H as <-; exact I).
  destruct (Py.lookup key fields); [discriminate|].
  intro H; injection H as <-; exact I.
Qed.

Lemma getpath_python (keys : list string) (d : json) (e : error) :
  Py.getpath d keys = Err e -> python_error e.
Proof.
  revert d. induction keys as [|key keys IH]; intro d; cbn; [discriminate|].
  destruct (Py.getitem d key) as [v|e'] eqn:E.
  - apply IH.
  - intro H; injection H as <-. exact (getitem_python _ _ _ E).
Qed.

Lemma get_python (d : json) (key : string) (e : error) :
  Py.get d key = Err e -> python_error e.
Proof.
  destruct d; cbn; try (intro H; injection H as <-; exact I).
  destruct (Py.lookup key fields); discriminate.
Qed.

Lemma new_Response_python (i n : json) (e : error) :
  new_Response i n = Err e -> python_error e.
Proof.
  destruct i, n; cbn; try discriminate; intro H; injection H as <-; exact I.
Qed.

Lemma new_SyntheticsMonitorResponse_python (i n : json) (u : string) (e : error) :
  new_SyntheticsMonitorResponse i n u = Err e -> python_error e.
Proof.
  destruct i, n; cbn; try discriminate; intro H; injection H as <-; exact I.
Qed.

Lemma first_named_python (idk name : string) (items : list json) (e : error) :
  first_named idk name items = Err e -> python_error e.
Proof.
  induction items as [|item items IH]; cbn; [discriminate|].
  destruct (Py.getitem item "name") as [n|e'] eqn:En.
  - destruct (Py.eq_str n name); [|exact IH].
    destruct (Py.getitem item idk) as [i|e'] eqn:Ei.
    + destruct (new_Response i n) as [r|e'] eqn:Er; [discriminate|].
      intro H; injection H as <-. exact (new_Response_python _ _ _ Er).
    + intro H; injection H as <-. exact (getitem_python _ _ _ Ei).
  - intro H; injection H as <-. exact (getitem_python _ _ _ En).
Qed.

Section ProtocolErrors.

Context {S : Type} (post : S -> request -> S * http_response).

Lemma python_only_lift {A} (r : result A) :
  (forall e, r = Err e -> python_error e) -> python_only (lift r : M S A).
Proof. intros H w e. exact (H e). Qed.

Lemma python_only_ret {A} (a : A) : python_only (ret a : M S A).
Proof. intros w e H. discriminate H. Qed.

Lemma python_only_bind {A B} (m : M S A) (k : A -> M S B) :
  python_only m -> (forall a, python_only (k a)) -> python_only (bind m k).
Proof.
  intros Hm Hk w e. unfold bind. specialize (Hm w).
  destruct (m w) as [[a|e'] w1]; cbn in *.
  - apply Hk.
  - intro H; injection H as <-. apply Hm. reflexivity.
Qed.

Lemma python_only_search (idk name : string) (entities : json) :
  python_only (search idk name entities : M S (option Response)).
Proof.
  unfold search. destruct entities; cbn;
    try (intros w e H; injection H as <-; exact I);
    intros w e; cbn; apply first_named_python.
Qed.

Lemma fst_traced {A} (view : A -> option Response) (cl : call) (body : M S A)
    (w : world S) :
  fst (traced view cl body w) = fst (body w).
Proof. unfold traced. destruct (body w). reflexivity. Qed.

Ltac python :=
  repeat first
    [ apply python_only_bind; [|intro]
    | apply python_only_ret
    | apply python_only_search
    | apply python_only_lift; intro;
      first [ apply getitem_python | apply getpath_python | apply get_python
            | apply new_Response_python | apply new_SyntheticsMonitorResponse_python ] ].

(** What follows the send operation in a method that makes no check of
    its own never raises the client's error. *)
Lemma after_send {A} (c : NewRelicClient) (q : document) (v : json)
    (k : json -> M S A) (w : world S) (p : payload) :
  (forall data, python_only (k data)) ->
  fst (bind (send_request S post c q (Some v)) k w) = Err (NerdGraphAPIError p) ->
  fst (send_request S post c q (Some v) w) = Err (NerdGraphAPIError p).
Proof.
  intros Hk. unfold bind.
  destruct (send_request S post c q (Some v) w) as [[data|e] w1]; cbn [fst].
  - intro H. destruct (Hk data w1 _ H).
  - intro H. injection H as ->. reflexivity.
Qed.

Lemma returned_error {A B} (m : M S A) (view : A -> B) (w : world S) (e : error) :
  fst (bind m (fun a => ret (view a)) w) = Err e -> fst (m w) = Err e.
Proof.
  unfold bind. destruct (m w) as [[a|e'] w1]; cbn; [discriminate|].
  intro H. injection H as ->. reflexivity.
Qed.

(** X7. The send operation raises the client's error in two cases only:
    with the raw body when the status is not 200, and with the decoded body
    when the status is 200 and the body has a truthy "errors". *)
Theorem send_request_error_origin :
  forall (c : NewRelicClient) (q : document) (v : json) (w : world S) (p : payload),
    fst (send_request S post c q (Some v) w) = Err (NerdGraphAPIError p) ->
    let response := snd (post (remote w) (post_request c q v)) in
    (status_code response <> 200%Z /\ p = RawBody (text response))
    \/ (status_code response = 200%Z
        /\ exists body errors,
             content response = Some body
             /\ Py.get body "errors" = Ok errors
             /\ Py.truthy errors = true
             /\ p = Decoded body).
Proof.
  intros c q v w p. unfold send_request.
  destruct (post (remote w) (post_request c q v)) as [s response]. cbn [snd fst].
  destruct (Z.eqb (status_code response) 200) eqn:Es; cbn [negb].
  - apply Z.eqb_eq in Es.
    destruct (content response) as [body|]; [|discriminate].
    destruct (Py.get body "errors") as [errors|e] eqn:Eg.
    + destruct (Py.truthy errors) eqn:Et.
      * intro H. injection H as <-. right. split; [exact Es|].
        exists body, errors. auto.
      * cbn [fst]. intro H. exfalso; exact (getitem_python _ _ _ H).
    + cbn [fst]. intro H. injection H as ->. exfalso; exact (get_python _ _ _ Eg).
  - apply Z.eqb_neq in Es. intro H. injection H as <-. left. auto.
Qed.

(** X8. A method raises the client's error in three cases only: the send
    operation raised it; the method is one of the four creations that look
    for an error payload and the data has a truthy one under the key they
    test ("errors" for the monitor and the workflow, "error" for the
    destination and the channel); the method is the workflow creation and
    the workflow object of the answer is null. The lookups, the policy
    creation and the condition creation raise it in the first case only. *)
Theorem protocol_error_origin :
  forall (c : NewRelicClient) (cl : call) (w : world S) (p : payload),
    fst (perform post c cl w) = Err (NerdGraphAPIError p) ->
    fst (send_request S post c (document_of cl) (Some (variables_of c cl)) w)
    = Err (NerdGraphAPIError p)
    \/ (exists data key errors,
           error_key cl = Some key
           /\ fst (send_request S post c (document_of cl) (Some (variables_of c cl)) w)
              = Ok data
           /\ Py.get data key = Ok errors
           /\ Py.truthy errors = true
           /\ p = Unexpected data)
    \/ (exists i policy_id channel_id data mutation,
           cl = CreateAiWorkflow i policy_id channel_id
           /\ fst (send_request S post c (document_of cl) (Some (variables_of c cl)) w)
              = Ok data
           /\ Py.getitem data "aiWorkflowsCreateWorkflow" = Ok mutation
           /\ Py.getitem mutation "workflow" = Ok JNull
           /\ p = Message "A workflow with the given name already exists").
Proof.
  intros c cl w p H.
  destruct cl; cbn [perform document_of variables_of error_key] in H |- *;
    try apply returned_error in H;
    unfold get_alert_policy, get_synthetics_monitor, get_alert_condition,
      get_notification_destination, get_notification_channel, get_ai_workflow,
      create_alert_policy, create_synthetics_monitor, create_alert_condition,
      create_notification_destination, create_notificaiton_channel, create_ai_workflow
      in H;
    cbv zeta in H; rewrite fst_traced in H.
  (* the methods without a check of their own *)
  all: try solve [left; revert H; apply after_send; intro; python].
  (* the four creations that look for an error payload *)
  all: unfold bind at 1 in H;
    match type of H with
    | context [send_request S post ?c ?q (Some ?v) ?w] =>
        destruct (send_request S post c q (Some v) w) as [[data|e] w1] eqn:Hsend
    end; cbn [fst] in H |- *; [|left; injection H as ->; reflexivity];
    unfold bind at 1, lift at 1 in H;
    match type of H with
    | context [Py.get ?d ?key] => destruct (Py.get d key) as [errors|e] eqn:Eg
    end; cbn [fst] in H;
    [|injection H as ->; exfalso;
      match goal with E : Py.get _ _ = Err _ |- _ => exact (get_python _ _ _ E) end];
    match type of H with
    | context [Py.truthy ?x] => destruct (Py.truthy x) eqn:Et
    end;
    [ injection H as <-; right; left; eexists _, _, _; repeat split; eassumption | ].
  (* monitor, destination, channel: what is left raises no client error *)
  1, 2, 3: exfalso; revert H;
    match goal with
    | |- fst (?m ?w) = _ -> False => intro H; assert (Hp : python_only m) by python;
                                     exact (Hp w _ H)
    end.
  (* workflow *)
  unfold bind at 1, lift at 1 in H.
  match type of H with
  | context [Py.getitem ?d "aiWorkflowsCreateWorkflow"] => rename d into data
  end.
  destruct (Py.getitem data "aiWorkflowsCreateWorkflow") as [mutation|e] eqn:Em;
    cbn [fst] in H; [|injection H as ->; exfalso; exact (getitem_python _ _ _ Em)].
  unfold bind at 1, lift at 1 in H.
  destruct (Py.getitem mutation "workflow") as [workflow|e] eqn:Ew;
    cbn [fst] in H; [|injection H as ->; exfalso; exact (getitem_python _ _ _ Ew)].
  destruct workflow; cbn [Py.is_none] in H;
    try (exfalso; revert H;
         match goal with
         | |- fst (?m ?w) = _ -> False =>
             intro H; assert (Hp : python_only m) by python; exact (Hp w _ H)
         end).
  injection H as <-. right. right.
  exists instance_name, policy_id, channel_id, data, mutation. auto.
Qed.

Lemma getpath_of_object (d : json) (key : string) (keys : list string) (v : json) :
  Py.getpath d (key :: keys) = Ok v -> exists fields, d = JObj fields.
Proof.
  cbn. destruct d; cbn; try discriminate. intros _. eexists. reflexivity.
Qed.

(** X9. A creation that finds no error payload where it looks for one
    returns the identifier and the name of the created object as the
    platform sent them: the name of the result is the platform's, whatever
    name was asked for. *)
Theorem creation_returns_platform_identity :
  forall (c : NewRelicClient) (cl : call) (w w1 : world S) (data : json)
         (fields : list (string * json)) (i n : string),
    is_create cl = true ->
    send_request S post c (document_of cl) (Some (variables_of c cl)) w = (Ok data, w1) ->
    (forall key errors,
        error_key cl = Some key -> Py.get data key = Ok errors ->
        Py.truthy errors = false) ->
    Py.getpath data (created_path cl) = Ok (JObj fields) ->
    Py.lookup "id" fields = Some (JStr i) ->
    Py.lookup "name" fields = Some (JStr n) ->
    fst (perform post c cl w) = Ok (Some {| id := i; name := n |}).
Proof.
  intros c cl w w1 data fields i n Hcreate Hsend Herrors Hpath Hid Hname.
  destruct (getpath_of_object data (hd "" (created_path cl)) (tl (created_path cl))
              (JObj fields)) as [top ->];
    [destruct cl; try discriminate Hcreate; exact Hpath|].
  destruct cl; try discriminate Hcreate;
    cbn [perform document_of variables_of error_key created_path] in *;
    rewrite returning_result;
    unfold create_alert_policy, create_synthetics_monitor, create_alert_condition,
      create_notification_destination, create_notificaiton_channel, create_ai_workflow;
    cbv zeta; rewrite fst_traced; unfold bind at 1; rewrite Hsend;
    try (unfold bind at 1, lift at 1;
         match goal with
         | |- context [Py.get (JObj top) ?key] =>
             destruct (Py.get (JObj top) key) as [errors|e] eqn:Eg;
             [rewrite (Herrors key errors eq_refl Eg)
             |cbn in Eg; destruct (Py.lookup key top); discriminate]
         end);
    unfold bind, lift, raise; cbn in Hpath |- *;
    repeat match type of Hpath with
           | context [match Py.lookup ?key ?f with _ => _ end] =>
               destruct (Py.lookup key f) as [?|] eqn:?; try discriminate
           | context [match Py.getitem ?d ?key with _ => _ end] =>
               destruct (Py.getitem d key) as [?|] eqn:?; try discriminate
           end;
    try (injection Hpath as ->); cbn; rewrite ?Hid, ?Hname; cbn;
    try reflexivity.
Qed.

(** X10. A creation that looks for an error payload raises the client's
    error, with the data it received, when the data object itself has a
    truthy value under the key it tests: "errors" for the monitor and the
    workflow, "error" for the destination and the channel. *)
Theorem creation_raises_on_data_error :
  forall (c : NewRelicClient) (cl : call) (w w1 : world S) (data errors : json)
         (key : string),
    error_key cl = Some key ->
    send_request S post c (document_of cl) (Some (variables_of c cl)) w = (Ok data, w1) ->
    Py.get data key = Ok errors ->
    Py.truthy errors = true ->
    fst (perform post c cl w) = Err (NerdGraphAPIError (Unexpected data)).
Proof.
  intros c cl w w1 data errors key Hkey Hsend Hget Htruthy.
  destruct cl; try discriminate Hkey;
    cbn [perform document_of variables_of error_key] in *;
    injection Hkey as <-;
    rewrite returning_result;
    unfold create_synthetics_monitor, create_notification_destination,
      create_notificaiton_channel, create_ai_workflow;
    cbv zeta; rewrite fst_traced; unfold bind at 1; rewrite Hsend;
    unfold bind at 1, lift at 1; rewrite Hget, Htruthy; reflexivity.
Qed.

End ProtocolErrors.

Lemma send_request_error_origin_witness :
  (status_code one_error_response <> 200%Z
   /\ Decoded (JObj [("errors", JList [JObj [("message", JStr "no")]])])
      = RawBody (text one_error_response))
  \/ (status_code one_error_response = 200%Z
      /\ exists body errors,
           content one_error_response = Some body
           /\ Py.get body "errors" = Ok errors
           /\ Py.truthy errors = true
           /\ Decoded (JObj [("errors", JList [JObj [("message", JStr "no")]])])
              = Decoded body).
Proof.
  exact (send_request_error_origin (always one_error_response) a_client PoliciesSearch
           (JObj []) (nothing_yet tt) _ eq_refl).
Defined.

Lemma protocol_error_origin_witness :
  fst (send_request unit (always workflow_collision) a_client
         (document_of a_workflow_call) (Some (variables_of a_client a_workflow_call))
         (nothing_yet tt))
  = Err (NerdGraphAPIError (Message "A workflow with the given name already exists"))
  \/ (exists data key errors,
         error_key a_workflow_call = Some key
         /\ fst (send_request unit (always workflow_collision) a_client
                   (document_of a_workflow_call)
                   (Some (variables_of a_client a_workflow_call)) (nothing_yet tt))
            = Ok data
         /\ Py.get data key = Ok errors
         /\ Py.truthy errors = true
         /\ Message "A workflow with the given name already exists" = Unexpected data)
  \/ (exists i policy_id channel_id data mutation,
         a_workflow_call = CreateAiWorkflow i policy_id channel_id
         /\ fst (send_request unit (always workflow_collision) a_client
                   (document_of a_workflow_call)
                   (Some (variables_of a_client a_workflow_call)) (nothing_yet tt))
            = Ok data
         /\ Py.getitem data "aiWorkflowsCreateWorkflow" = Ok mutation
         /\ Py.getitem mutation "workflow" = Ok JNull
         /\ Message "A workflow with the given name already exists"
            = Message "A workflow with the given name already exists").
Proof.
  exact (protocol_error_origin (always workflow_collision) a_client a_workflow_call
           (nothing_yet tt) _ eq_refl).
Defined.

Lemma creation_returns_platform_identity_witness :
  fst (perform (always policy_renamed) a_client a_policy_call (nothing_yet tt))
  = Ok (Some {| id := "42"; name := "Demo (2)" |}).
Proof.
  refine (creation_returns_platform_identity (always policy_renamed) a_client
            a_policy_call (nothing_yet tt) _ _ _ "42" "Demo (2)"
            eq_refl eq_refl _ eq_refl eq_refl eq_refl).
  intros key errors H. discriminate H.
Defined.

Lemma creation_raises_on_data_error_witness :
  fst (perform (always destination_data_error) a_client
         (CreateNotificationDestination "n" "a@b.com") (nothing_yet tt))
  = Err (NerdGraphAPIError (Unexpected (JObj [("error", an_error)]))).
Proof.
  exact (creation_raises_on_data_error (always destination_data_error) a_client
           (CreateNotificationDestination "n" "a@b.com") (nothing_yet tt) _ _ _ "error"
           eq_refl eq_refl eq_refl eq_refl).
Defined.

(** ** The shape of a run, on any platform *)

Section Shape.

Context {S : Type} (post : S -> request -> S * http_response).

Variable title : string -> string.

Lemma paired_app (evs1 evs2 : list (event S)) :
  paired evs1 -> paired evs2 -> paired (evs1 ++ evs2)%list.
Proof.
  induction 1; intro Hsecond; cbn [app].
  - exact Hsecond.
  - apply paired_get; auto.
  - apply paired_create; auto.
Qed.

Lemma paired_preceded (evs : list (event S)) :
  paired evs ->
  forall before cr after,
    evs = (before ++ cr :: after)%list ->
    is_create (ev_call cr) = true ->
    exists before' g,
      before = (before' ++ [g])%list
      /\ is_get (ev_call g) = true
      /\ ev_outcome g = Ok None
      /\ target (ev_call g) = target (ev_call cr).
Proof.
  induction 1 as [|g evs Hg Hp IH|g c evs Hg Hnone Hc Ht Hp IH];
    intros before cr after Heq Hcreate.
  - destruct before; discriminate.
  - destruct before as [|b before]; cbn in Heq; injection Heq as -> Heq.
    + unfold is_get in Hg. rewrite Hcreate in Hg. discriminate.
    + destruct (IH before cr after Heq Hcreate) as (before' & g' & -> & H').
      exists (b :: before'), g'. split; [reflexivity|exact H'].
  - destruct before as [|b before]; cbn in Heq; injection Heq as -> Heq.
    + unfold is_get in Hg. rewrite Hcreate in Hg. discriminate.
    + destruct before as [|b' before]; cbn in Heq; injection Heq as -> Heq.
      * exists [], b. repeat split; auto.
      * destruct (IH before cr after Heq Hcreate) as (before' & g' & -> & H').
        exists (b :: b' :: before'), g'. split; [reflexivity|exact H'].
Qed.

Lemma shaped_traced {A} (view : A -> option Response) (cl : call) (body : M S A) :
  silent body -> shaped (traced view cl body) (one_call view cl).
Proof.
  intros Hs w. unfold traced. specialize (Hs w).
  destruct (body w) as [r w1]. cbn in *.
  eexists [_]. rewrite Hs. split; [reflexivity|].
  eexists. repeat split.
Qed.

Lemma follows_ret {A} (a : A) : shaped (ret a : M S A) (follows []).
Proof.
  intro w. exists []. cbn. rewrite app_nil_r. split; [reflexivity|].
  split; [constructor|]. exists []. auto.
Qed.

Lemma follows_bind {A B} (m : M S A) (k : A -> M S B) (ks1 ks2 : list kind) :
  shaped m (follows ks1) ->
  (forall a, shaped (k a) (follows ks2)) ->
  shaped (bind m k) (follows (ks1 ++ ks2)).
Proof.
  intros Hm Hk w. unfold bind. destruct (Hm w) as (evs1 & Ht1 & Hp1 & rest1 & -> & Hr1).
  destruct (m w) as [[a|e] w1]; cbn [fst snd] in *.
  - destruct (Hk a w1) as (evs2 & Ht2 & Hp2 & rest2 & -> & Hr2).
    exists (evs1 ++ evs2)%list.
    split; [rewrite Ht2, Ht1, app_assoc; reflexivity|].
    split; [apply paired_app; assumption|].
    exists rest2. rewrite (Hr1 a eq_refl), app_nil_r.
    unfold lookups. rewrite filter_app, map_app, app_assoc.
    split; [reflexivity|exact Hr2].
  - exists evs1. split; [exact Ht1|]. split; [exact Hp1|].
    exists (rest1 ++ ks2)%list. rewrite app_assoc.
    split; [reflexivity|discriminate].
Qed.

Lemma follows_for_each {A} (xs : list A) (body : A -> M S unit) (ks : A -> list kind) :
  (forall x, shaped (body x) (follows (ks x))) ->
  shaped (for_each xs body) (follows (flat_map ks xs)).
Proof.
  intro Hbody. induction xs as [|x xs IH]; cbn [for_each flat_map].
  - apply follows_ret.
  - apply follows_bind; [apply Hbody|intros _; exact IH].
Qed.

(** One get-or-create step: a lookup, and a creation when it found nothing. *)
Lemma follows_step {B} (k : kind) (get : M S (option Response)) (create : M S B)
    (found_is : Response -> B) (gc cc : call) :
  shaped get (one_call (fun r => r) gc) ->
  shaped create (calls_once cc) ->
  is_get gc = true ->
  is_create cc = true ->
  target gc = target cc ->
  fst (target gc) = k ->
  shaped (bind get (fun found =>
                      match found with
                      | Some r => ret (found_is r)
                      | None => create
                      end))
         (follows [k]).
Proof.
  intros Hget Hcreate Hgc Hcc Ht Hk w. unfold bind.
  destruct (Hget w) as (evs1 & Ht1 & g & -> & Hcall & Hout).
  assert (Hone : map kind_of (lookups [g]) = [k]).
  { unfold lookups, kind_of. cbn [filter]. rewrite Hcall, Hgc. cbn [map].
    rewrite Hcall, Hk. reflexivity. }
  destruct (get w) as [[found|e] w1]; cbn [fst snd] in *.
  - destruct found as [r|].
    + exists [g]. split; [exact Ht1|]. split.
      * apply paired_get; [rewrite Hcall; exact Hgc|constructor].
      * exists []. rewrite Hone. auto.
    + destruct (Hcreate w1) as (evs2 & Ht2 & cr & -> & Hcall2).
      exists [g; cr]. split; [rewrite Ht2, Ht1, <- app_assoc; reflexivity|].
      split.
      * apply paired_create;
          [rewrite Hcall; exact Hgc|exact Hout|rewrite Hcall2; exact Hcc
          |rewrite Hcall, Hcall2; symmetry; exact Ht|constructor].
      * exists []. unfold lookups in *. cbn [filter] in *.
        unfold is_get at 2. rewrite Hcall2, Hcc. cbn [negb].
        rewrite Hcall, Hgc in *. rewrite Hone. auto.
  - exists [g]. split; [exact Ht1|]. split.
    + apply paired_get; [rewrite Hcall; exact Hgc|constructor].
    + exists []. rewrite Hone. split; [reflexivity|discriminate].
Qed.

Lemma shaped_weaken {A} (m : M S A) (Q Q' : result A -> list (event S) -> Prop) :
  (forall r evs, Q r evs -> Q' r evs) -> shaped m Q -> shaped m Q'.
Proof.
  intros HQ Hm w. destruct (Hm w) as (evs & Ht & Hq). exists evs. auto.
Qed.

Lemma shaped_assoc {A B C} (m : M S A) (f : A -> M S B) (g : B -> M S C)
    (Q : result C -> list (event S) -> Prop) :
  shaped (bind (bind m f) g) Q -> shaped (bind m (fun a => bind (f a) g)) Q.
Proof.
  intros H w. destruct (H w) as (evs & Ht & Hq). exists evs.
  assert (Heq : bind m (fun a => bind (f a) g) w = bind (bind m f) g w)
    by (unfold bind; destruct (m w) as [[a|e] w1]; reflexivity).
  rewrite Heq. auto.
Qed.

Lemma calls_once_traced {A} (view : A -> option Response) (cl : call) (body : M S A) :
  silent body -> shaped (traced view cl body) (calls_once cl).
Proof.
  intro Hs. apply (shaped_weaken _ (one_call view cl)); [|apply shaped_traced; exact Hs].
  intros r evs (ev & -> & Hcall & _). exists ev. auto.
Qed.

Lemma calls_once_returning {A B} (cl : call) (m : M S A) (f : A -> B) :
  shaped m (calls_once cl) -> shaped (bind m (fun a => ret (f a))) (calls_once cl).
Proof.
  intros Hm w. destruct (Hm w) as (evs & Ht & Hq). exists evs.
  unfold bind. destruct (m w) as [[a|e] w1]; cbn in *; auto.
Qed.

Ltac quiet :=
  repeat first
    [ apply silent_bind; [|intro]
    | apply silent_if
    | apply silent_ret
    | apply silent_raise
    | apply silent_lift
    | apply silent_send_request
    | apply silent_search ].

Ltac a_lookup := apply shaped_traced; quiet.
Ltac a_creation := apply calls_once_traced; quiet.

Lemma follows_url_part (cfg : config) (client : NewRelicClient) (policy : Response)
    (url : string) :
  shaped (url_part post cfg client policy url) (follows [Monitor; Condition]).
Proof.
  unfold url_part, or_create. apply shaped_assoc.
  apply (follows_bind _ _ [Monitor] [Condition]).
  - apply (follows_step Monitor _ _ (fun r => r) (GetSyntheticsMonitor url)
             (CreateSyntheticsMonitor url url (NEWRELIC_MONITORING_PERIOD cfg)
                [NEWRELIC_MONITORING_LOCATION cfg]));
      try reflexivity; [a_lookup|apply calls_once_returning; a_creation].
  - intro monitor.
    apply (follows_step Condition _ _ (fun _ => tt) (GetAlertCondition (name monitor))
             (CreateAlertCondition (name monitor) url (id policy)));
      try reflexivity; [a_lookup|apply calls_once_returning; a_creation].
Qed.

Lemma follows_monitor_config_part (cfg : config) (client : NewRelicClient)
    (policy : Response) (m : monitor_config) :
  shaped (monitor_config_part post cfg client policy m)
         (follows (kinds_of_monitor_config m)).
Proof.
  unfold monitor_config_part, workflow_part, or_create.
  apply shaped_assoc. apply (follows_bind _ _ [Destination] (_ :: _ :: _)).
  { apply (follows_step Destination _ _ (fun r => r)
             (GetNotificationDestination ("Default notification channel for " ++ NEWRELIC_NAME cfg))
             (CreateNotificationDestination ("Default notification channel for " ++ NEWRELIC_NAME cfg) (recipient m)));
      try reflexivity; [a_lookup|a_creation]. }
  intro destination.
  apply shaped_assoc. apply (follows_bind _ _ [Channel] (_ :: _)).
  { apply (follows_step Channel _ _ (fun r => r)
             (GetNotificationChannel ("Default notification channel for " ++ NEWRELIC_NAME cfg))
             (CreateNotificationChannel ("Default notification channel for " ++ NEWRELIC_NAME cfg) (id destination)));
      try reflexivity; [a_lookup|a_creation]. }
  intro channel.
  apply shaped_assoc. apply (follows_bind _ _ [Workflow] _).
  { apply (follows_step Workflow _ _ (fun r => r)
             (GetAiWorkflow (NEWRELIC_NAME cfg))
             (CreateAiWorkflow (NEWRELIC_NAME cfg) (id policy) (id channel)));
      try reflexivity; [a_lookup|a_creation]. }
  intro workflow. apply follows_for_each. intro url. apply follows_url_part.
Qed.

Lemma follows_create_alert_workflow (cfg : config) :
  shaped (create_alert_workflow S post title cfg) (follows (kinds_of_config cfg)).
Proof.
  rewrite create_alert_workflow_parts. unfold or_create.
  apply shaped_assoc. apply (follows_bind _ _ [Policy] _).
  { apply (follows_step Policy _ _ (fun r => r)
             (GetAlertPolicy (policy_name_of title cfg)) (CreateAlertPolicy (policy_name_of title cfg)));
      try reflexivity; [a_lookup|a_creation]. }
  intro policy. apply follows_for_each. intro m. apply follows_monitor_config_part.
Qed.

Lemma kinds_of_config_required (cfg : config) :
  kinds_of_config cfg = map fst (required title cfg).
Proof.
  unfold kinds_of_config, required. cbn [map fst]. f_equal.
  induction (NEWRELIC_SYNTHETICS_MONITORS cfg) as [|m ms IH]; [reflexivity|].
  cbn [flat_map]. rewrite map_app, <- IH. f_equal.
  unfold kinds_of_monitor_config, required_of_monitor_config. cbn [app map fst].
  do 3 f_equal. unfold kinds_of_urls.
  induction (urls m) as [|u us IHu]; [reflexivity|].
  cbn [flat_map app map fst required_of_url]. rewrite IHu. reflexivity.
Qed.

Lemma paired_fewer_creations (evs : list (event S)) :
  paired evs -> length (creations evs) <= length (lookups evs).
Proof.
  unfold creations, lookups.
  induction 1 as [|g evs Hg _ IH|g c evs Hg _ Hc _ _ IH]; cbn [filter].
  - cbn; lia.
  - rewrite Hg. unfold is_get in Hg. destruct (is_create (ev_call g)); [discriminate|].
    cbn [length]. lia.
  - rewrite Hg, Hc.
    replace (is_get (ev_call c)) with false by (unfold is_get; rewrite Hc; reflexivity).
    unfold is_get in Hg.
    destruct (is_create (ev_call g)); [discriminate|]. cbn [length]. lia.
Qed.

(** X11. On any platform, a creation of the run comes immediately after a
    lookup of the same kind and name that returned nothing: the run never
    creates what it did not first look for and fail to find. *)
Theorem creation_follows_failed_lookup :
  forall (cfg : config) (w : world S) (before after : list (event S)) (cr : event S),
    trace (snd (create_alert_workflow S post title cfg w))
    = (trace w ++ before ++ cr :: after)%list ->
    is_create (ev_call cr) = true ->
    exists before' g,
      before = (before' ++ [g])%list
      /\ is_get (ev_call g) = true
      /\ ev_outcome g = Ok None
      /\ target (ev_call g) = target (ev_call cr).
Proof.
  intros cfg w before after cr Htrace Hcreate.
  destruct (follows_create_alert_workflow cfg w) as (evs & Ht & Hp & _).
  rewrite Ht in Htrace. apply app_inv_head in Htrace.
  exact (paired_preceded evs Hp before cr after Htrace Hcreate).
Qed.

(** X12. On any platform, the lookups of a run are of the kinds the
    configuration asks for, in its order: the policy, then for each monitor
    configuration the destination, the channel and the workflow, then for
    each URL the monitor and the condition. A run that returns made all of
    them, a run that raised made the first ones; and no run makes more
    creations than lookups. *)
Theorem lookups_follow_configuration :
  forall (cfg : config) (w : world S) (evs : list (event S)),
    trace (snd (create_alert_workflow S post title cfg w)) = (trace w ++ evs)%list ->
    (exists rest, map fst (required title cfg) = (map kind_of (lookups evs) ++ rest)%list)
    /\ (fst (create_alert_workflow S post title cfg w) = Ok tt ->
        map kind_of (lookups evs) = map fst (required title cfg))
    /\ length (creations evs) <= length (lookups evs).
Proof.
  intros cfg w evs Htrace.
  destruct (follows_create_alert_workflow cfg w) as (evs' & Ht & Hp & rest & Hks & Hrest).
  rewrite Ht in Htrace. apply app_inv_head in Htrace. subst evs'.
  rewrite <- kinds_of_config_required.
  split; [exists rest; exact Hks|].
  split; [|exact (paired_fewer_creations evs Hp)].
  intro Hok. rewrite (Hrest tt Hok), app_nil_r in Hks. symmetry. exact Hks.
Qed.

(** X13. With no monitor configuration, a run on any platform is the
    policy step alone. It always makes the policy lookup, first. When the
    lookup finds the policy, or raises, that is the only call, and the run
    returns, or raises what the lookup raised. When the lookup finds
    nothing, the policy creation follows and is the last call, and the run
    returns, or raises what the creation raised. *)
Theorem no_monitors_only_policy :
  forall (cfg : config) (w : world S),
    NEWRELIC_SYNTHETICS_MONITORS cfg = [] ->
    exists g,
      ev_call g = GetAlertPolicy (policy_name_of title cfg)
      /\ ((ev_outcome g <> Ok None
           /\ trace (snd (create_alert_workflow S post title cfg w))
              = (trace w ++ [g])%list
           /\ fst (create_alert_workflow S post title cfg w)
              = match ev_outcome g with Ok _ => Ok tt | Err e => Err e end)
          \/ (ev_outcome g = Ok None
              /\ exists cr,
                   ev_call cr = CreateAlertPolicy (policy_name_of title cfg)
                   /\ trace (snd (create_alert_workflow S post title cfg w))
                      = (trace w ++ [g; cr])%list
                   /\ fst (create_alert_workflow S post title cfg w)
                      = match ev_outcome cr with Ok _ => Ok tt | Err e => Err e end)).
Proof.
  intros cfg w Hnone.
  rewrite create_alert_workflow_parts, Hnone. cbn [for_each]. unfold bind, or_create.
  assert (Hget : shaped (get_alert_policy S post (client_of cfg) (policy_name_of title cfg))
                   (one_call (fun r => r) (GetAlertPolicy (policy_name_of title cfg))))
    by a_lookup.
  assert (Hcreate : shaped (create_alert_policy S post (client_of cfg)
                              (policy_name_of title cfg))
                      (one_call Some (CreateAlertPolicy (policy_name_of title cfg))))
    by a_lookup.
  destruct (Hget w) as (evs1 & Ht1 & g & -> & Hg & Hout).
  exists g. split; [exact Hg|].
  destruct (get_alert_policy S post (client_of cfg) (policy_name_of title cfg) w)
    as [[[policy|]|e] w1]; cbn [fst snd] in *.
  - left. rewrite Hout. split; [discriminate|]. split; [exact Ht1|reflexivity].
  - right. split; [exact Hout|].
    destruct (Hcreate w1) as (evs2 & Ht2 & cr & -> & Hc & Hout2).
    exists cr. split; [exact Hc|].
    destruct (create_alert_policy S post (client_of cfg) (policy_name_of title cfg) w1)
      as [[policy|e] w2]; cbn [fst snd ret] in *; rewrite Hout2;
      (split; [rewrite Ht2, Ht1, <- app_assoc; reflexivity|reflexivity]).
  - left. rewrite Hout. split; [discriminate|]. split; [exact Ht1|reflexivity].
Qed.

End Shape.

Lemma creation_follows_failed_lookup_witness :
  exists before' g,
    firstn 1 demo_trace = (before' ++ [g])%list
    /\ is_get (ev_call g) = true
    /\ ev_outcome g = Ok None
    /\ target (ev_call g) = target (ev_call (demo_event 1)).
Proof.
  refine (creation_follows_failed_lookup Remembering.respond PyStr.title demo_config (nothing_yet [])
            (firstn 1 demo_trace) (skipn 2 demo_trace) (demo_event 1) _ _).
  - vm_compute. reflexivity.
  - vm_compute. reflexivity.
Defined.

Lemma lookups_follow_configuration_witness :
  (exists rest,
      map fst (required PyStr.title demo_config) = (map kind_of (lookups demo_trace) ++ rest)%list)
  /\ (fst (create_alert_workflow Remembering.state Remembering.respond PyStr.title demo_config
             (nothing_yet [])) = Ok tt ->
      map kind_of (lookups demo_trace) = map fst (required PyStr.title demo_config))
  /\ length (creations demo_trace) <= length (lookups demo_trace).
Proof.
  exact (lookups_follow_configuration Remembering.respond PyStr.title demo_config (nothing_yet [])
           demo_trace eq_refl).
Defined.

Lemma no_monitors_only_policy_witness :
  exists g,
    ev_call g = GetAlertPolicy (policy_name_of PyStr.title no_monitors_config)
    /\ ((ev_outcome g <> Ok None
         /\ trace (snd (create_alert_workflow Remembering.state Remembering.respond
                          PyStr.title no_monitors_config (nothing_yet [])))
            = ([] ++ [g])%list
         /\ fst (create_alert_workflow Remembering.state Remembering.respond
                   PyStr.title no_monitors_config (nothing_yet []))
            = match ev_outcome g with Ok _ => Ok tt | Err e => Err e end)
        \/ (ev_outcome g = Ok None
            /\ exists cr,
                 ev_call cr
                 = CreateAlertPolicy (policy_name_of PyStr.title no_monitors_config)
                 /\ trace (snd (create_alert_workflow Remembering.state
                                  Remembering.respond PyStr.title no_monitors_config
                                  (nothing_yet [])))
                    = ([] ++ [g; cr])%list
                 /\ fst (create_alert_workflow Remembering.state Remembering.respond
                           PyStr.title no_monitors_config (nothing_yet []))
                    = match ev_outcome cr with Ok _ => Ok tt | Err e => Err e end)).
Proof.
  exact (no_monitors_only_policy Remembering.respond PyStr.title no_monitors_config
           (nothing_yet []) eq_refl).
Defined.

(** ** More on runs against the platform that remembers *)

(** X14. A run against a platform that already holds a resource for every
    (kind, name) pair of the configuration returns, leaves the platform as
    it was, makes no creation, and finds a resource at each lookup. *)
Theorem complete_platform_is_left_alone :
  forall (title : string -> string) (cfg : config) (st : Remembering.state),
    (forall key, In key (required title cfg) -> Provision.present st key = true) ->
    fst (run_from title st cfg) = Ok tt
    /\ remote (snd (run_from title st cfg)) = st
    /\ creations (trace (snd (run_from title st cfg))) = []
    /\ forallb found_one (trace (snd (run_from title st cfg))) = true.
Proof.
  intros title cfg st Hcomplete. unfold run_from.
  destruct (provisions_create_alert_workflow title cfg (nothing_yet st))
    as ([] & evs & w' & -> & _ & Ht & Hr & _ & Hc & Hf).
  cbn [fst snd nothing_yet remote trace app] in *.
  assert (Hnone : Provision.added (required title cfg) st = []).
  { apply added_present. apply forallb_forall. exact Hcomplete. }
  rewrite Hnone in *. rewrite app_nil_r in Hr. rewrite Ht, Hr.
  split; [reflexivity|]. split; [reflexivity|]. split.
  - cbn in Hc. destruct (creations evs); [reflexivity|discriminate].
  - exact (Hf eq_refl).
Qed.

Lemma complete_platform_is_left_alone_witness :
  fst (run_from PyStr.title (remote (snd (first_run PyStr.title demo_config))) demo_config) = Ok tt
  /\ remote (snd (run_from PyStr.title (remote (snd (first_run PyStr.title demo_config))) demo_config))
     = remote (snd (first_run PyStr.title demo_config))
  /\ creations (trace (snd (run_from PyStr.title (remote (snd (first_run PyStr.title demo_config)))
                             demo_config))) = []
  /\ forallb found_one
       (trace (snd (run_from PyStr.title (remote (snd (first_run PyStr.title demo_config))) demo_config)))
     = true.
Proof.
  refine (complete_platform_is_left_alone PyStr.title demo_config
            (remote (snd (first_run PyStr.title demo_config))) _).
  intros key Hin. vm_compute in Hin.
  repeat (destruct Hin as [<-|Hin]; [vm_compute; reflexivity|]).
  destruct Hin.
Defined.

(** X15. From whatever the platform holds, a run returns and only adds to
    it: what was there stays, in place; no added resource has the kind and
    name of one that was there or of another added one; every added
    resource is one the configuration asks for; and afterwards the platform
    holds a resource for every pair of the configuration. *)
Theorem run_only_adds_what_is_missing :
  forall (title : string -> string) (cfg : config) (st : Remembering.state),
    exists new,
      fst (run_from title st cfg) = Ok tt
      /\ remote (snd (run_from title st cfg)) = (st ++ new)%list
      /\ NoDup (map key_of new)
      /\ (forall r, In r new ->
                    In (key_of r) (required title cfg)
                    /\ Provision.present st (key_of r) = false)
      /\ (forall key, In key (required title cfg) ->
                      Provision.present (app st new) key = true).
Proof.
  intros title cfg st. unfold run_from.
  destruct (provisions_create_alert_workflow title cfg (nothing_yet st))
    as ([] & evs & w' & -> & _ & _ & Hr & _).
  cbn [fst snd nothing_yet remote] in *.
  exists (Provision.added (required title cfg) st).
  split; [reflexivity|]. split; [exact Hr|].
  split; [apply added_nodup|].
  split; [intros r Hin; exact (added_keys _ _ _ Hin)|].
  intros key Hin. exact (present_added _ _ _ Hin).
Qed.

(** ** The identifiers a run passes on *)

Section Wiring.

Import Remembering Provision.

Variable title : string -> string.

Variable cfg : config.

Lemma find_resource_app (k : kind) (n : string) (st more : state) (r : Response) :
  find_resource k n st = Some r -> find_resource k n (st ++ more)%list = Some r.
Proof.
  unfold find_resource. induction st as [|x st IH]; cbn [find app]; [discriminate|].
  destruct (kind_eqb (res_kind x) k && String.eqb (res_name x) n); auto.
Qed.

Lemma find_resource_added (k : kind) (n : string) (st : state) (x : resource) :
  res_kind x = k -> res_name x = n ->
  find_resource k n st = None ->
  find_resource k n (st ++ [x])%list = Some {| id := res_id x; name := n |}.
Proof.
  intros Hk Hn. unfold find_resource.
  induction st as [|y st IH]; cbn [find app].
  - intros _. rewrite Hk, Hn, String.eqb_refl.
    replace (kind_eqb k k) with true by (destruct k; reflexivity).
    cbn. rewrite Hn. reflexivity.
  - destruct (kind_eqb (res_kind y) k && String.eqb (res_name y) n);
      [discriminate|exact IH].
Qed.

Lemma find_resource_new (k : kind) (n : string) (st : state) :
  find_resource k n st = None ->
  find_resource k n (st ++ [remember st (k, n)])%list
  = Some {| id := fresh_id st; name := n |}.
Proof.
  intro H. exact (find_resource_added k n st (remember st (k, n)) eq_refl eq_refl H).
Qed.

Lemma wired_more (st more : state) (cl : call) :
  wired title cfg st cl -> wired title cfg (app st more) cl.
Proof.
  destruct cl; cbn; auto.
  - intros ((r & Hr & Hid) & (r' & Hr') & Hm).
    repeat split; eauto using find_resource_app.
  - intros (r & Hr & Hid). eauto using find_resource_app.
  - intros ((r & Hr & Hid) & (r' & Hr' & Hid')).
    split; eauto using find_resource_app.
Qed.

Lemma wired_get_call (st : state) (k : kind) (arg : string) :
  wired title cfg st (get_call k arg).
Proof. destruct k; exact I. Qed.

Lemma keeps_ret {A} (Pre : state -> Prop) (a : A) (Post : A -> state -> Prop) :
  (forall st, Pre st -> Post a st) -> keeps title cfg Pre (ret a) Post.
Proof.
  intros H w Hpre. exists a, [], w, []. rewrite !app_nil_r.
  repeat split; auto.
Qed.

Lemma keeps_bind {A B} (Pre : state -> Prop) (m : M state A) (k : A -> M state B)
    (Mid : A -> state -> Prop) (Post : B -> state -> Prop) :
  keeps title cfg Pre m Mid ->
  (forall a, keeps title cfg (Mid a) (k a) Post) ->
  keeps title cfg Pre (bind m k) Post.
Proof.
  intros Hm Hk w Hpre.
  destruct (Hm w Hpre) as (a & evs1 & w1 & more1 & Hrun1 & Ht1 & Hr1 & Hw1 & Hmid).
  destruct (Hk a w1 Hmid) as (b & evs2 & w2 & more2 & Hrun2 & Ht2 & Hr2 & Hw2 & Hpost).
  exists b, (evs1 ++ evs2)%list, w2, (more1 ++ more2)%list.
  split; [unfold bind; rewrite Hrun1; exact Hrun2|].
  split; [rewrite Ht2, Ht1, app_assoc; reflexivity|].
  split; [rewrite Hr2, Hr1, app_assoc; reflexivity|].
  split; [|exact Hpost].
  apply Forall_app. split; [|exact Hw2].
  rewrite Hr2. eapply Forall_impl; [|exact Hw1].
  intros ev Hev. apply wired_more. exact Hev.
Qed.

Lemma keeps_assoc {A B C} (Pre : state -> Prop) (m : M state A) (f : A -> M state B)
    (g : B -> M state C) (Post : C -> state -> Prop) :
  keeps title cfg Pre (bind (bind m f) g) Post ->
  keeps title cfg Pre (bind m (fun a => bind (f a) g)) Post.
Proof.
  intros H w Hpre. destruct (H w Hpre) as (c & evs & w' & more & Hrun & Hrest).
  exists c, evs, w', more. split; [|exact Hrest].
  rewrite <- Hrun. unfold bind. destruct (m w) as [[a|e] w1]; reflexivity.
Qed.

Lemma keeps_weaken {A} (Pre Pre' : state -> Prop) (m : M state A)
    (Post Post' : A -> state -> Prop) :
  (forall st, Pre' st -> Pre st) ->
  (forall a st, Post a st -> Post' a st) ->
  keeps title cfg Pre m Post -> keeps title cfg Pre' m Post'.
Proof.
  intros Hpre Hpost H w Hw.
  destruct (H w (Hpre _ Hw)) as (a & evs & w' & more & Hrun & Ht & Hr & Hwired & Hp).
  exists a, evs, w', more. auto 10.
Qed.

Lemma keeps_for_each {A} (Inv : state -> Prop) (xs : list A)
    (body : A -> M state unit) :
  (forall x, keeps title cfg Inv (body x) (fun _ => Inv)) ->
  keeps title cfg Inv (for_each xs body) (fun _ => Inv).
Proof.
  intro Hbody. induction xs as [|x xs IH]; cbn [for_each].
  - apply keeps_ret. auto.
  - apply (keeps_bind _ _ _ (fun _ => Inv)); [apply Hbody|intros _; exact IH].
Qed.

(** One get-or-create step: what it returns is what the platform holds
    under the kind and name afterwards. *)
Lemma keeps_step {A} (k : kind) (c : NewRelicClient) (arg : string)
    (on_found : Response -> A) (create : M state A) (the_call : call)
    (Pre : state -> Prop) :
  (forall st more, Pre st -> Pre (st ++ more)%list) ->
  (forall st, Pre st -> wired title cfg st the_call) ->
  (forall w,
      create w
      = (Ok (on_found {| id := fresh_id (remote w); name := searched_name k arg |}),
         created_world w (k, searched_name k arg) the_call)) ->
  keeps title cfg Pre
    (bind (get_resource respond k c arg)
          (fun found => match found with
                        | Some r => ret (on_found r)
                        | None => create
                        end))
    (fun a st => Pre st
                 /\ exists r, a = on_found r
                              /\ find_resource k (searched_name k arg) st = Some r).
Proof.
  intros Hstable Hwired Hcreate w Hpre.
  unfold bind. rewrite get_resource_remembered.
  destruct (find_resource k (searched_name k arg) (remote w)) as [r|] eqn:F.
  - eexists (on_found r),
      [{| ev_call := get_call k arg; ev_outcome := Ok (Some r); ev_remote := remote w |}],
      _, [].
    split; [reflexivity|]. cbn [remote trace]. rewrite app_nil_r.
    repeat split; auto.
    + constructor; [apply wired_get_call|constructor].
    + exists r. auto.
  - rewrite Hcreate. unfold created_world. cbn [remote trace].
    eexists _, [_; _], _, [_].
    split; [reflexivity|]. cbn [remote trace].
    split; [rewrite <- app_assoc; reflexivity|].
    split; [reflexivity|].
    split.
    + constructor; [apply wired_get_call|].
      constructor; [|constructor]. cbn [ev_call].
      apply wired_more. apply Hwired. exact Hpre.
    + split; [apply Hstable; exact Hpre|].
      eexists. split; [reflexivity|]. apply find_resource_new. exact F.
Qed.

Let policy_is (policy : Response) (st : state) : Prop :=
  find_resource Policy (policy_name_of title cfg) st = Some policy.

Let dst_name : string := "Default notification channel for " ++ NEWRELIC_NAME cfg.

Lemma keeps_url_part (policy : Response) (url : string) :
  keeps title cfg (policy_is policy) (url_part respond cfg (client_of cfg) policy url)
        (fun _ => policy_is policy).
Proof.
  unfold url_part, or_create. apply keeps_assoc.
  eapply keeps_bind.
  - apply (keeps_step Monitor (client_of cfg) url (fun r => r) _
             (CreateSyntheticsMonitor url url (NEWRELIC_MONITORING_PERIOD cfg)
                [NEWRELIC_MONITORING_LOCATION cfg]) (policy_is policy)).
    + intros st more H. exact (find_resource_app _ _ _ _ _ H).
    + intros; exact I.
    + intro w. reflexivity.
  - intro monitor. cbv beta.
    eapply keeps_weaken;
      [intros st H; exact H
      |
      |apply (keeps_step Condition (client_of cfg) (name monitor) (fun _ => tt) _
                (CreateAlertCondition (name monitor) url (id policy)))].
    + intros [] st [[Hpolicy _] _]. exact Hpolicy.
    + intros st more (Hpolicy & r & Hr & Hfind).
      split; [exact (find_resource_app _ _ _ _ _ Hpolicy)|].
      exists r. split; [exact Hr|exact (find_resource_app _ _ _ _ _ Hfind)].
    + intros st (Hpolicy & r & -> & Hfind). cbn.
      pose proof (find_resource_name _ _ _ _ Hfind) as Hname. cbn in Hname.
      repeat split; eauto. rewrite Hname. eauto.
    + intro w. reflexivity.
Qed.

Lemma keeps_monitor_config_part (policy : Response) (m : monitor_config) :
  keeps title cfg (policy_is policy)
        (monitor_config_part respond cfg (client_of cfg) policy m)
        (fun _ => policy_is policy).
Proof.
  unfold monitor_config_part, workflow_part, or_create. fold dst_name.
  apply keeps_assoc. eapply keeps_bind.
  { apply (keeps_step Destination (client_of cfg) dst_name (fun r => r) _
             (CreateNotificationDestination dst_name (recipient m)) (policy_is policy)).
    - intros st more H. exact (find_resource_app _ _ _ _ _ H).
    - intros; exact I.
    - intro w. reflexivity. }
  intro destination. cbv beta.
  apply keeps_assoc. eapply keeps_bind.
  { apply (keeps_step Channel (client_of cfg) dst_name (fun r => r) _
             (CreateNotificationChannel dst_name (id destination))).
    - intros st more (Hpolicy & r & Hr & Hfind).
      split; [exact (find_resource_app _ _ _ _ _ Hpolicy)|].
      exists r. split; [exact Hr|exact (find_resource_app _ _ _ _ _ Hfind)].
    - intros st (Hpolicy & r & -> & Hfind). cbn [wired searched_name] in *. eauto.
    - intro w. reflexivity. }
  intro channel. cbv beta.
  apply keeps_assoc. eapply keeps_bind.
  { apply (keeps_step Workflow (client_of cfg) (NEWRELIC_NAME cfg) (fun r => r) _
             (CreateAiWorkflow (NEWRELIC_NAME cfg) (id policy) (id channel))).
    - intros st more ((Hpolicy & r & Hr & Hfind) & r' & Hr' & Hfind').
      split; [split; [exact (find_resource_app _ _ _ _ _ Hpolicy)|]|].
      + exists r. split; [exact Hr|exact (find_resource_app _ _ _ _ _ Hfind)].
      + exists r'. split; [exact Hr'|exact (find_resource_app _ _ _ _ _ Hfind')].
    - intros st ((Hpolicy & _) & r' & -> & Hfind').
      cbn [wired searched_name] in *. fold dst_name. unfold policy_is in Hpolicy.
      split; [exists policy|exists r']; auto.
    - intro w. reflexivity. }
  intro workflow. cbv beta.
  eapply keeps_weaken; [| |apply keeps_for_each; intro url; apply keeps_url_part].
  - intros st (((Hpolicy & _) & _) & _). exact Hpolicy.
  - intros [] st H. exact H.
Qed.

Lemma keeps_create_alert_workflow :
  keeps title cfg (fun _ => True) (create_alert_workflow state respond title cfg) (fun _ _ => True).
Proof.
  rewrite create_alert_workflow_parts. unfold or_create.
  apply keeps_assoc. eapply keeps_bind.
  { apply (keeps_step Policy (client_of cfg) (policy_name_of title cfg) (fun r => r) _
             (CreateAlertPolicy (policy_name_of title cfg)) (fun _ => True)).
    - auto.
    - intros; exact I.
    - intro w. reflexivity. }
  intro policy. cbv beta.
  eapply keeps_weaken;
    [| |apply keeps_for_each; intro m; apply (keeps_monitor_config_part policy)].
  - intros st (_ & r & -> & Hfind). exact Hfind.
  - auto.
Qed.

(** X16. In a run against the platform that remembers, from whatever it
    holds, every creation is given the identifiers of the resources the
    platform holds when the run ends: a channel the identifier of the
    destination of its name; a workflow those of the policy and of the
    channel of the instance; a condition that of the policy, for a monitor
    that exists and is named as the condition's URL. *)
Theorem creations_are_wired :
  forall (st : state) (ev : event state),
    In ev (trace (snd (run_from title st cfg))) ->
    let final := remote (snd (run_from title st cfg)) in
    (forall n d,
        ev_call ev = CreateNotificationChannel n d ->
        exists r, find_resource Destination n final = Some r /\ id r = d)
    /\ (forall i p ch,
           ev_call ev = CreateAiWorkflow i p ch ->
           (exists r, find_resource Policy (policy_name_of title cfg) final = Some r
                      /\ id r = p)
           /\ (exists r, find_resource Channel
                           ("Default notification channel for " ++ i) final = Some r
                         /\ id r = ch))
    /\ (forall mn u p,
           ev_call ev = CreateAlertCondition mn u p ->
           (exists r, find_resource Policy (policy_name_of title cfg) final = Some r
                      /\ id r = p)
           /\ (exists r, find_resource Monitor mn final = Some r)
           /\ mn = u).
Proof.
  intros st ev Hin. unfold run_from in *.
  destruct (keeps_create_alert_workflow (nothing_yet st) I)
    as ([] & evs & w' & more & Hrun & Ht & _ & Hwired & _).
  rewrite Hrun in *. cbn [snd nothing_yet trace app] in *. rewrite Ht in Hin.
  rewrite Forall_forall in Hwired. specialize (Hwired ev Hin).
  cbv zeta. repeat split; intros; 
    match goal with H : ev_call ev = _ |- _ => rewrite H in Hwired end;
    cbn in Hwired; tauto.
Qed.

End Wiring.

Lemma creations_are_wired_witness :
  exists r,
    Remembering.find_resource Destination "Default notification channel for demo"
      (remote (snd (run_from PyStr.title [] demo_config))) = Some r
    /\ id r = "1".
Proof.
  refine (proj1 (creations_are_wired PyStr.title demo_config [] (demo_event 5) _)
                "Default notification channel for demo" "1" eq_refl).
  vm_compute. do 5 right. left. reflexivity.
Defined.
